(** * Task CRUD service (problem5): validation, query construction,
      service operations, handlers and error translation.

    A shallow embedding of
      - [src/validators/task.validator.ts]   (the three Zod schemas),
      - [src/services/task.service.ts]       (TaskService),
      - [src/controllers/task.controller.ts] (TaskController),
      - [src/middleware/errorHandler.ts]     (errorHandler),
      - [src/middleware/validateId.ts]       (validateTaskId),
    together with the parts of their collaborators (JavaScript built-ins,
    Zod 3, Prisma Client) that the code calls; and of the three sums of
    problem4 and the balance ranking of problem3's wallet page.

    Conventions.
      - A JavaScript string is a [string]; one character stands for one
        code unit, so [String.length] is the [.length] of the source.
      - A JavaScript number is a [JS.number]: [NaN], an infinity, or a
        finite integer (the code computes no fraction); -0 is not told
        from 0. Numbers that are counts or engine-assigned ids are
        plain [Z].
      - [undefined] (an absent property) is [None] in an [option]. *)

From stdpp Require Import base option list gmap strings pretty sorting.
From Stdlib Require Import ZArith String Ascii Lia.
From Stdlib Require QArith.
From Stdlib Require Import Recdef.

Local Open Scope string_scope.
Local Open Scope list_scope.
Local Open Scope Z_scope.

(** ** JavaScript built-ins used by the code *)

Module JS.

(** Truthiness of a string: every string but the empty one. *)
Definition truthy (s : string) : bool :=
  match s with
  | EmptyString => false
  | String _ _ => true
  end.

(** [StrWhiteSpaceChar] restricted to 8-bit code units. *)
Definition is_white_space (c : ascii) : bool :=
  let n := nat_of_ascii c in
  orb (andb (Nat.leb 9 n) (Nat.leb n 13)) (orb (Nat.eqb n 32) (Nat.eqb n 160)).

Fixpoint trim_start (s : string) : string :=
  match s with
  | String c s' => if is_white_space c then trim_start s' else s
  | EmptyString => s
  end.

Definition digit_value (c : ascii) : option Z :=
  let n := nat_of_ascii c in
  if andb (Nat.leb 48 n) (Nat.leb n 57) then Some (Z.of_nat n - 48) else None.

(** Longest prefix of decimal digits, most significant first. *)
Fixpoint digits_prefix (s : string) : list Z :=
  match s with
  | String c s' =>
      match digit_value c with
      | Some d => d :: digits_prefix s'
      | None => []
      end
  | EmptyString => []
  end.

Definition digits_value (ds : list Z) : Z :=
  fold_left (fun acc d => 10 * acc + d) ds 0.

(** The numbers that reach the code. [Int z] is the finite number with the
    integer value [z]. *)
Inductive number : Type :=
  | NaN
  | Infinity
  | NegInfinity
  | Int (z : Z).

(** The integer nearest to [n >= 0] among those a double holds: 53
    significant bits are kept, a tie goes to the even significand. *)
Definition round53 (n : Z) : Z :=
  let e := Z.log2 n - 52 in
  if e <=? 0 then n
  else
    let q := n / 2 ^ e in
    let r := n mod 2 ^ e in
    let half := 2 ^ (e - 1) in
    (if (half <? r) || ((r =? half) && Z.odd q) then q + 1 else q) * 2 ^ e.

(** The Number value of a mathematical integer: the nearest double, an
    infinity from 2^1024 on. *)
Definition number_value (z : Z) : number :=
  let m := round53 (Z.abs z) in
  if 2 ^ 1024 <=? m then (if z <? 0 then NegInfinity else Infinity)
  else Int (Z.sgn z * m).

(** [parseInt(s, 10)]: skip leading white space, read an optional sign,
    read the longest run of decimal digits and ignore the rest; [NaN] when
    that run is empty, the Number value of the integer read otherwise. *)
Definition parseInt10 (s : string) : number :=
  let t := trim_start s in
  let '(sign, body) :=
    match t with
    | String "-" r => (-1, r)
    | String "+" r => (1, r)
    | _ => (1, t)
    end in
  match digits_prefix body with
  | [] => NaN
  | ds => number_value (sign * digits_value ds)
  end.

Definition isNaN (x : number) : bool :=
  match x with NaN => true | _ => false end.

(** [<] and [<=] are false as soon as one side is [NaN]. *)
Definition lt (x y : number) : bool :=
  match x, y with
  | Int a, Int b => a <? b
  | NegInfinity, (Int _ | Infinity) => true
  | Int _, Infinity => true
  | _, _ => false
  end.

Definition le (x y : number) : bool :=
  match x, y with
  | NaN, _ | _, NaN => false
  | Int a, Int b => a <=? b
  | NegInfinity, _ => true
  | _, Infinity => true
  | _, _ => false
  end.

(** [+]: the Number value of the exact sum. *)
Definition add (x y : number) : number :=
  match x, y with
  | NaN, _ | _, NaN => NaN
  | Int a, Int b => number_value (a + b)
  | Infinity, NegInfinity | NegInfinity, Infinity => NaN
  | Infinity, _ | _, Infinity => Infinity
  | NegInfinity, _ | _, NegInfinity => NegInfinity
  end.

(** [Number.prototype.toString] on a non-negative integer. *)
Definition index_to_string (n : N) : string := pretty n.

(** [Array.prototype.join]. *)
Fixpoint join (sep : string) (l : list string) : string :=
  match l with
  | [] => ""
  | [x] => x
  | x :: rest => x +:+ sep +:+ join sep rest
  end.

End JS.

(** ** JSON values, as [express.json()] and the query parser deliver them *)

#[local] Set Warnings "-register-all".

Inductive json : Type :=
  | JNull
  | JBool (b : bool)
  | JNum (n : Z)
  | JStr (s : string)
  | JArr (l : list json)
  | JObj (fields : gmap string json).


(** A possibly absent property value: [None] is [undefined]. *)
Abbreviation value := (option json).

(** ** The part of Zod 3 that the validators use *)

Module Zod.

Inductive PathElem : Type :=
  | PKey (k : string)
  | PIndex (i : N).

Inductive IssueCode : Type :=
  | invalid_type
  | invalid_enum_value
  | too_small
  | too_big
  | custom.

Record ZodIssue : Type := mkIssue {
  code : IssueCode;
  path : list PathElem;
  message : string;
}.

(** The outcome of a schema's [_parse]: the issues it reported and its
    output; no output ([None]) is Zod's [INVALID] (status "aborted"), an
    output together with issues is status "dirty". *)
Record ParseReturn (A : Type) : Type := mkParse {
  issues : list ZodIssue;
  output : option A;
}.
Arguments mkParse {A} _ _.
Arguments issues {A} _.
Arguments output {A} _.

Definition Schema (A : Type) : Type := list PathElem -> value -> ParseReturn A.

Definition OK {A} (a : A) : ParseReturn A := mkParse [] (Some a).
Definition INVALID {A} (i : ZodIssue) : ParseReturn A := mkParse [i] None.

Definition isValid {A} (r : ParseReturn A) : bool :=
  match issues r, output r with
  | [], Some _ => true
  | _, _ => false
  end.

(** [getParsedType], as the default error map prints it. *)
Definition parsedType (v : value) : string :=
  match v with
  | None => "undefined"
  | Some JNull => "null"
  | Some (JBool _) => "boolean"
  | Some (JNum _) => "number"
  | Some (JStr _) => "string"
  | Some (JArr _) => "array"
  | Some (JObj _) => "object"
  end.

(** The default error map's message for [invalid_type]. *)
Definition invalid_type_issue (expected : string) (p : list PathElem) (v : value)
  : ZodIssue :=
  mkIssue invalid_type p
    (match v with
     | None => "Required"
     | Some _ => "Expected " +:+ expected +:+ ", received " +:+ parsedType v
     end).

Inductive StringCheck : Type :=
  | Min (n : nat) (msg : string)
  | Max (n : nat) (msg : string).

Definition run_check (p : list PathElem) (s : string) (c : StringCheck)
  : list ZodIssue :=
  match c with
  | Min n msg =>
      if Nat.ltb (String.length s) n then [mkIssue too_small p msg] else []
  | Max n msg =>
      if Nat.ltb n (String.length s) then [mkIssue too_big p msg] else []
  end.

(** [util.joinValues] on string literals. *)
Definition joinValues (options : list string) : string :=
  JS.join " | " (map (fun o => "'" +:+ o +:+ "'") options).

(** [z.enum([...])]: [A] is the union of the literals, [lit] gives the
    literal of each member. *)
Definition enum {A} (lit : A -> string) (options : list A) : Schema A :=
  fun p v =>
    match v with
    | Some (JStr s) =>
        match find (fun o => String.eqb (lit o) s) options with
        | Some o => OK o
        | None =>
            INVALID (mkIssue invalid_enum_value p
              ("Invalid enum value. Expected " +:+ joinValues (map lit options)
               +:+ ", received '" +:+ s +:+ "'"))
        end
    | _ => INVALID (invalid_type_issue (joinValues (map lit options)) p v)
    end.

(** [.optional()]: [undefined] is accepted as it is. *)
Definition optional {A} (inner : Schema A) : Schema (option A) :=
  fun p v =>
    match v with
    | None => OK None
    | Some _ => let r := inner p v in mkParse (issues r) (Some <$> output r)
    end.

(** [.default(d)]: [undefined] is replaced by [d] before the inner schema
    runs. *)
Definition default {A} (inner : Schema A) (d : json) : Schema A :=
  fun p v =>
    match v with
    | None => inner p (Some d)
    | Some _ => inner p v
    end.

(** [.transform(f)]: runs only on a valid inner result. *)
Definition transform {A B} (inner : Schema A) (f : A -> B) : Schema B :=
  fun p v =>
    let r := inner p v in
    if isValid r then mkParse (issues r) (f <$> output r)
    else mkParse (issues r) None.

(** [.refine(check, {message})]: skipped when the inner schema aborted,
    otherwise a failed check adds one [custom] issue at the current path
    and keeps the output. *)
Definition refine {A} (inner : Schema A) (check : A -> bool) (msg : string)
  : Schema A :=
  fun p v =>
    let r := inner p v in
    match output r with
    | None => r
    | Some a =>
        if check a then r
        else mkParse (issues r ++ [mkIssue custom p msg]) (Some a)
    end.

(** [ParseStatus.mergeObjectSync] for two properties: the issues of both
    are kept, the object is aborted when one of them is. *)
Definition merge {A B C} (f : A -> B -> C) (a : ParseReturn A) (b : ParseReturn B)
  : ParseReturn C :=
  mkParse (issues a ++ issues b)
    (match output a, output b with
     | Some x, Some y => Some (f x y)
     | _, _ => None
     end).

(** The property [k] of the object being parsed, at path [p ++ [k]]. *)
Definition prop {A} (s : Schema A) (p : list PathElem) (o : gmap string json)
    (k : string) : ParseReturn A :=
  s (p ++ [PKey k]) (o !! k).

(** [z.string()] followed by its [.min]/[.max] checks: a value that is not
    a string aborts; every check is run and a failed one leaves the
    output in place. *)
Definition string (checks : list StringCheck) : Schema string :=
  fun p v =>
    match v with
    | Some (JStr s) => mkParse (flat_map (run_check p s) checks) (Some s)
    | _ => INVALID (invalid_type_issue "string" p v)
    end.

End Zod.

(** ** Errors that reach the error translator *)

Inductive Error : Type :=
  | ZodError (issues : list Zod.ZodIssue)
  | PrismaClientKnownRequestError (code : string) (message : string)
  | OtherError (message : string).

Definition Result (A : Type) : Type := Error + A.

(** [schema.parse(data)]: the output when the parse is valid, a thrown
    [ZodError] carrying every issue otherwise (and a plain [Error] should a
    schema abort without reporting an issue). *)
Definition parse {A} (s : Zod.Schema A) (data : value) : Result A :=
  let r := s [] data in
  match Zod.issues r, Zod.output r with
  | [], Some a => inr a
  | [], None => inl (OtherError "Validation failed but no issues detected.")
  | errs, _ => inl (ZodError errs)
  end.

(** ** src/validators/task.validator.ts *)

(** The literals of [z.enum(['pending', 'in_progress', 'completed'])]. *)
Inductive TaskStatus : Type :=
  | pending
  | in_progress
  | completed.

Definition status_literal (s : TaskStatus) : string :=
  match s with
  | pending => "pending"
  | in_progress => "in_progress"
  | completed => "completed"
  end.

Definition task_statuses : list TaskStatus := [pending; in_progress; completed].

Definition statusEnum : Zod.Schema TaskStatus := Zod.enum status_literal task_statuses.

Module CreateTaskInput.
Record t : Type := mk {
  title : string;
  description : option string;
  status : option TaskStatus;
}.
End CreateTaskInput.

Module UpdateTaskInput.
Record t : Type := mk {
  title : option string;
  description : option string;
  status : option TaskStatus;
}.

(** [Object.keys(data).length]: the properties that are set. *)
Definition own {A} (x : option A) : nat :=
  match x with Some _ => 1 | None => 0 end.
Definition keys_length (d : t) : nat :=
  (own (title d) + own (description d) + own (status d))%nat.
End UpdateTaskInput.

Module ListTasksQuery.
Record t : Type := mk {
  status : option TaskStatus;
  search : option string;
  limit : JS.number;
  offset : JS.number;
}.
End ListTasksQuery.

(** [z.object({...})] over three properties: a value that is not an object
    aborts with one issue at the object's own path; unknown keys are
    stripped; every property is parsed, in the order of the shape. *)
Definition object3 {A B C R} (mk : A -> B -> C -> R)
    (k1 : string) (s1 : Zod.Schema A) (k2 : string) (s2 : Zod.Schema B)
    (k3 : string) (s3 : Zod.Schema C) : Zod.Schema R :=
  fun p v =>
    match v with
    | Some (JObj o) =>
        Zod.merge (fun f c => f c)
          (Zod.merge mk (Zod.prop s1 p o k1) (Zod.prop s2 p o k2))
          (Zod.prop s3 p o k3)
    | _ => Zod.INVALID (Zod.invalid_type_issue "object" p v)
    end.

Definition object4 {A B C D R} (mk : A -> B -> C -> D -> R)
    (k1 : string) (s1 : Zod.Schema A) (k2 : string) (s2 : Zod.Schema B)
    (k3 : string) (s3 : Zod.Schema C) (k4 : string) (s4 : Zod.Schema D)
    : Zod.Schema R :=
  fun p v =>
    match v with
    | Some (JObj o) =>
        Zod.merge (fun f d => f d)
          (Zod.merge (fun f c => f c)
             (Zod.merge mk (Zod.prop s1 p o k1) (Zod.prop s2 p o k2))
             (Zod.prop s3 p o k3))
          (Zod.prop s4 p o k4)
    | _ => Zod.INVALID (Zod.invalid_type_issue "object" p v)
    end.

Definition createTaskSchema : Zod.Schema CreateTaskInput.t :=
  object3 CreateTaskInput.mk
    "title"
      (Zod.string [Zod.Min 1 "Title is required"; Zod.Max 200 "Title too long"])
    "description"
      (Zod.optional (Zod.string []))
    "status"
      (Zod.default (Zod.optional statusEnum) (JStr "pending")).

Definition at_least_one_field : string :=
  "At least one field must be provided for update".

Definition updateTaskSchema : Zod.Schema UpdateTaskInput.t :=
  Zod.refine
    (object3 UpdateTaskInput.mk
       "title"
         (Zod.optional
            (Zod.string [Zod.Min 1 "Title cannot be empty"; Zod.Max 200 "Title too long"]))
       "description"
         (Zod.optional (Zod.string []))
       "status"
         (Zod.optional statusEnum))
    (fun data => Nat.ltb 0 (UpdateTaskInput.keys_length data))
    at_least_one_field.

(** [(val) => (val ? parseInt(val, 10) : d)]: an absent and an empty string
    are both falsy. *)
Definition parse_or (d : Z) (val : option string) : JS.number :=
  match val with
  | Some s => if JS.truthy s then JS.parseInt10 s else JS.Int d
  | None => JS.Int d
  end.

Definition limitSchema : Zod.Schema JS.number :=
  Zod.refine
    (Zod.transform (Zod.optional (Zod.string [])) (parse_or 10))
    (fun val => JS.lt (JS.Int 0) val && JS.le val (JS.Int 100))
    "Limit must be between 1 and 100".

Definition offsetSchema : Zod.Schema JS.number :=
  Zod.refine
    (Zod.transform (Zod.optional (Zod.string [])) (parse_or 0))
    (fun val => JS.le (JS.Int 0) val)
    "Offset must be non-negative".

Definition listTasksQuerySchema : Zod.Schema ListTasksQuery.t :=
  object4 ListTasksQuery.mk
    "status" (Zod.optional statusEnum)
    "search" (Zod.optional (Zod.string []))
    "limit" limitSchema
    "offset" offsetSchema.

(** ** The persistence collaborator: Prisma Client over the [tasks] table *)

Module Task.
(** Modelled from the spec: the [Task] model of [prisma/schema.prisma]
    (the file is not among the sources): an auto-incremented integer
    [id], a nullable [description], a [status] column of type String with
    default "pending", and two timestamps set by the engine. *)
Record t : Type := mk {
  id : Z;
  title : string;
  description : option string;
  status : string;
  createdAt : Z;
  updatedAt : Z;
}.
End Task.

(** The table (rows by primary key), the auto-increment counter and the
    engine's clock. *)
Record DB : Type := mkDB {
  tasks : gmap Z Task.t;
  nextId : Z;
  now : Z;
}.

(** Which methods of the task service have been entered, in order. This
    component is not in the source: it is kept so that "the service was
    not called" can be stated. *)
Inductive ServiceCall : Type :=
  | CallCreateTask (data : CreateTaskInput.t)
  | CallListTasks (query : ListTasksQuery.t)
  | CallGetTaskById (id : JS.number)
  | CallUpdateTask (id : JS.number) (data : UpdateTaskInput.t)
  | CallDeleteTask (id : JS.number).

Record World : Type := mkWorld {
  db : DB;
  calls : list ServiceCall;
}.

(** Computations that read and write the world and may throw. *)
Definition M (A : Type) : Type := World -> Result A * World.

#[export] Instance M_ret : MRet M := fun A a w => (inr a, w).
#[export] Instance M_bind : MBind M := fun A B f m w =>
  match m w with
  | (inr a, w') => f a w'
  | (inl e, w') => (inl e, w')
  end.

Definition throw {A} (e : Error) : M A := fun w => (inl e, w).
Definition getDB : M DB := fun w => (inr (db w), w).
Definition putDB (d : DB) : M unit := fun w => (inr tt, mkWorld d (calls w)).
Definition enter (c : ServiceCall) : M unit :=
  fun w => (inr tt, mkWorld (db w) (calls w ++ [c])).

(** The table is kept by SQLite, where Prisma's [contains] is the operator
    [LIKE] on the pattern "%" + term + "%": the term is not escaped. *)

(** SQLite folds the upper-case ASCII letters before it compares two
    characters under [LIKE]. *)
Definition fold_case (c : ascii) : ascii :=
  let n := nat_of_ascii c in
  if andb (Nat.leb 65 n) (Nat.leb n 90) then ascii_of_nat (n + 32) else c.

(** [text LIKE pattern], without ESCAPE: [%] stands for any run of
    characters, [_] for any one character, every other character for
    itself up to the case of ASCII letters. *)
Fixpoint like (pattern text : string) : bool :=
  match pattern with
  | EmptyString =>
      match text with
      | EmptyString => true
      | String _ _ => false
      end
  | String p rest =>
      if Ascii.eqb p "%" then
        (fix from (t : string) : bool :=
           like rest t
           || match t with
              | String _ t' => from t'
              | EmptyString => false
              end) text
      else
        match text with
        | String c t' =>
            (Ascii.eqb p "_" || Ascii.eqb (fold_case p) (fold_case c)) && like rest t'
        | EmptyString => false
        end
  end.

(** [{ contains: term }] on a column that holds [text]. *)
Definition contains (term text : string) : bool :=
  like ("%" +:+ term +:+ "%") text.

Module Prisma.

(** One operand of [OR]: [{ title: { contains } }] or
    [{ description: { contains } }]. *)
Inductive Cond : Type :=
  | titleContains (s : string)
  | descriptionContains (s : string).

(** [Prisma.TaskWhereInput], as far as the service fills it. *)
Record TaskWhereInput : Type := mkWhere {
  status : option string;
  OR : option (list Cond);
}.

(** A null column never satisfies [contains]. *)
Definition holds (c : Cond) (t : Task.t) : bool :=
  match c with
  | titleContains s => contains s (Task.title t)
  | descriptionContains s =>
      match Task.description t with
      | Some d => contains s d
      | None => false
      end
  end.

(** [where.status]: equality with the column, when set. *)
Definition matches_status (w : TaskWhereInput) (t : Task.t) : bool :=
  match status w with
  | Some s => String.eqb (Task.status t) s
  | None => true
  end.

(** [where.OR]: one operand at least holds, when set. *)
Definition matches_OR (w : TaskWhereInput) (t : Task.t) : bool :=
  match OR w with
  | Some cs => existsb (fun c => holds c t) cs
  | None => true
  end.

(** The row satisfies every property that is set in [where]. *)
Definition matches (w : TaskWhereInput) (t : Task.t) : bool :=
  matches_status w t && matches_OR w t.

Definition rows (d : DB) : list Task.t := (map_to_list (tasks d)).*2.

(** [orderBy: { createdAt: 'desc' }]. *)
Definition newer_first (a b : Task.t) : Prop := Task.createdAt b <= Task.createdAt a.
#[export] Instance newer_first_dec a b : Decision (newer_first a b) :=
  Z_le_dec (Task.createdAt b) (Task.createdAt a).

(** The rows that [where] selects, newest first. Among rows created at the
    same time the order is the engine's choice; the one taken here is one of
    the permitted ones, and nothing below is stated about it. *)
Definition selected (w : TaskWhereInput) (d : DB) : list Task.t :=
  merge_sort newer_first (List.filter (matches w) (rows d)).

Definition not_found : Error :=
  PrismaClientKnownRequestError "P2025"
    "An operation failed because it depends on one or more records that were required but not found.".

(** The client's own validation failure: an [Error] that is neither a
    [ZodError] nor a known request error. *)
Definition PrismaClientValidationError (message : string) : Error :=
  OtherError message.

Definition invalid_argument : Error :=
  PrismaClientValidationError "Invalid value provided for an Int argument".

(** The integers of the column type [Int] and of the arguments [take] and
    [skip]: 64 bits, signed. *)
Definition int64 (z : Z) : bool := (- 2 ^ 63 <=? z) && (z <? 2 ^ 63).

(** [findMany({ where, take, skip, orderBy })]. [take] and [skip] must be
    64-bit integers and [skip] must not be negative, or the client rejects
    the call; a negative [take] reads from the end of the ordered rows. *)
Definition findMany (w : TaskWhereInput) (take skip : JS.number) : M (list Task.t) :=
  d ← getDB;
  match take, skip with
  | JS.Int tk, JS.Int sk =>
      if negb (int64 tk && int64 sk) then throw invalid_argument
      else if sk <? 0 then throw invalid_argument
      else if 0 <=? tk then
        mret (firstn (Z.to_nat tk) (skipn (Z.to_nat sk) (selected w d)))
      else
        mret (rev (firstn (Z.to_nat (- tk))
                     (skipn (Z.to_nat sk) (rev (selected w d)))))
  | _, _ => throw invalid_argument
  end.

(** [count({ where })]. *)
Definition count (w : TaskWhereInput) : M Z :=
  d ← getDB;
  mret (Z.of_nat (List.length (List.filter (matches w) (rows d)))).

(** [create({ data })]: the engine assigns [id] and both timestamps and
    fills the column default of an absent [status]. *)
Definition create (data : CreateTaskInput.t) : M Task.t :=
  d ← getDB;
  let t := Task.mk (nextId d)
             (CreateTaskInput.title data)
             (CreateTaskInput.description data)
             (match CreateTaskInput.status data with
              | Some s => status_literal s
              | None => "pending"
              end)
             (now d) (now d) in
  putDB (mkDB (<[nextId d := t]> (tasks d)) (nextId d + 1) (now d));;
  mret t.

(** [where: { id }]: the key that the number stands for and the row stored
    under it, if any. The client rejects a number that is not a 64-bit
    integer. The engine's counter is not bounded in this model, so the id
    of a stored row is accepted as it is. *)
Definition unique (id : JS.number) : M (Z * option Task.t) :=
  d ← getDB;
  match id with
  | JS.Int key =>
      match tasks d !! key with
      | Some t => mret (key, Some t)
      | None => if int64 key then mret (key, None) else throw invalid_argument
      end
  | _ => throw invalid_argument
  end.

(** [findUnique({ where: { id } })]. *)
Definition findUnique (id : JS.number) : M (option Task.t) :=
  found ← unique id;
  mret found.2.

(** [update({ where: { id }, data })]: only the properties set in [data]
    are written, and [updatedAt] is refreshed with them; with no property
    set the row is returned as it is. *)
Definition update (id : JS.number) (data : UpdateTaskInput.t) : M Task.t :=
  found ← unique id;
  match found.2 with
  | None => throw not_found
  | Some t =>
      if Nat.eqb (UpdateTaskInput.keys_length data) 0 then mret t
      else
        d ← getDB;
        let t' := Task.mk (Task.id t)
                    (default (Task.title t) (UpdateTaskInput.title data))
                    (match UpdateTaskInput.description data with
                     | Some x => Some x
                     | None => Task.description t
                     end)
                    (default (Task.status t)
                       (status_literal <$> UpdateTaskInput.status data))
                    (Task.createdAt t) (now d) in
        putDB (mkDB (<[found.1 := t']> (tasks d)) (nextId d) (now d));;
        mret t'
  end.

(** [delete({ where: { id } })]. *)
Definition delete (id : JS.number) : M Task.t :=
  found ← unique id;
  match found.2 with
  | None => throw not_found
  | Some t =>
      d ← getDB;
      putDB (mkDB (base.delete found.1 (tasks d)) (nextId d) (now d));;
      mret t
  end.

End Prisma.

(** ** src/services/task.service.ts *)

Module Pagination.
Record t : Type := mk {
  total : Z;
  limit : JS.number;
  offset : JS.number;
  hasMore : bool;
}.
End Pagination.

Module ListResult.
Record t : Type := mk {
  data : list Task.t;
  pagination : Pagination.t;
}.
End ListResult.

Module TaskService.

Definition createTask (data : CreateTaskInput.t) : M Task.t :=
  enter (CallCreateTask data);;
  Prisma.create data.

(** The [where] object that [listTasks] fills: [status] when the query's
    status is truthy, [OR] when its search term is truthy. *)
Definition build_where (query : ListTasksQuery.t) : Prisma.TaskWhereInput :=
  Prisma.mkWhere
    (match ListTasksQuery.status query with
     | Some s => if JS.truthy (status_literal s) then Some (status_literal s) else None
     | None => None
     end)
    (match ListTasksQuery.search query with
     | Some search =>
         if JS.truthy search
         then Some [Prisma.titleContains search; Prisma.descriptionContains search]
         else None
     | None => None
     end).

(** [limit] and [offset] are numbers in [ListTasksQuery], so the defaults
    of the destructuring never apply. *)
Definition listTasks (query : ListTasksQuery.t) : M ListResult.t :=
  enter (CallListTasks query);;
  let limit := ListTasksQuery.limit query in
  let offset := ListTasksQuery.offset query in
  let where_ := build_where query in
  tasks ← Prisma.findMany where_ limit offset;
  total ← Prisma.count where_;
  mret (ListResult.mk tasks
          (Pagination.mk total limit offset
             (JS.lt (JS.add offset limit) (JS.Int total)))).

Definition getTaskById (id : JS.number) : M (option Task.t) :=
  enter (CallGetTaskById id);;
  Prisma.findUnique id.

Definition updateTask (id : JS.number) (data : UpdateTaskInput.t) : M Task.t :=
  enter (CallUpdateTask id data);;
  Prisma.update id data.

Definition deleteTask (id : JS.number) : M Task.t :=
  enter (CallDeleteTask id);;
  Prisma.delete id.

End TaskService.

(** ** HTTP responses *)

Module Detail.
Record t : Type := mk {
  field : string;
  message : string;
}.
End Detail.

(** The JSON bodies the handlers and the error translator send; an absent
    optional property is [None]. *)
Inductive Body : Type :=
  | TaskBody (success : bool) (data : Task.t)
  | ListBody (success : bool) (data : list Task.t) (pagination : Pagination.t)
  | MessageBody (success : bool) (message : string)
  | ErrorBody (success : bool) (error : string)
      (details : option (list Detail.t)) (message : option string).

Definition success (b : Body) : bool :=
  match b with
  | TaskBody s _ | ListBody s _ _ | MessageBody s _ | ErrorBody s _ _ _ => s
  end.

Record Response : Type := mkResponse {
  status : Z;
  body : Body;
}.

(** ** src/middleware/errorHandler.ts *)

Definition path_elem_to_string (e : Zod.PathElem) : string :=
  match e with
  | Zod.PKey k => k
  | Zod.PIndex i => JS.index_to_string i
  end.

(** [(err) => ({ field: err.path.join('.'), message: err.message })]. *)
Definition detail_of (err : Zod.ZodIssue) : Detail.t :=
  Detail.mk (JS.join "." (map path_elem_to_string (Zod.path err))) (Zod.message err).

(** [NODE_ENV] is the value of [process.env.NODE_ENV], if set. *)
Definition internal_server_error (NODE_ENV : option string) (message : string)
  : Response :=
  mkResponse 500
    (ErrorBody false "Internal server error" None
       (if bool_decide (NODE_ENV = Some "development") then Some message else None)).

Definition errorHandler (NODE_ENV : option string) (error : Error) : Response :=
  match error with
  | ZodError errors =>
      mkResponse 400
        (ErrorBody false "Validation error" (Some (map detail_of errors)) None)
  | PrismaClientKnownRequestError code message =>
      if String.eqb code "P2025" then
        mkResponse 404 (ErrorBody false "Resource not found" None None)
      else if String.eqb code "P2002" then
        mkResponse 409 (ErrorBody false "Resource already exists" None None)
      else internal_server_error NODE_ENV message
  | OtherError message => internal_server_error NODE_ENV message
  end.

(** ** src/controllers/task.controller.ts *)

Module Request.
Record t : Type := mk {
  id : string;      (* req.params.id *)
  body : value;     (* req.body *)
  query : value;    (* req.query *)
}.
End Request.

(** What a handler leaves behind: a response it sent itself, or an error
    handed to [next]. *)
Inductive Outcome : Type :=
  | Sent (r : Response)
  | Next (e : Error).

Definition Handler : Type := Request.t -> World -> Outcome * World.

(** [try { ... } catch (error) { next(error); }]. *)
Definition try_next (m : M Response) : World -> Outcome * World :=
  fun w =>
    match m w with
    | (inr r, w') => (Sent r, w')
    | (inl e, w') => (Next e, w')
    end.

(** A synchronous call that may throw. *)
Definition lift {A} (r : Result A) : M A := fun w => (r, w).

Definition invalid_task_id : Response :=
  mkResponse 400 (ErrorBody false "Invalid task ID" None None).

Module TaskController.

Definition create : Handler := fun req =>
  try_next (
    validatedData ← lift (parse createTaskSchema (Request.body req));
    task ← TaskService.createTask validatedData;
    mret (mkResponse 201 (TaskBody true task))).

Definition list : Handler := fun req =>
  try_next (
    validatedQuery ← lift (parse listTasksQuerySchema (Request.query req));
    result ← TaskService.listTasks validatedQuery;
    mret (mkResponse 200
            (ListBody true (ListResult.data result) (ListResult.pagination result)))).

Definition getById : Handler := fun req =>
  try_next (
    let id := JS.parseInt10 (Request.id req) in
    if JS.isNaN id then mret invalid_task_id
    else
      task ← TaskService.getTaskById id;
      match task with
      | None => mret (mkResponse 404 (ErrorBody false "Task not found" None None))
      | Some t => mret (mkResponse 200 (TaskBody true t))
      end).

Definition update : Handler := fun req =>
  try_next (
    let id := JS.parseInt10 (Request.id req) in
    if JS.isNaN id then mret invalid_task_id
    else
      validatedData ← lift (parse updateTaskSchema (Request.body req));
      task ← TaskService.updateTask id validatedData;
      mret (mkResponse 200 (TaskBody true task))).

Definition delete : Handler := fun req =>
  try_next (
    let id := JS.parseInt10 (Request.id req) in
    if JS.isNaN id then mret invalid_task_id
    else
      TaskService.deleteTask id;;
      mret (mkResponse 200 (MessageBody true "Task deleted successfully"))).

End TaskController.

(** The application: a route's handler, then [app.use(errorHandler)] for
    what it passed to [next]. *)
Definition respond (NODE_ENV : option string) (h : Handler) (req : Request.t)
    (w : World) : Response * World :=
  match h req w with
  | (Sent r, w') => (r, w')
  | (Next e, w') => (errorHandler NODE_ENV e, w')
  end.

(** ** src/middleware/validateId.ts *)

(** What the middleware leaves behind: the 400 response it sent, or the id it
    stored in [req.parsedId] before calling [next()]. *)
Inductive IdCheck : Type :=
  | Rejected (r : Response)
  | Passed (parsedId : JS.number).

Definition validateTaskId (req : Request.t) : IdCheck :=
  let id := JS.parseInt10 (Request.id req) in
  if JS.isNaN id || JS.le id (JS.Int 0) then
    Rejected (mkResponse 400
                (ErrorBody false "Invalid task ID" None
                   (Some "Task ID must be a positive integer")))
  else Passed id.

(** ** problem4: three ways to sum to n *)

(** The arguments are integers, computed with exactly: the source leaves
    non-integer and unsafe arguments out of its contract. *)

(** Implementation A: the formula, with one recursive call for a negative
    argument. *)
Function sum_to_n_a (n : Z) {measure (fun n => Z.to_nat (- n)) n} : Z :=
  if Z_lt_dec n 0 then - sum_to_n_a (- n)
  else (n * (n + 1)) / 2.
Proof. intros. lia. Defined.

(** [for (let i = from; i <= to; i++) { sum += i; }], from the state
    [(i, sum)]. *)
Function sum_loop (to : Z) (i : Z) (sum : Z)
    {measure (fun i => Z.to_nat (to - i + 1)) i} : Z :=
  if Z_le_dec i to then sum_loop to (i + 1) (sum + i)
  else sum.
Proof. intros. lia. Defined.

(** Implementation B: the two loops. *)
Definition sum_to_n_b (n : Z) : Z :=
  if 0 <=? n then sum_loop n 1 0 else sum_loop (-1) n 0.

(** Implementation C: recursion towards zero. *)
Function sum_to_n_c (n : Z) {measure Z.abs_nat n} : Z :=
  if Z.eq_dec n 0 then 0
  else if Z_gt_dec n 0 then n + sum_to_n_c (n - 1)
  else n + sum_to_n_c (n + 1).
Proof. all: intros; lia. Defined.

(** ** problem3: the balances of the wallet page *)

Module WalletBalance.
Record t : Type := mk {
  currency : string;
  amount : QArith_base.Q;   (* a finite number *)
  blockchain : string;
}.
End WalletBalance.

(** [amount > 0]. *)
Definition positive (amount : QArith_base.Q) : bool :=
  if QArith_base.Qlt_le_dec (QArith_base.Qmake 0 1) amount then true else false.

(** [Array.prototype.sort(compare)] is stable: among the elements that
    [compare] puts in order it keeps the order of the array. For a
    consistent comparator the result is the one of any stable sort; here
    each element, from the last to the first, is put in front of the first
    element of the sorted rest that it does not follow. *)
Fixpoint sort_insert {A} (compare : A -> A -> Z) (x : A) (l : list A) : list A :=
  match l with
  | [] => [x]
  | y :: l' => if compare x y <=? 0 then x :: l else y :: sort_insert compare x l'
  end.

Definition js_sort {A} (compare : A -> A -> Z) (l : list A) : list A :=
  foldr (sort_insert compare) [] l.

(** The refactored component. *)
Module Refactored.

Definition getPriority (blockchain : string) : Z :=
  if String.eqb blockchain "Osmosis" then 100
  else if String.eqb blockchain "Ethereum" then 50
  else if String.eqb blockchain "Arbitrum" then 30
  else if String.eqb blockchain "Zilliqa" then 20
  else if String.eqb blockchain "Neo" then 20
  else -99.

(** The callback of [filter]. *)
Definition keep (balance : WalletBalance.t) : bool :=
  let balancePriority := getPriority (WalletBalance.blockchain balance) in
  (-99 <? balancePriority) && positive (WalletBalance.amount balance).

(** The callback of [sort]. *)
Definition compare (lhs rhs : WalletBalance.t) : Z :=
  let leftPriority := getPriority (WalletBalance.blockchain lhs) in
  let rightPriority := getPriority (WalletBalance.blockchain rhs) in
  if rightPriority <? leftPriority then -1
  else if leftPriority <? rightPriority then 1
  else 0.

Definition sortedBalances (balances : list WalletBalance.t) : list WalletBalance.t :=
  js_sort compare (List.filter keep balances).

End Refactored.

(** The optimized component. *)
Module Optimized.

(** [new Map([...])]: the entries are set in order. *)
Definition BLOCKCHAIN_PRIORITIES : gmap string Z :=
  fold_left (fun m kv => <[kv.1 := kv.2]> m)
    [("Osmosis", 100); ("Ethereum", 50); ("Arbitrum", 30); ("Zilliqa", 20); ("Neo", 20)]
    ∅.

Definition DEFAULT_PRIORITY : Z := -99.
Definition MIN_VALID_PRIORITY : Z := -99.

(** [BLOCKCHAIN_PRIORITIES.get(blockchain) ?? DEFAULT_PRIORITY]. *)
Definition getPriority (blockchain : string) : Z :=
  default DEFAULT_PRIORITY (BLOCKCHAIN_PRIORITIES !! blockchain).

Definition keep (balance : WalletBalance.t) : bool :=
  let priority := getPriority (WalletBalance.blockchain balance) in
  (MIN_VALID_PRIORITY <? priority) && positive (WalletBalance.amount balance).

Definition compare (a b : WalletBalance.t) : Z :=
  getPriority (WalletBalance.blockchain b) - getPriority (WalletBalance.blockchain a).

End Optimized.

(** * Vocabulary of the specification *)

(** Objects written as in the tests. *)
Definition obj (l : list (string * json)) : value := Some (JObj (list_to_map l)).

(** What the specification asks of each property of a payload. *)
Definition title_ok (v : value) : bool :=
  match v with
  | Some (JStr s) => Nat.leb 1 (String.length s) && Nat.leb (String.length s) 200
  | _ => false
  end.

Definition string_if_present (v : value) : bool :=
  match v with
  | None | Some (JStr _) => true
  | Some _ => false
  end.

Definition title_ok_if_present (v : value) : bool :=
  match v with
  | None => true
  | Some _ => title_ok v
  end.

Definition as_string (v : value) : option string :=
  match v with
  | Some (JStr s) => Some s
  | _ => None
  end.

Definition status_ok_if_present (v : value) : bool :=
  match v with
  | None => true
  | Some (JStr s) =>
      bool_decide (s ∈ ["pending"; "in_progress"; "completed"])
  | Some _ => false
  end.

(** The fields named by the issues of a validation error. *)
Definition names (k : string) (errors : list Zod.ZodIssue) : Prop :=
  [Zod.PKey k] ∈ map Zod.path errors.

(** What one property contributes to the parse of its object: no issue and
    an output, or a single issue at the property's path [p]. *)
Definition clean {A} (r : Zod.ParseReturn A) (a : A) : Prop := r = Zod.OK a.
Definition flagged (p : list Zod.PathElem) {A} (r : Zod.ParseReturn A) : Prop :=
  exists i o, r = Zod.mkParse [i] o /\ Zod.path i = p.
Definition aborted (p : list Zod.PathElem) {A} (r : Zod.ParseReturn A) : Prop :=
  exists i, r = Zod.mkParse [i] None /\ Zod.path i = p.
Definition flagged_set (p : list Zod.PathElem) {A} (r : Zod.ParseReturn (option A))
  : Prop :=
  exists i o, r = Zod.mkParse [i] o /\ Zod.path i = p /\ o <> Some None.

Definition nothing_to_update : Zod.ZodIssue :=
  Zod.mkIssue Zod.custom [] at_least_one_field.

(** What the query parser's value of [limit] or [offset] stands for: the
    default [d] when absent or empty, the result of [parseInt] for any
    other string, nothing for a value that is not a string. *)
Definition converted (d : Z) (v : value) : option JS.number :=
  match v with
  | None => Some (JS.Int d)
  | Some (JStr s) => Some (if String.eqb s "" then JS.Int d else JS.parseInt10 s)
  | Some _ => None
  end.

(** A limit is an integer from 1 to 100. *)
Definition limit_ok (v : value) : bool :=
  match converted 10 v with
  | Some (JS.Int n) => (1 <=? n) && (n <=? 100)
  | _ => false
  end.

(** An offset is an integer that is not negative, or [Infinity]. *)
Definition offset_ok (v : value) : bool :=
  match converted 0 v with
  | Some (JS.Int n) => 0 <=? n
  | Some JS.Infinity => true
  | _ => false
  end.

(** A query as the specification (amended) accepts it. *)
Definition query_accepts (o : gmap string json) : bool :=
  status_ok_if_present (o !! "status") && string_if_present (o !! "search")
  && limit_ok (o !! "limit") && offset_ok (o !! "offset").

(** A creation payload as the specification (amended) accepts it. *)
Definition create_accepts (payload : value) : bool :=
  match payload with
  | Some (JObj o) =>
      title_ok (o !! "title") && string_if_present (o !! "description")
      && status_ok_if_present (o !! "status")
  | _ => false
  end.

(** The number of recognized fields an update payload contains. *)
Definition present (v : value) : nat :=
  match v with Some _ => 1 | None => 0 end.

Definition recognized (o : gmap string json) : nat :=
  (present (o !! "title") + present (o !! "description") + present (o !! "status"))%nat.

(** Decimal notation of an integer: an optional sign, then digits only. *)
Fixpoint all_digits (s : string) : bool :=
  match s with
  | String c EmptyString => bool_decide (is_Some (JS.digit_value c))
  | String c rest => bool_decide (is_Some (JS.digit_value c)) && all_digits rest
  | EmptyString => false
  end.

Definition decimal_integer (s : string) : bool :=
  match s with
  | String "-" r | String "+" r => all_digits r
  | _ => all_digits s
  end.

(** [x] occurs in [y], character for character. *)
Definition substring (x y : string) : Prop :=
  exists pre post, y = pre +:+ x +:+ post.

(** The texts that a search term stands for under [LIKE]: [%] in the term
    is any run of characters, [_] any one character, every other
    character itself, an ASCII letter in either case. *)
Inductive instance : string -> string -> Prop :=
  | instance_empty : instance "" ""
  | instance_run x s m :
      instance x m -> instance (String "%" x) (s +:+ m)
  | instance_any x c m :
      instance x m -> instance (String "_" x) (String c m)
  | instance_char a x c m :
      a <> "%"%char -> a <> "_"%char -> fold_case a = fold_case c ->
      instance x m -> instance (String a x) (String c m).

(** The term [x] occurs in [y] as [LIKE] reads it: some part of [y] is an
    instance of [x]. *)
Definition occurs (x y : string) : Prop :=
  exists pre m post, y = pre +:+ m +:+ post /\ instance x m.

(** A term with neither [%] nor [_]. *)
Fixpoint plain (x : string) : bool :=
  match x with
  | String c r => negb (Ascii.eqb c "%") && negb (Ascii.eqb c "_") && plain r
  | EmptyString => true
  end.

(** The text with its upper-case ASCII letters in lower case. *)
Fixpoint lower (s : string) : string :=
  match s with
  | String c r => String (fold_case c) (lower r)
  | EmptyString => EmptyString
  end.

(** The tasks that a list query asks for: the status is the query's, when
    it has one, and the search term, when it has one, occurs in the title
    or in the description. *)
Definition selects (query : ListTasksQuery.t) (t : Task.t) : Prop :=
  (forall s, ListTasksQuery.status query = Some s ->
     Task.status t = status_literal s)
  /\ (forall x, ListTasksQuery.search query = Some x ->
        occurs x (Task.title t)
        \/ exists d, Task.description t = Some d /\ occurs x d).

(** A store with three tasks, for the examples. *)
Definition three_tasks : World :=
  mkWorld
    (mkDB (list_to_map [(1, Task.mk 1 "a" None "pending" 10 10);
                        (2, Task.mk 2 "b" None "pending" 20 20);
                        (3, Task.mk 3 "c" (Some "a") "completed" 30 30)]) 4 40)
    [].


(** The handler entered a method of the task service. *)
Definition reaches_service (h : Handler) (req : Request.t) (w : World) : Prop :=
  calls (snd (h req w)) <> calls w.

(** * Vocabulary of the further properties *)

(** The properties of an object written as in the tests. *)
Definition obj_fields (l : list (string * json)) : gmap string json := list_to_map l.

(** The stored tasks are filed under their own id, below the counter of the
    next id. *)
Definition store_ok (d : DB) : Prop :=
  forall k t, tasks d !! k = Some t -> Task.id t = k /\ k < nextId d.

(** No two stored tasks were created at the same time. *)
Definition distinct_times (d : DB) : Prop :=
  forall k1 k2 t1 t2,
    tasks d !! k1 = Some t1 -> tasks d !! k2 = Some t2 ->
    Task.createdAt t1 = Task.createdAt t2 -> k1 = k2.

(** The same filter with another page. *)
Definition with_page (q : ListTasksQuery.t) (limit offset : Z) : ListTasksQuery.t :=
  ListTasksQuery.mk (ListTasksQuery.status q) (ListTasksQuery.search q)
    (JS.Int limit) (JS.Int offset).

(** The tasks on the page that [listTasks] returns (none when it fails). *)
Definition page (q : ListTasksQuery.t) (w : World) : list Task.t :=
  match fst (TaskService.listTasks q w) with
  | inr r => ListResult.data r
  | inl _ => []
  end.

(** The envelope of a response agrees with its status code. *)
Definition coherent (r : Response) : Prop :=
  status r ∈ [200; 201; 400; 404; 409; 500]
  /\ success (body r) = (status r <? 400).

Definition body_details (b : Body) : option (list Detail.t) :=
  match b with
  | ErrorBody _ _ details _ => details
  | _ => None
  end.

Definition body_message (b : Body) : option string :=
  match b with
  | ErrorBody _ _ _ message => message
  | MessageBody _ message => Some message
  | _ => None
  end.

(** Every issue is at one of the given paths. *)
Definition paths_in (ps : list (list Zod.PathElem)) (errors : list Zod.ZodIssue) : Prop :=
  forall i, i ∈ errors -> Zod.path i ∈ ps.

(** The paths of a flat schema: the object itself and its properties. *)
Definition flat_paths (keys : list string) : list (list Zod.PathElem) :=
  [] :: map (fun k => [Zod.PKey k]) keys.

(** The sum of the integers from [lo] to [hi] (zero when there are none). *)
Definition sum_between (lo hi : Z) : Z := foldr Z.add 0 (seqZ lo (hi - lo + 1)).

(** What the problem asks of [sum_to_n]: the sum 1 + ... + n, and for a
    negative [n] the sum n + ... + -1. *)
Definition sum_to (n : Z) : Z :=
  if decide (0 <= n) then sum_between 1 n else sum_between n (-1).

(** The arguments for which every number the implementations compute is a
    safe integer (at most [Number.MAX_SAFE_INTEGER]). *)
Definition safe_argument (n : Z) : Prop := Z.abs n * (Z.abs n + 1) <= 2 ^ 53 - 1.

(** The chains the wallet page knows. *)
Definition known_chains : list string :=
  ["Osmosis"; "Ethereum"; "Arbitrum"; "Zilliqa"; "Neo"].
(** * Properties *)

(** ** Numbers *)

Lemma pow2_53 : 2 ^ 53 = 9007199254740992.
Proof. reflexivity. Qed.

Lemma round53_small n : 0 <= n < 2 ^ 53 -> JS.round53 n = n.
Proof.
  intros H. unfold JS.round53.
  assert (Z.log2 n <= 52).
  { destruct (Z.eq_dec n 0) as [-> | Hn]; [cbn; lia |].
    assert (Z.log2 n < 53) by (apply Z.log2_lt_pow2; lia). lia. }
  destruct (Z.leb_spec (Z.log2 n - 52) 0); [reflexivity | lia].
Qed.

Lemma round53_large n : 2 ^ 53 <= n -> 2 ^ 53 <= JS.round53 n.
Proof.
  intros H. unfold JS.round53.
  assert (0 < n) by (rewrite pow2_53 in H; lia).
  assert (53 <= Z.log2 n) by (apply Z.log2_le_pow2; [lia | exact H]).
  set (e := Z.log2 n - 52).
  destruct (Z.leb_spec e 0); [lia |].
  assert (Hq : 2 ^ 52 <= n / 2 ^ e).
  { apply Z.div_le_lower_bound; [apply Z.pow_pos_nonneg; lia |].
    rewrite <- Z.pow_add_r by lia. replace (e + 52) with (Z.log2 n) by lia.
    apply Z.log2_spec. lia. }
  assert (He : 2 <= 2 ^ e).
  { change 2 with (2 ^ 1) at 1. apply Z.pow_le_mono_r; lia. }
  set (q := n / 2 ^ e) in *.
  change (2 ^ 53) with (2 ^ 52 * 2).
  change (2 ^ 52) with 4503599627370496 in *.
  destruct (_ || _); nia.
Qed.

(** An integer of at most 53 bits is its own Number value. *)
Lemma number_value_exact z : Z.abs z <= 2 ^ 53 -> JS.number_value z = JS.Int z.
Proof.
  intros H. unfold JS.number_value.
  assert (E : JS.round53 (Z.abs z) = Z.abs z).
  { destruct (Z.eq_dec (Z.abs z) (2 ^ 53)) as [-> | N]; [vm_compute; reflexivity |].
    apply round53_small. lia. }
  rewrite E.
  assert (2 ^ 53 < 2 ^ 1024) by (apply Z.pow_lt_mono_r; lia).
  destruct (Z.leb_spec (2 ^ 1024) (Z.abs z)); [lia |].
  f_equal. lia.
Qed.

(** Beyond, the Number value is still beyond. *)
Lemma number_value_large z :
  2 ^ 53 <= z ->
  JS.number_value z = JS.Infinity
  \/ exists m, JS.number_value z = JS.Int m /\ 2 ^ 53 <= m.
Proof.
  intros H. unfold JS.number_value.
  assert (0 < z) by (rewrite pow2_53 in H; lia).
  rewrite Z.abs_eq by lia.
  pose proof (round53_large z H) as Hr.
  destruct (Z.leb_spec (2 ^ 1024) (JS.round53 z)).
  - destruct (Z.ltb_spec z 0); [lia | left; reflexivity].
  - right. eexists. split; [reflexivity |].
    rewrite Z.sgn_pos by lia. lia.
Qed.

Lemma number_value_opp z :
  JS.number_value (- z)
  = match JS.number_value z with
    | JS.Int m => JS.Int (- m)
    | JS.Infinity => JS.NegInfinity
    | JS.NegInfinity => JS.Infinity
    | JS.NaN => JS.NaN
    end.
Proof.
  unfold JS.number_value. rewrite Z.abs_opp, Z.sgn_opp.
  destruct (Z.eq_dec z 0) as [-> | N]; [reflexivity |].
  destruct (Z.leb_spec (2 ^ 1024) (JS.round53 (Z.abs z))).
  - destruct (Z.ltb_spec z 0), (Z.ltb_spec (- z) 0); try lia; reflexivity.
  - f_equal. lia.
Qed.

Lemma number_value_low z :
  z <= - 2 ^ 53 ->
  JS.number_value z = JS.NegInfinity
  \/ exists m, JS.number_value z = JS.Int m /\ m <= - 2 ^ 53.
Proof.
  intros H. replace z with (- - z) by lia. rewrite number_value_opp.
  destruct (number_value_large (- z)) as [-> | (m & -> & Hm)]; [lia | left; reflexivity |].
  right. exists (- m). split; [reflexivity | lia].
Qed.

(** Decide the comparisons of integers in the goal. *)
Ltac compare_Z :=
  repeat match goal with
    | |- context [?a <? ?b] => destruct (Z.ltb_spec a b)
    | |- context [?a <=? ?b] => destruct (Z.leb_spec a b)
    end;
  first [reflexivity | lia].

(** The Number value of an integer is on the same side of a safe integer
    as the integer. *)
Lemma number_value_lt z b :
  Z.abs b < 2 ^ 53 -> JS.lt (JS.number_value z) (JS.Int b) = (z <? b).
Proof.
  intros Hb. rewrite pow2_53 in Hb.
  destruct (Z_le_gt_dec (Z.abs z) (2 ^ 53)) as [Hz | Hz].
  - rewrite number_value_exact by exact Hz. reflexivity.
  - rewrite pow2_53 in Hz. destruct (Z_lt_le_dec z 0).
    + destruct (number_value_low z) as [-> | (m & -> & Hm)];
        [rewrite pow2_53; lia | | rewrite pow2_53 in Hm]; cbn; compare_Z.
    + destruct (number_value_large z) as [-> | (m & -> & Hm)];
        [rewrite pow2_53; lia | | rewrite pow2_53 in Hm]; cbn; compare_Z.
Qed.

Lemma number_value_le z b :
  Z.abs b < 2 ^ 53 -> JS.le (JS.number_value z) (JS.Int b) = (z <=? b).
Proof.
  intros Hb. rewrite pow2_53 in Hb.
  destruct (Z_le_gt_dec (Z.abs z) (2 ^ 53)) as [Hz | Hz].
  - rewrite number_value_exact by exact Hz. reflexivity.
  - rewrite pow2_53 in Hz. destruct (Z_lt_le_dec z 0).
    + destruct (number_value_low z) as [-> | (m & -> & Hm)];
        [rewrite pow2_53; lia | | rewrite pow2_53 in Hm]; cbn; compare_Z.
    + destruct (number_value_large z) as [-> | (m & -> & Hm)];
        [rewrite pow2_53; lia | | rewrite pow2_53 in Hm]; cbn; compare_Z.
Qed.

Lemma number_value_gt z b :
  Z.abs b < 2 ^ 53 -> JS.lt (JS.Int b) (JS.number_value z) = (b <? z).
Proof.
  intros Hb. rewrite pow2_53 in Hb.
  destruct (Z_le_gt_dec (Z.abs z) (2 ^ 53)) as [Hz | Hz].
  - rewrite number_value_exact by exact Hz. reflexivity.
  - rewrite pow2_53 in Hz. destruct (Z_lt_le_dec z 0).
    + destruct (number_value_low z) as [-> | (m & -> & Hm)];
        [rewrite pow2_53; lia | | rewrite pow2_53 in Hm]; cbn; compare_Z.
    + destruct (number_value_large z) as [-> | (m & -> & Hm)];
        [rewrite pow2_53; lia | | rewrite pow2_53 in Hm]; cbn; compare_Z.
Qed.

Lemma number_value_ge z b :
  Z.abs b < 2 ^ 53 -> JS.le (JS.Int b) (JS.number_value z) = (b <=? z).
Proof.
  intros Hb. rewrite pow2_53 in Hb.
  destruct (Z_le_gt_dec (Z.abs z) (2 ^ 53)) as [Hz | Hz].
  - rewrite number_value_exact by exact Hz. reflexivity.
  - rewrite pow2_53 in Hz. destruct (Z_lt_le_dec z 0).
    + destruct (number_value_low z) as [-> | (m & -> & Hm)];
        [rewrite pow2_53; lia | | rewrite pow2_53 in Hm]; cbn; compare_Z.
    + destruct (number_value_large z) as [-> | (m & -> & Hm)];
        [rewrite pow2_53; lia | | rewrite pow2_53 in Hm]; cbn; compare_Z.
Qed.

Lemma number_value_not_NaN z : JS.number_value z <> JS.NaN.
Proof.
  unfold JS.number_value.
  destruct (_ <=? _); [destruct (_ <? _) |]; discriminate.
Qed.

(** ** Decimal notation and [parseInt] *)

Lemma digit_value_char (d : N) :
  (d < 10)%N -> JS.digit_value (pretty_N_char d) = Some (Z.of_N d).
Proof.
  intros H.
  assert (d = 0 \/ d = 1 \/ d = 2 \/ d = 3 \/ d = 4 \/ d = 5 \/ d = 6 \/ d = 7
          \/ d = 8 \/ d = 9)%N as Hd by lia.
  repeat (destruct Hd as [-> | Hd]; [reflexivity |]). subst. reflexivity.
Qed.

(** A digit is neither white space nor a sign. *)
Lemma parseInt10_digit c r d :
  JS.digit_value c = Some d ->
  JS.parseInt10 (String c r)
  = JS.number_value (JS.digits_value (JS.digits_prefix (String c r))).
Proof.
  intros H. unfold JS.parseInt10. cbn [JS.trim_start JS.digits_prefix].
  destruct c as [[] [] [] [] [] [] [] []]; cbn in H; try discriminate H.
  all: repeat match goal with
       | |- context [JS.is_white_space ?c] =>
           change (JS.is_white_space c) with false
       | |- context [JS.digit_value ?c] =>
           let v := eval vm_compute in (JS.digit_value c) in
           change (JS.digit_value c) with v
       end.
  all: cbn -[JS.digits_value Z.mul JS.digit_value JS.number_value].
  all: repeat match goal with
       | |- context [JS.digit_value ?c] =>
           let v := eval vm_compute in (JS.digit_value c) in
           change (JS.digit_value c) with v
       end.
  all: cbn -[JS.digits_value Z.mul JS.number_value]; rewrite Z.mul_1_l; reflexivity.
Qed.

Lemma digits_value_snoc ds d acc :
  fold_left (fun a x => 10 * a + x) (ds ++ [d]) acc
  = 10 * fold_left (fun a x => 10 * a + x) ds acc + d.
Proof. rewrite fold_left_app. reflexivity. Qed.

(** The digits that [pretty_N_go] puts in front of [s] are those of [x]. *)
Lemma pretty_N_go_digits (x : N) :
  forall s, exists ds,
    JS.digits_prefix (pretty_N_go x s) = ds ++ JS.digits_prefix s
    /\ (forall acc, fold_left (fun a d => 10 * a + d) ds acc
                    = acc * 10 ^ Z.of_nat (List.length ds) + Z.of_N x)
    /\ ((0 < x)%N -> ds <> []).
Proof.
  induction (N.lt_wf_0 x) as [x _ IH]. intros s.
  destruct (N.eq_dec x 0) as [-> | Hx].
  - exists []. rewrite pretty_N_go_0. repeat split; [intros; cbn; lia | lia].
  - assert (0 < x)%N as Hpos by lia.
    rewrite pretty_N_go_step by exact Hpos.
    destruct (IH (x `div` 10)%N (N.div_lt x 10 Hpos eq_refl)
                (String (pretty_N_char (x `mod` 10)) s)) as (ds & E & V & _).
    exists (ds ++ [Z.of_N (x `mod` 10)]). split; [| split].
    + rewrite E. cbn [JS.digits_prefix].
      rewrite (digit_value_char (x `mod` 10)) by (apply N.mod_lt; lia).
      rewrite <- app_assoc. reflexivity.
    + intros acc. rewrite digits_value_snoc, V, length_app. cbn [List.length].
      rewrite Nat2Z.inj_add, Z.pow_add_r by lia.
      rewrite (N.div_mod x 10) at 3 by lia.
      rewrite N2Z.inj_add, N2Z.inj_mul. change (Z.of_N 10) with 10.
      change (Z.of_nat 1) with 1. lia.
    + intros _. destruct ds; discriminate.
Qed.

Lemma parseInt10_pretty_N (x : N) :
  JS.parseInt10 (pretty x) = JS.number_value (Z.of_N x).
Proof.
  unfold pretty, pretty_N. destruct (decide (x = 0%N)) as [-> | Hx]; [reflexivity |].
  destruct (pretty_N_go_digits x "") as (ds & E & V & Hne).
  cbn [JS.digits_prefix] in E. rewrite app_nil_r in E.
  destruct (pretty_N_go x "") as [| c r] eqn:Er.
  { cbn in E. symmetry in E. destruct Hne; [lia | exact E]. }
  assert (exists d, JS.digit_value c = Some d) as [d Hd].
  { cbn [JS.digits_prefix] in E. destruct (JS.digit_value c); [eauto |].
    symmetry in E. destruct Hne; [lia | exact E]. }
  rewrite (parseInt10_digit c r d Hd), E. unfold JS.digits_value.
  rewrite V. f_equal; lia.
Qed.

Lemma parseInt10_minus r :
  JS.parseInt10 (String "-" r)
  = match JS.digits_prefix r with
    | [] => JS.NaN
    | ds => JS.number_value (- JS.digits_value ds)
    end.
Proof.
  unfold JS.parseInt10. cbn [JS.trim_start].
  change (JS.is_white_space "-") with false. cbn iota.
  destruct (JS.digits_prefix r); [reflexivity |].
  f_equal; lia.
Qed.

(** [parseInt] reads the decimal notation of an integer as the Number value
    of that integer. *)
Lemma parseInt10_pretty (z : Z) : JS.parseInt10 (pretty z) = JS.number_value z.
Proof.
  destruct z as [| p | p]; [reflexivity | apply (parseInt10_pretty_N (Npos p)) |].
  change (pretty (Z.neg p)) with (String "-" (pretty (Npos p))).
  rewrite parseInt10_minus.
  unfold pretty, pretty_N. destruct (decide (N.pos p = 0%N)); [discriminate |].
  destruct (pretty_N_go_digits (N.pos p) "") as (ds & E & V & Hne).
  cbn [JS.digits_prefix] in E. rewrite app_nil_r in E. rewrite E.
  destruct ds as [| d0 ds]; [destruct Hne; [lia | reflexivity] |].
  unfold JS.digits_value. rewrite V. f_equal; lia.
Qed.

(** Round trip: [parseInt] reads back the decimal notation of an integer of
    at most 53 bits. *)
Lemma parseInt10_pretty_exact (z : Z) :
  Z.abs z <= 2 ^ 53 -> JS.parseInt10 (pretty z) = JS.Int z.
Proof. intros H. rewrite parseInt10_pretty. apply number_value_exact, H. Qed.

(** [parseInt] never gives a number that is not [NaN] without digits. *)
Lemma parseInt10_NaN_or_value s :
  JS.parseInt10 s = JS.NaN \/ exists z, JS.parseInt10 s = JS.number_value z.
Proof.
  unfold JS.parseInt10.
  destruct (match JS.trim_start s with
            | String "-" r => (-1, r)
            | String "+" r => (1, r)
            | _ => (1, JS.trim_start s)
            end) as [sign body].
  destruct (JS.digits_prefix body); [left; reflexivity | right; eauto].
Qed.

(** ** Strings and [LIKE] *)

Lemma append_cons a x y : String a x +:+ y = String a (x +:+ y).
Proof. reflexivity. Qed.

Lemma append_empty_r x : x +:+ "" = x.
Proof. induction x as [| a x IH]; [reflexivity | rewrite append_cons, IH; reflexivity]. Qed.

Lemma append_associative x y z : (x +:+ y) +:+ z = x +:+ (y +:+ z).
Proof.
  induction x as [| a x IH]; [reflexivity |].
  rewrite !append_cons, IH. reflexivity.
Qed.

Lemma prefix_append x y :
  String.prefix x y = true <-> exists post, y = x +:+ post.
Proof.
  revert y. induction x as [|a x IH]; intros y.
  - split; [intros _; exists y; reflexivity | destruct y; reflexivity].
  - destruct y as [|b y]; cbn; [split; [discriminate | intros [post [=]]] |].
    destruct (ascii_dec a b) as [<-|N].
    + rewrite IH. split; intros [post E]; exists post;
        rewrite append_cons in *; congruence.
    + split; [discriminate | intros [post E]; rewrite append_cons in E; congruence].
Qed.

(** One step of the search that [%] starts. *)
Lemma like_run rest t :
  like (String "%" rest) t
  = like rest t
    || match t with
       | String _ t' => like (String "%" rest) t'
       | EmptyString => false
       end.
Proof. destruct t; reflexivity. Qed.

Lemma like_run_iff rest t :
  like (String "%" rest) t = true
  <-> exists s m, t = s +:+ m /\ like rest m = true.
Proof.
  induction t as [| c t IH]; rewrite like_run, orb_true_iff.
  - split.
    + intros [H | [=]]. exists "", "". split; [reflexivity | exact H].
    + intros ([| a s] & m & E & H); [| discriminate E]. left.
      change ("" +:+ m) with m in E. subst m. exact H.
  - rewrite IH. split.
    + intros [H | (s & m & -> & H)].
      * exists "", (String c t). split; [reflexivity | exact H].
      * exists (String c s), m. split; [reflexivity | exact H].
    + intros ([| a s] & m & E & H).
      * left. change ("" +:+ m) with m in E. subst m. exact H.
      * right. rewrite append_cons in E. injection E as -> ->. eauto.
Qed.

(** [like] decides the instances of a pattern. *)
Lemma like_instance p : forall t, like p t = true <-> instance p t.
Proof.
  induction p as [| a p IH]; intros t.
  - destruct t; cbn; split; first [constructor | reflexivity | discriminate | inversion 1].
  - destruct (Ascii.eqb_spec a "%") as [-> | Hrun].
    + rewrite like_run_iff. split.
      * intros (s & m & -> & H). constructor. apply IH, H.
      * inversion 1; subst; [| congruence]. eexists _, _. split; [reflexivity |].
        apply IH. assumption.
    + cbn [like]. rewrite (proj2 (Ascii.eqb_neq _ _) Hrun).
      destruct t as [| c t]; [split; [discriminate | inversion 1; congruence] |].
      rewrite andb_true_iff, orb_true_iff, IH. split.
      * intros [[H | H] Hi].
        -- apply Ascii.eqb_eq in H as ->. constructor. exact Hi.
        -- apply Ascii.eqb_eq in H.
           destruct (Ascii.eqb_spec a "_") as [-> | Hany]; constructor; assumption.
      * inversion 1; subst; [congruence | |].
        -- split; [left; reflexivity | assumption].
        -- split; [right; apply Ascii.eqb_eq; assumption | assumption].
Qed.

Lemma instance_nil t : instance "" t <-> t = "".
Proof. split; [inversion 1; reflexivity | intros ->; constructor]. Qed.

Lemma instance_app p q : forall t,
  instance (p +:+ q) t
  <-> exists t1 t2, t = t1 +:+ t2 /\ instance p t1 /\ instance q t2.
Proof.
  induction p as [| a p IH]; intros t.
  - split.
    + intros H. exists "", t. split; [reflexivity | split; [constructor | exact H]].
    + intros (t1 & t2 & -> & H1 & H2). apply instance_nil in H1 as ->. exact H2.
  - rewrite append_cons. split.
    + inversion 1; subst;
        match goal with
        | Hi : instance (_ +:+ _) _ |- _ =>
            apply IH in Hi as (t1 & t2 & -> & Hp & Hq)
        end.
      * exists (s +:+ t1), t2. rewrite append_associative.
        split; [reflexivity | split; [constructor; exact Hp | exact Hq]].
      * exists (String c t1), t2.
        split; [reflexivity | split; [constructor; exact Hp | exact Hq]].
      * exists (String c t1), t2.
        split; [reflexivity | split; [constructor; assumption | exact Hq]].
    + intros (t1 & t2 & -> & Hp & Hq). inversion Hp; subst.
      * rewrite append_associative. constructor. apply IH. eauto.
      * rewrite append_cons. constructor. apply IH. eauto.
      * rewrite append_cons. constructor; try assumption. apply IH. eauto.
Qed.

Lemma instance_run_all t : instance "%" t.
Proof. rewrite <- (append_empty_r t). constructor. constructor. Qed.

(** [contains] decides the occurrences of a term. *)
Lemma contains_occurs x y : contains x y = true <-> occurs x y.
Proof.
  unfold contains, occurs. rewrite like_instance.
  change ("%" +:+ x +:+ "%") with (String "%" (x +:+ "%")). split.
  - inversion 1; subst; [| congruence].
    match goal with
    | Hi : instance (_ +:+ _) _ |- _ =>
        apply instance_app in Hi as (t1 & t2 & -> & Hp & _)
    end.
    eauto.
  - intros (pre & m & post & -> & H). constructor.
    apply instance_app. exists m, post.
    split; [reflexivity | split; [exact H | apply instance_run_all]].
Qed.

Lemma lower_app x y : lower (x +:+ y) = lower x +:+ lower y.
Proof.
  induction x as [| a x IH]; [reflexivity |].
  rewrite append_cons. cbn [lower]. rewrite IH. reflexivity.
Qed.

Lemma lower_app_inv a : forall y b,
  lower y = a +:+ b ->
  exists y1 y2, y = y1 +:+ y2 /\ lower y1 = a /\ lower y2 = b.
Proof.
  induction a as [| c a IH]; intros y b E.
  - exists "", y. repeat split. exact E.
  - destruct y as [| d y]; [discriminate E |].
    rewrite append_cons in E. cbn [lower] in E. injection E as Ec E.
    destruct (IH y b E) as (y1 & y2 & -> & H1 & H2).
    exists (String d y1), y2. rewrite <- Ec, <- H1. repeat split. exact H2.
Qed.

(** Without wildcards, the instances of a term are its spellings in upper
    and lower case. *)
Lemma plain_instance x : forall m,
  plain x = true -> (instance x m <-> lower m = lower x).
Proof.
  induction x as [| a x IH]; intros m Hx.
  - rewrite instance_nil. destruct m; cbn; split; congruence.
  - cbn [plain] in Hx. apply andb_true_iff in Hx as [Hx Hp].
    apply andb_true_iff in Hx as [H1 H2].
    apply negb_true_iff, Ascii.eqb_neq in H1, H2.
    split.
    + inversion 1; subst; try congruence.
      cbn [lower]. f_equal; [congruence |]. apply IH; assumption.
    + destruct m as [| c m]; [discriminate |]. cbn [lower]. intros [= E1 E2].
      constructor; [assumption | assumption | congruence |].
      apply IH; assumption.
Qed.

(** Without wildcards, a term occurs where it is a substring up to the case
    of ASCII letters. *)
Lemma occurs_plain x y :
  plain x = true -> (occurs x y <-> substring (lower x) (lower y)).
Proof.
  intros Hx. unfold occurs, substring. split.
  - intros (pre & m & post & -> & H). apply plain_instance in H; [| exact Hx].
    exists (lower pre), (lower post). rewrite !lower_app, H. reflexivity.
  - intros (pre & post & E).
    apply lower_app_inv in E as (y1 & y2 & -> & E1 & E2).
    apply lower_app_inv in E2 as (m & y3 & -> & E2 & E3).
    exists y1, m, y3. split; [reflexivity |].
    apply plain_instance; assumption.
Qed.

(** The empty term occurs everywhere. *)
Lemma occurs_empty y : occurs "" y.
Proof. exists "", "", y. split; [reflexivity | constructor]. Qed.

Lemma not_substring_A_a : ~ substring "A" "a".
Proof.
  intros ([| c pre] & post & E); [discriminate E |].
  rewrite append_cons in E. injection E as _ E.
  destruct pre; discriminate E.
Qed.

(** ** The schemas on the payloads of the tests *)

Example create_minimal :
  parse createTaskSchema (obj [("title", JStr "Task")])
  = inr (CreateTaskInput.mk "Task" None (Some pending)).
Proof. vm_compute. reflexivity. Qed.

Example create_empty_title :
  parse createTaskSchema (obj [("title", JStr "")])
  = inl (ZodError [Zod.mkIssue Zod.too_small [Zod.PKey "title"] "Title is required"]).
Proof. vm_compute. reflexivity. Qed.

Example create_invalid_status :
  parse createTaskSchema (obj [("title", JStr "Task"); ("status", JStr "done")])
  = inl (ZodError [Zod.mkIssue Zod.invalid_enum_value [Zod.PKey "status"]
      "Invalid enum value. Expected 'pending' | 'in_progress' | 'completed', received 'done'"]).
Proof. vm_compute. reflexivity. Qed.

Example update_empty_body :
  parse updateTaskSchema (obj [])
  = inl (ZodError [Zod.mkIssue Zod.custom [] at_least_one_field]).
Proof. vm_compute. reflexivity. Qed.

Example update_clear_description :
  parse updateTaskSchema (obj [("description", JStr "")])
  = inr (UpdateTaskInput.mk None (Some "") None).
Proof. vm_compute. reflexivity. Qed.

Example list_defaults :
  parse listTasksQuerySchema (obj [])
  = inr (ListTasksQuery.mk None None (JS.Int 10) (JS.Int 0)).
Proof. vm_compute. reflexivity. Qed.

Example list_limit_too_high :
  parse listTasksQuerySchema (obj [("limit", JStr "101")])
  = inl (ZodError [Zod.mkIssue Zod.custom [Zod.PKey "limit"]
                     "Limit must be between 1 and 100"]).
Proof. vm_compute. reflexivity. Qed.

Example list_combined :
  parse listTasksQuerySchema
    (obj [("status", JStr "in_progress"); ("search", JStr "urgent");
          ("limit", JStr "5"); ("offset", JStr "10")])
  = inr (ListTasksQuery.mk (Some in_progress) (Some "urgent") (JS.Int 5) (JS.Int 10)).
Proof. vm_compute. reflexivity. Qed.



(** ** The error translator *)

(** C6. [errorHandler] maps every error to a response, by priority: a
    [ZodError] gives 400 "Validation error" with one [{field, message}]
    per issue, the field being the dot-joined path; a Prisma known request
    error with code P2025 gives 404 "Resource not found", with code P2002
    409 "Resource already exists"; every other error gives 500 "Internal
    server error", with the error's message only when [NODE_ENV] is
    "development"; every response has [success: false]. *)
Theorem errorHandler_dispatch (NODE_ENV : option string) :
  (forall errors,
      errorHandler NODE_ENV (ZodError errors)
      = mkResponse 400
          (ErrorBody false "Validation error"
             (Some (map (fun err =>
                           Detail.mk
                             (JS.join "." (map path_elem_to_string (Zod.path err)))
                             (Zod.message err)) errors))
             None))
  /\ (forall msg,
      errorHandler NODE_ENV (PrismaClientKnownRequestError "P2025" msg)
      = mkResponse 404 (ErrorBody false "Resource not found" None None))
  /\ (forall msg,
      errorHandler NODE_ENV (PrismaClientKnownRequestError "P2002" msg)
      = mkResponse 409 (ErrorBody false "Resource already exists" None None))
  /\ (forall e msg,
      (e = OtherError msg \/
       exists code, e = PrismaClientKnownRequestError code msg
                    /\ code <> "P2025" /\ code <> "P2002") ->
      errorHandler NODE_ENV e
      = mkResponse 500
          (ErrorBody false "Internal server error" None
             (if bool_decide (NODE_ENV = Some "development") then Some msg else None)))
  /\ (forall e, success (body (errorHandler NODE_ENV e)) = false).
Proof.
  repeat split.
  - intros e msg [-> | (code & -> & H1 & H2)]; [reflexivity |].
    cbn [errorHandler].
    apply String.eqb_neq in H1, H2. rewrite H1, H2. reflexivity.
  - intros [errors | code msg | msg]; cbn [errorHandler]; [reflexivity | | reflexivity].
    destruct (String.eqb code "P2025"); [reflexivity |].
    destruct (String.eqb code "P2002"); reflexivity.
Qed.

Lemma errorHandler_dispatch_witness :
  errorHandler (Some "development") (PrismaClientKnownRequestError "P2003" "fk")
  = mkResponse 500 (ErrorBody false "Internal server error" None (Some "fk"))
  /\ errorHandler (Some "production") (OtherError "boom")
     = mkResponse 500 (ErrorBody false "Internal server error" None None)
  /\ errorHandler None
       (ZodError [Zod.mkIssue Zod.too_small [Zod.PKey "a"; Zod.PIndex 2; Zod.PKey "b"] "m"])
     = mkResponse 400
         (ErrorBody false "Validation error" (Some [Detail.mk "a.2.b" "m"]) None).
Proof.
  split; [| split].
  - apply (proj1 (proj2 (proj2 (proj2 (errorHandler_dispatch (Some "development"))))) _ "fk").
    right. exists "P2003". split; [reflexivity | split; discriminate].
  - apply (proj1 (proj2 (proj2 (proj2 (errorHandler_dispatch (Some "production"))))) _ "boom").
    left. reflexivity.
  - apply (proj1 (errorHandler_dispatch None)).
Defined.

(** ** The validators *)

Section FieldSchemas.

Variable p : list Zod.PathElem.

Lemma string_bounded m1 m2 v :
  if title_ok v
  then exists s, v = Some (JStr s)
                 /\ clean (Zod.string [Zod.Min 1 m1; Zod.Max 200 m2] p v) s
  else flagged p (Zod.string [Zod.Min 1 m1; Zod.Max 200 m2] p v).
Proof.
  destruct v as [[| | |s| |]|]; cbn [title_ok];
    try (eexists _, _; split; reflexivity).
  unfold Zod.string, clean, flagged. cbn [flat_map Zod.run_check].
  destruct (Nat.leb_spec 1 (String.length s)) as [H1|H1];
    destruct (Nat.leb_spec (String.length s) 200) as [H2|H2]; cbn [andb].
  - exists s. split; [reflexivity |].
    destruct (Nat.ltb_spec (String.length s) 1); [lia |].
    destruct (Nat.ltb_spec 200 (String.length s)); [lia |]. reflexivity.
  - destruct (Nat.ltb_spec (String.length s) 1); [lia |].
    destruct (Nat.ltb_spec 200 (String.length s)); [| lia].
    eexists _, _; split; reflexivity.
  - destruct (Nat.ltb_spec (String.length s) 1); [| lia].
    destruct (Nat.ltb_spec 200 (String.length s)); [lia |].
    eexists _, _; split; reflexivity.
  - lia.
Qed.

Lemma statusEnum_string s :
  if bool_decide (s ∈ ["pending"; "in_progress"; "completed"])
  then exists st, s = status_literal st /\ clean (statusEnum p (Some (JStr s))) st
  else aborted p (statusEnum p (Some (JStr s))).
Proof.
  unfold statusEnum, Zod.enum, task_statuses, clean, aborted. cbn [find status_literal].
  destruct (String.eqb_spec "pending" s) as [<-|N1].
  { rewrite bool_decide_eq_true_2 by (apply list_elem_of_In; cbn; tauto). exists pending. split; reflexivity. }
  destruct (String.eqb_spec "in_progress" s) as [<-|N2].
  { rewrite bool_decide_eq_true_2 by (apply list_elem_of_In; cbn; tauto). exists in_progress. split; reflexivity. }
  destruct (String.eqb_spec "completed" s) as [<-|N3].
  { rewrite bool_decide_eq_true_2 by (apply list_elem_of_In; cbn; tauto). exists completed. split; reflexivity. }
  rewrite bool_decide_eq_false_2
    by (rewrite list_elem_of_In; cbn; intuition congruence).
  eexists; split; reflexivity.
Qed.

Lemma string_optional v :
  if string_if_present v
  then clean (Zod.optional (Zod.string []) p v) (as_string v)
  else aborted p (Zod.optional (Zod.string []) p v).
Proof.
  destruct v as [[]|]; try reflexivity; (eexists; split; reflexivity).
Qed.

Lemma title_optional m1 m2 v :
  if title_ok_if_present v
  then clean (Zod.optional (Zod.string [Zod.Min 1 m1; Zod.Max 200 m2]) p v)
         (as_string v)
  else flagged_set p (Zod.optional (Zod.string [Zod.Min 1 m1; Zod.Max 200 m2]) p v).
Proof.
  pose proof (string_bounded m1 m2 v) as H.
  destruct v as [j|]; [| reflexivity].
  cbn [title_ok_if_present]. unfold Zod.optional.
  destruct (title_ok (Some j)).
  - destruct H as (s & [= ->] & H). unfold clean in *. rewrite H. reflexivity.
  - destruct H as (i & o & H & Hp). unfold flagged_set. rewrite H.
    eexists _, _; split; [reflexivity | split; [exact Hp |]].
    destruct o; discriminate.
Qed.

Lemma status_optional v :
  if status_ok_if_present v
  then exists o, clean (Zod.optional statusEnum p v) o
                 /\ (JStr <$> (status_literal <$> o)) = v
  else aborted p (Zod.optional statusEnum p v).
Proof.
  destruct v as [[| | |s| |]|]; cbn [status_ok_if_present];
    try (eexists; split; reflexivity).
  pose proof (statusEnum_string s) as H. unfold Zod.optional.
  destruct (bool_decide _).
  - destruct H as (st & -> & H). exists (Some st). split; [| reflexivity].
    unfold clean in *. rewrite H. reflexivity.
  - destruct H as (i & H & Hp). unfold aborted. rewrite H.
    eexists; split; [reflexivity | exact Hp].
Qed.

Lemma status_default v :
  if status_ok_if_present v
  then exists st,
      clean (Zod.default (Zod.optional statusEnum) (JStr "pending") p v) (Some st)
      /\ (v = None /\ st = pending \/ v = Some (JStr (status_literal st)))
  else aborted p (Zod.default (Zod.optional statusEnum) (JStr "pending") p v).
Proof.
  pose proof (status_optional v) as H.
  destruct v as [j|].
  - change (Zod.default (Zod.optional statusEnum) (JStr "pending") p (Some j))
      with (Zod.optional statusEnum p (Some j)).
    destruct (status_ok_if_present (Some j)); [| exact H].
    destruct H as ([st|] & H & E); [| discriminate E].
    exists st. split; [exact H | right; symmetry; exact E].
  - exists pending. split; [reflexivity | left; split; reflexivity].
Qed.

End FieldSchemas.

(** Use what is known of one property's outcome. *)
Ltac use_field H :=
  match type of H with
  | exists _, _ => let x := fresh "x" in destruct H as [x H]; use_field H
  | _ /\ _ =>
      let H1 := fresh H in
      destruct H as [H H1]; try use_field H; try use_field H1
  | clean _ _ => unfold clean in H; rewrite H
  | flagged _ _ =>
      let i := fresh "i" in let o := fresh "o" in let Hp := fresh "Hp" in
      destruct H as (i & o & H & Hp); rewrite H
  | aborted _ _ =>
      let i := fresh "i" in let Hp := fresh "Hp" in
      destruct H as (i & H & Hp); rewrite H
  | flagged_set _ _ =>
      let i := fresh "i" in let o := fresh "o" in let Hp := fresh "Hp" in
      let Hne := fresh "Hne" in
      destruct H as (i & o & H & Hp & Hne); rewrite H;
      destruct o as [[?|]|]; [| congruence |]
  end.

Lemma names_here k i errors errors' :
  Zod.path i = [Zod.PKey k] -> names k (errors ++ i :: errors').
Proof.
  intros H. unfold names. rewrite map_app. apply elem_of_app. right.
  cbn [map]. rewrite H. apply elem_of_cons. left. reflexivity.
Qed.

(** The outcome of [createTaskSchema] on an object, by the state of its
    three properties. *)
Lemma createTaskSchema_object (o : gmap string json) :
  if title_ok (o !! "title") && string_if_present (o !! "description")
     && status_ok_if_present (o !! "status")
  then exists t s,
      o !! "title" = Some (JStr t)
      /\ (o !! "status" = None /\ s = pending
          \/ o !! "status" = Some (JStr (status_literal s)))
      /\ parse createTaskSchema (Some (JObj o))
         = inr (CreateTaskInput.mk t (as_string (o !! "description")) (Some s))
  else exists errors,
      parse createTaskSchema (Some (JObj o)) = inl (ZodError errors)
      /\ (title_ok (o !! "title") = false -> names "title" errors)
      /\ (string_if_present (o !! "description") = false -> names "description" errors)
      /\ (status_ok_if_present (o !! "status") = false -> names "status" errors).
Proof.
  pose proof (string_bounded [Zod.PKey "title"] "Title is required" "Title too long"
                (o !! "title")) as Ht.
  pose proof (string_optional [Zod.PKey "description"] (o !! "description")) as Hd.
  pose proof (status_default [Zod.PKey "status"] (o !! "status")) as Hs.
  unfold parse, createTaskSchema, object3, Zod.prop, Zod.merge.
  cbn [app].
  destruct (title_ok (o !! "title")), (string_if_present (o !! "description")),
    (status_ok_if_present (o !! "status"));
    use_field Ht; use_field Hd; use_field Hs; cbn.
  all: try (eexists _, _; repeat split; first [eassumption | reflexivity]).
  all: eexists; split; [reflexivity |].
  all: repeat split; intros; try discriminate.
  all: first [ apply (names_here _ _ []); assumption
             | apply (names_here _ _ [_]); assumption
             | apply (names_here _ _ [_; _]); assumption ].
Qed.

(** The outcome of [updateTaskSchema] on an object, by the state of its
    three properties. *)
Lemma updateTaskSchema_object (o : gmap string json) :
  if title_ok_if_present (o !! "title") && string_if_present (o !! "description")
     && status_ok_if_present (o !! "status")
  then exists st,
      (JStr <$> (status_literal <$> st)) = o !! "status"
      /\ parse updateTaskSchema (Some (JObj o))
         = let d := UpdateTaskInput.mk (as_string (o !! "title"))
                      (as_string (o !! "description")) st in
           if Nat.ltb 0 (UpdateTaskInput.keys_length d) then inr d
           else inl (ZodError [nothing_to_update])
  else exists errors,
      parse updateTaskSchema (Some (JObj o)) = inl (ZodError errors)
      /\ (nothing_to_update ∉ errors)
      /\ (title_ok_if_present (o !! "title") = false -> names "title" errors)
      /\ (string_if_present (o !! "description") = false -> names "description" errors)
      /\ (status_ok_if_present (o !! "status") = false -> names "status" errors).
Proof.
  pose proof (title_optional [Zod.PKey "title"] "Title cannot be empty" "Title too long"
                (o !! "title")) as Ht.
  pose proof (string_optional [Zod.PKey "description"] (o !! "description")) as Hd.
  pose proof (status_optional [Zod.PKey "status"] (o !! "status")) as Hs.
  unfold parse, updateTaskSchema, Zod.refine, object3, Zod.prop, Zod.merge.
  cbn [app].
  destruct (title_ok_if_present (o !! "title")),
    (string_if_present (o !! "description")),
    (status_ok_if_present (o !! "status"));
    use_field Ht; use_field Hd; use_field Hs; cbn [andb].
  1: { eexists; split; [eassumption |]. cbn.
       destruct (UpdateTaskInput.keys_length _); reflexivity. }
  all: cbn.
  all: eexists; split; [reflexivity |].
  all: split;
    [ intros Hin; repeat (apply elem_of_cons in Hin as [Hin|Hin]);
      try (rewrite <- Hin in *; discriminate); inversion Hin |].
  all: repeat split; intros; try discriminate.
  all: first [ apply (names_here _ _ []); assumption
             | apply (names_here _ _ [_]); assumption
             | apply (names_here _ _ [_; _]); assumption ].
Qed.

Lemma truthy_nonempty s : JS.truthy s = negb (String.eqb s "").
Proof. destruct s; reflexivity. Qed.

Lemma limit_field p v :
  if limit_ok v
  then exists n, converted 10 v = Some (JS.Int n) /\ 1 <= n <= 100
                 /\ clean (limitSchema p v) (JS.Int n)
  else flagged p (limitSchema p v).
Proof.
  unfold limit_ok, limitSchema, Zod.refine, Zod.transform.
  destruct v as [[| | |s| |]|]; cbn [converted];
    try (eexists _, _; split; reflexivity).
  - cbn. rewrite truthy_nonempty.
    destruct (String.eqb s ""); cbn.
    + exists 10. repeat split; lia.
    + destruct (JS.parseInt10 s) as [| | |n]; cbn;
        try (eexists _, _; split; reflexivity).
      destruct (Z.leb_spec 1 n), (Z.leb_spec n 100), (Z.ltb_spec 0 n);
        cbn; try lia; try (eexists _, _; split; reflexivity).
      exists n. repeat split; lia.
  - exists 10. repeat split; lia.
Qed.

Lemma offset_field p v :
  if offset_ok v
  then exists x, converted 0 v = Some x
                 /\ (x = JS.Infinity \/ exists n, x = JS.Int n /\ 0 <= n)
                 /\ clean (offsetSchema p v) x
  else flagged p (offsetSchema p v).
Proof.
  unfold offset_ok, offsetSchema, Zod.refine, Zod.transform.
  destruct v as [[| | |s| |]|]; cbn [converted];
    try (eexists _, _; split; reflexivity).
  - cbn. rewrite truthy_nonempty.
    destruct (String.eqb s ""); cbn.
    + exists (JS.Int 0). repeat split. right. exists 0. split; [reflexivity | lia].
    + destruct (JS.parseInt10 s) as [| | |n]; cbn;
        try (eexists _, _; split; reflexivity).
      * exists JS.Infinity. repeat split. left. reflexivity.
      * destruct (Z.leb_spec 0 n); cbn; try (eexists _, _; split; reflexivity).
        exists (JS.Int n). repeat split. right. exists n. split; [reflexivity | lia].
  - exists (JS.Int 0). repeat split. right. exists 0. split; [reflexivity | lia].
Qed.

(** The outcome of [listTasksQuerySchema] on an object, by the state of
    its four properties. *)
Lemma listTasksQuerySchema_object (o : gmap string json) :
  if status_ok_if_present (o !! "status") && string_if_present (o !! "search")
     && limit_ok (o !! "limit") && offset_ok (o !! "offset")
  then exists st l off,
      (JStr <$> (status_literal <$> st)) = o !! "status"
      /\ converted 10 (o !! "limit") = Some (JS.Int l) /\ 1 <= l <= 100
      /\ converted 0 (o !! "offset") = Some off
      /\ (off = JS.Infinity \/ exists n, off = JS.Int n /\ 0 <= n)
      /\ parse listTasksQuerySchema (Some (JObj o))
         = inr (ListTasksQuery.mk st (as_string (o !! "search")) (JS.Int l) off)
  else exists errors,
      parse listTasksQuerySchema (Some (JObj o)) = inl (ZodError errors)
      /\ (status_ok_if_present (o !! "status") = false -> names "status" errors)
      /\ (string_if_present (o !! "search") = false -> names "search" errors)
      /\ (limit_ok (o !! "limit") = false -> names "limit" errors)
      /\ (offset_ok (o !! "offset") = false -> names "offset" errors).
Proof.
  pose proof (status_optional [Zod.PKey "status"] (o !! "status")) as Hs.
  pose proof (string_optional [Zod.PKey "search"] (o !! "search")) as Hq.
  pose proof (limit_field [Zod.PKey "limit"] (o !! "limit")) as Hl.
  pose proof (offset_field [Zod.PKey "offset"] (o !! "offset")) as Ho.
  unfold parse, listTasksQuerySchema, object4, Zod.prop, Zod.merge.
  fold limitSchema offsetSchema.
  cbn [app].
  destruct (status_ok_if_present (o !! "status")),
    (string_if_present (o !! "search")),
    (limit_ok (o !! "limit")), (offset_ok (o !! "offset"));
    use_field Hs; use_field Hq; use_field Hl; use_field Ho; cbn.
  1: { eexists _, _, _. repeat split; first [eassumption | reflexivity | lia]. }
  all: eexists; split; [reflexivity |].
  all: repeat split; intros; try discriminate.
  all: first [ apply (names_here _ _ []); assumption
             | apply (names_here _ _ [_]); assumption
             | apply (names_here _ _ [_; _]); assumption
             | apply (names_here _ _ [_; _; _]); assumption ].
Qed.

Lemma pretty_not_empty (z : Z) : String.eqb (pretty z) "" = false.
Proof.
  pose proof (parseInt10_pretty z) as H.
  destruct (String.eqb_spec (pretty z) "") as [E | _]; [| reflexivity].
  rewrite E in H. symmetry in H. destruct (number_value_not_NaN _ H).
Qed.

(** In decimal notation, the limits are the integers from 1 to 100 and the
    offsets the integers from 0 on. *)
Lemma limit_ok_pretty (n : Z) :
  limit_ok (Some (JStr (pretty n))) = (1 <=? n) && (n <=? 100).
Proof.
  unfold limit_ok. cbn [converted]. rewrite pretty_not_empty, parseInt10_pretty.
  destruct (Z_le_gt_dec (Z.abs n) (2 ^ 53)) as [H | H].
  - rewrite number_value_exact by exact H. reflexivity.
  - rewrite pow2_53 in H. destruct (Z_lt_le_dec n 0).
    + destruct (number_value_low n) as [-> | (m & -> & Hm)];
        [rewrite pow2_53; lia | | rewrite pow2_53 in Hm]; compare_Z.
    + destruct (number_value_large n) as [-> | (m & -> & Hm)];
        [rewrite pow2_53; lia | | rewrite pow2_53 in Hm]; compare_Z.
Qed.

Lemma offset_ok_pretty (m : Z) :
  offset_ok (Some (JStr (pretty m))) = (0 <=? m).
Proof.
  unfold offset_ok. cbn [converted]. rewrite pretty_not_empty, parseInt10_pretty.
  destruct (Z_le_gt_dec (Z.abs m) (2 ^ 53)) as [H | H].
  - rewrite number_value_exact by exact H. reflexivity.
  - rewrite pow2_53 in H. destruct (Z_lt_le_dec m 0).
    + destruct (number_value_low m) as [-> | (k & -> & Hk)];
        [rewrite pow2_53; lia | | rewrite pow2_53 in Hk]; compare_Z.
    + destruct (number_value_large m) as [-> | (k & -> & Hk)];
        [rewrite pow2_53; lia | | rewrite pow2_53 in Hk]; compare_Z.
Qed.

(** C3 (amended). A creation payload validates exactly when it is an
    object whose [title] is a string of 1 to 200 characters, whose
    [description], when present, is a string, and whose [status], when
    present, is one of the three literals. The output then has [status]
    set, to [pending] when the payload had none. When an object is
    rejected, the error names every property that breaks its rule. *)
Theorem createTaskSchema_validation (payload : value) :
  ((exists d, parse createTaskSchema payload = inr d) <-> create_accepts payload = true)
  /\ (forall d, parse createTaskSchema payload = inr d ->
      exists s, CreateTaskInput.status d = Some s
                /\ (forall o, payload = Some (JObj o) -> o !! "status" = None ->
                    s = pending))
  /\ (forall o, payload = Some (JObj o) -> create_accepts payload = false ->
      exists errors,
        parse createTaskSchema payload = inl (ZodError errors)
        /\ (title_ok (o !! "title") = false -> names "title" errors)
        /\ (string_if_present (o !! "description") = false -> names "description" errors)
        /\ (status_ok_if_present (o !! "status") = false -> names "status" errors)).
Proof.
  destruct payload as [[| | | | |o]|];
    try (split; [split; [intros [d [=]] | intros [=]]
                | split; [intros d [=] | intros o [=]]]).
  pose proof (createTaskSchema_object o) as H. cbn [create_accepts].
  destruct (_ && _ && _).
  - destruct H as (t & s & Et & Es & H). rewrite H. repeat split.
    + eauto.
    + intros d [= <-]. exists s. split; [reflexivity |].
      intros o' [= <-] E. destruct Es as [[_ ->] | Es]; congruence.
    + discriminate.
  - destruct H as (errors & H & Hn). rewrite H. repeat split.
    + intros [d [=]].
    + discriminate.
    + discriminate.
    + intros o' [= <-] _. exists errors. split; [reflexivity | exact Hn].
Qed.

Lemma createTaskSchema_validation_witness :
  exists s, CreateTaskInput.status (CreateTaskInput.mk "Task" None (Some pending)) = Some s
            /\ (forall o, obj [("title", JStr "Task")] = Some (JObj o) ->
                o !! "status" = None -> s = pending).
Proof.
  apply (proj1 (proj2 (createTaskSchema_validation (obj [("title", JStr "Task")])))).
  vm_compute. reflexivity.
Defined.

(** C3 as stated fails: a payload with a good [title], no [status] and a
    [description] that is not a string is rejected. *)
Lemma createTaskSchema_rejects_description :
  ~ (forall o : gmap string json,
        (exists d, parse createTaskSchema (Some (JObj o)) = inr d)
        <-> title_ok (o !! "title") && status_ok_if_present (o !! "status") = true).
Proof.
  intros H.
  destruct (proj2 (H (list_to_map [("title", JStr "a"); ("description", JNum 5)])))
    as [d Hd].
  - vm_compute. reflexivity.
  - vm_compute in Hd. discriminate Hd.
Qed.

Example create_number_description :
  parse createTaskSchema (obj [("title", JStr "a"); ("description", JNum 5)])
  = inl (ZodError [Zod.mkIssue Zod.invalid_type [Zod.PKey "description"]
                     "Expected string, received number"]).
Proof. vm_compute. reflexivity. Qed.

Lemma as_string_None_iff v :
  string_if_present v = true -> (as_string v = None <-> v = None).
Proof. destruct v as [[]|]; cbn; intros; split; congruence. Qed.

Lemma title_ok_string_if_present v :
  title_ok_if_present v = true -> string_if_present v = true.
Proof. destruct v as [[]|]; cbn; congruence. Qed.

(** C4 (amended). On an object, [updateTaskSchema] reports the dedicated
    "at least one field" issue exactly when none of [title], [description],
    [status] is present, and then it is the only issue; an object with at
    least one of them, whose present [title] is a string of 1 to 200
    characters, whose present [description] is a string and whose present
    [status] is one of the three literals, validates; the output has a
    property exactly when the payload has it, with the payload's value. *)
Theorem updateTaskSchema_validation (o : gmap string json) :
  ((exists errors, parse updateTaskSchema (Some (JObj o)) = inl (ZodError errors)
                   /\ nothing_to_update ∈ errors)
   <-> recognized o = 0%nat)
  /\ (recognized o = 0%nat ->
      parse updateTaskSchema (Some (JObj o)) = inl (ZodError [nothing_to_update]))
  /\ ((0 < recognized o)%nat ->
      title_ok_if_present (o !! "title") = true ->
      string_if_present (o !! "description") = true ->
      status_ok_if_present (o !! "status") = true ->
      exists d, parse updateTaskSchema (Some (JObj o)) = inr d)
  /\ (forall d, parse updateTaskSchema (Some (JObj o)) = inr d ->
      (JStr <$> UpdateTaskInput.title d) = o !! "title"
      /\ (JStr <$> UpdateTaskInput.description d) = o !! "description"
      /\ (JStr <$> (status_literal <$> UpdateTaskInput.status d)) = o !! "status").
Proof.
  pose proof (updateTaskSchema_object o) as H. unfold recognized.
  destruct (title_ok_if_present (o !! "title")) eqn:Et;
    [apply title_ok_string_if_present in Et |];
    (destruct (string_if_present (o !! "description")) eqn:Ed);
    (destruct (status_ok_if_present (o !! "status")) eqn:Es);
    cbn [andb] in H.
  1: { destruct H as (st & Est & H). rewrite H. clear H.
       destruct (o !! "title") as [[| | |t| |]|]; try discriminate Et;
       destruct (o !! "description") as [[| | |d| |]|]; try discriminate Ed;
       destruct st as [st|]; destruct (o !! "status") as [js|];
         try discriminate Est; cbn in *.
       all: repeat split.
       all: try (intros d' [= <-]; repeat split; cbn; congruence).
       all: try (intros (errors & [=] & _)).
       all: try (intros; first [discriminate | lia]).
       all: try (eexists; split; [reflexivity | apply elem_of_cons; left; reflexivity]).
       all: eauto.
       all: match goal with E : inr _ = inr _ |- _ => injection E as <- end;
         cbn; congruence. }
  all: destruct H as (errors & H & Hno & _); rewrite H.
  all: repeat split; try discriminate.
  all: try (intros (errors' & [= <-] & Hin); contradiction).
  all: try (intros E;
            destruct (o !! "title"), (o !! "description"), (o !! "status");
            cbn in *; first [discriminate | lia]).
Qed.

Lemma updateTaskSchema_validation_witness :
  exists d, parse updateTaskSchema (obj [("description", JStr "")]) = inr d.
Proof.
  apply (proj1 (proj2 (proj2
           (updateTaskSchema_validation (list_to_map [("description", JStr "")]))))).
  - vm_compute. lia.
  - reflexivity.
  - reflexivity.
  - reflexivity.
Defined.

(** C4 as stated fails: with [description] as its one recognized field and
    neither [title] nor [status], a payload whose [description] is not a
    string is rejected. *)
Lemma updateTaskSchema_rejects_description :
  ~ (forall o : gmap string json,
        (0 < recognized o)%nat ->
        title_ok_if_present (o !! "title") = true ->
        status_ok_if_present (o !! "status") = true ->
        exists d, parse updateTaskSchema (Some (JObj o)) = inr d).
Proof.
  intros H.
  destruct (H (list_to_map [("description", JNum 5)])) as [d Hd].
  - vm_compute. lia.
  - reflexivity.
  - reflexivity.
  - vm_compute in Hd. discriminate Hd.
Qed.

Example update_number_description :
  parse updateTaskSchema (obj [("description", JNum 5)])
  = inl (ZodError [Zod.mkIssue Zod.invalid_type [Zod.PKey "description"]
                     "Expected string, received number"]).
Proof. vm_compute. reflexivity. Qed.

Example update_unknown_key_only :
  parse updateTaskSchema (obj [("priority", JNum 1)])
  = inl (ZodError [nothing_to_update]).
Proof. vm_compute. reflexivity. Qed.

(** C5 (amended). A query object validates exactly when its [status] and
    [search] are in order, its [limit] stands for an integer from 1 to 100
    and its [offset] for an integer that is not negative or for
    [Infinity]. An absent or empty [limit] stands for 10 and an absent or
    empty [offset] for 0; any other string stands for what
    [parseInt(_, 10)] reads from it - white space and a sign may lead, what
    follows the digits is ignored, and the integer read is rounded to the
    nearest double, to [Infinity] from 2^1024 on. In decimal notation the
    accepted limits are exactly 1 to 100 and the accepted offsets exactly
    the integers from 0 on. A value that is not a string, a string with no
    leading digits or a number out of range fails validation with an issue
    naming the field. An accepted query has both numbers set. *)
Theorem listTasksQuerySchema_pagination (o : gmap string json) :
  ((exists q, parse listTasksQuerySchema (Some (JObj o)) = inr q)
   <-> query_accepts o = true)
  /\ (forall q, parse listTasksQuerySchema (Some (JObj o)) = inr q ->
      (exists l, ListTasksQuery.limit q = JS.Int l /\ 1 <= l <= 100)
      /\ (ListTasksQuery.offset q = JS.Infinity
          \/ exists off, ListTasksQuery.offset q = JS.Int off /\ 0 <= off)
      /\ (o !! "limit" = None \/ o !! "limit" = Some (JStr "") ->
          ListTasksQuery.limit q = JS.Int 10)
      /\ (o !! "offset" = None \/ o !! "offset" = Some (JStr "") ->
          ListTasksQuery.offset q = JS.Int 0)
      /\ (forall s, o !! "limit" = Some (JStr s) -> s <> "" ->
          ListTasksQuery.limit q = JS.parseInt10 s)
      /\ (forall s, o !! "offset" = Some (JStr s) -> s <> "" ->
          ListTasksQuery.offset q = JS.parseInt10 s))
  /\ (limit_ok (o !! "limit") = false ->
      exists errors, parse listTasksQuerySchema (Some (JObj o)) = inl (ZodError errors)
                     /\ names "limit" errors)
  /\ (offset_ok (o !! "offset") = false ->
      exists errors, parse listTasksQuerySchema (Some (JObj o)) = inl (ZodError errors)
                     /\ names "offset" errors)
  /\ (forall n, o !! "limit" = Some (JStr (pretty n)) ->
      (limit_ok (o !! "limit") = true <-> 1 <= n <= 100))
  /\ (forall m, o !! "offset" = Some (JStr (pretty m)) ->
      (offset_ok (o !! "offset") = true <-> 0 <= m)).
Proof.
  pose proof (listTasksQuerySchema_object o) as H. unfold query_accepts.
  assert (Hpretty :
    (forall n, o !! "limit" = Some (JStr (pretty n)) ->
       (limit_ok (o !! "limit") = true <-> 1 <= n <= 100))
    /\ (forall m, o !! "offset" = Some (JStr (pretty m)) ->
          (offset_ok (o !! "offset") = true <-> 0 <= m))).
  { split; intros k ->.
    - rewrite limit_ok_pretty, andb_true_iff, Z.leb_le, Z.leb_le. reflexivity.
    - rewrite offset_ok_pretty, Z.leb_le. reflexivity. }
  destruct (_ && _ && _ && _) eqn:E.
  - destruct H as (st & l & off & _ & El & Hl & Eo & Ho & H). rewrite H.
    repeat apply andb_prop in E as [E ?].
    split; [split; [reflexivity | eauto] |].
    split; [| split; [congruence | split; [congruence | exact Hpretty]]].
    intros q [= <-]. cbn [ListTasksQuery.limit ListTasksQuery.offset].
    split; [exists l; split; [reflexivity | exact Hl] |].
    split; [destruct Ho as [-> | (n & -> & Hn)]; [left | right]; eauto |].
    repeat split.
    + intros [E1 | E1]; rewrite E1 in El; cbn in El; congruence.
    + intros [E1 | E1]; rewrite E1 in Eo; cbn in Eo; congruence.
    + intros s E1 Hs. rewrite E1 in El. cbn in El.
      apply String.eqb_neq in Hs. rewrite Hs in El. congruence.
    + intros s E1 Hs. rewrite E1 in Eo. cbn in Eo.
      apply String.eqb_neq in Hs. rewrite Hs in Eo. congruence.
  - destruct H as (errors & H & _ & _ & Hl & Ho). rewrite H.
    split; [split; [intros [q [=]] | discriminate] |].
    split; [discriminate |].
    split; [intros F; exists errors; auto |].
    split; [intros F; exists errors; auto | exact Hpretty].
Qed.

Lemma listTasksQuerySchema_pagination_witness :
  exists q,
    parse listTasksQuerySchema (obj [("limit", JStr "100"); ("offset", JStr "40")])
    = inr q.
Proof.
  apply (proj2 (proj1 (listTasksQuerySchema_pagination
                         (list_to_map [("limit", JStr "100"); ("offset", JStr "40")])))).
  vm_compute. reflexivity.
Defined.

(** C5 as stated fails: an empty [limit] is present and is no number, yet
    the query is accepted, with the default; and an accepted [offset] need
    not be an integer. *)
Lemma listTasksQuerySchema_accepts_empty_limit :
  ~ (forall (o : gmap string json) s,
        o !! "limit" = Some (JStr s) ->
        decimal_integer s = false ->
        exists errors,
          parse listTasksQuerySchema (Some (JObj o)) = inl (ZodError errors)
          /\ names "limit" errors)
  /\ ~ (forall (o : gmap string json) q,
          parse listTasksQuerySchema (Some (JObj o)) = inr q ->
          exists off, ListTasksQuery.offset q = JS.Int off).
Proof.
  split; intros H.
  - destruct (H (list_to_map [("limit", JStr "")]) "") as (errors & He & _).
    + vm_compute. reflexivity.
    + reflexivity.
    + vm_compute in He. discriminate He.
  - destruct (H (list_to_map [("offset", JStr (pretty (10 ^ 309)))])
                (ListTasksQuery.mk None None (JS.Int 10) JS.Infinity)) as (off & E).
    + vm_compute. reflexivity.
    + discriminate E.
Qed.

Example list_empty_limit :
  JS.parseInt10 "" = JS.NaN
  /\ parse listTasksQuerySchema (obj [("limit", JStr "")])
     = inr (ListTasksQuery.mk None None (JS.Int 10) (JS.Int 0)).
Proof. split; vm_compute; reflexivity. Qed.

Example list_limit_with_suffix :
  decimal_integer "12abc" = false
  /\ parse listTasksQuerySchema (obj [("limit", JStr "12abc"); ("offset", JStr "1.5")])
     = inr (ListTasksQuery.mk None None (JS.Int 12) (JS.Int 1)).
Proof. split; vm_compute; reflexivity. Qed.

Example list_non_numeric_limit :
  parse listTasksQuerySchema (obj [("limit", JStr "abc")])
  = inl (ZodError [Zod.mkIssue Zod.custom [Zod.PKey "limit"]
                     "Limit must be between 1 and 100"]).
Proof. vm_compute. reflexivity. Qed.

(** Offsets beyond the safe integers are rounded, and accepted. *)
Example list_large_offset :
  parse listTasksQuerySchema (obj [("offset", JStr "9007199254740993")])
  = inr (ListTasksQuery.mk None None (JS.Int 10) (JS.Int 9007199254740992))
  /\ parse listTasksQuerySchema (obj [("offset", JStr "9223372036854775808")])
     = inr (ListTasksQuery.mk None None (JS.Int 10) (JS.Int (2 ^ 63))).
Proof. split; vm_compute; reflexivity. Qed.

(** ** The task service *)

Lemma status_literal_truthy s : JS.truthy (status_literal s) = true.
Proof. destruct s; reflexivity. Qed.

Lemma where_status_admits (query : ListTasksQuery.t) (t : Task.t) :
  Prisma.matches_status (TaskService.build_where query) t = true
  <-> (forall s, ListTasksQuery.status query = Some s ->
         Task.status t = status_literal s).
Proof.
  unfold Prisma.matches_status, TaskService.build_where. cbn [Prisma.status].
  destruct (ListTasksQuery.status query) as [s|].
  - rewrite status_literal_truthy, String.eqb_eq.
    split; [intros E s' [= <-]; exact E | auto].
  - split; [discriminate | reflexivity].
Qed.

Lemma where_search_admits (query : ListTasksQuery.t) (t : Task.t) :
  Prisma.matches_OR (TaskService.build_where query) t = true
  <-> (forall x, ListTasksQuery.search query = Some x ->
         occurs x (Task.title t)
         \/ exists d, Task.description t = Some d /\ occurs x d).
Proof.
  unfold Prisma.matches_OR, TaskService.build_where. cbn [Prisma.OR].
  destruct (ListTasksQuery.search query) as [[|c x]|].
  - split; [| reflexivity]. intros _ x [= <-]. left. apply occurs_empty.
  - cbn [JS.truthy existsb Prisma.holds].
    rewrite orb_false_r, orb_true_iff, contains_occurs.
    split.
    + intros [H | H] x' [= <-]; [left; exact H | right].
      destruct (Task.description t) as [d|]; [| discriminate].
      exists d. split; [reflexivity | apply contains_occurs; exact H].
    + intros H. destruct (H _ eq_refl) as [H1 | (d & -> & H1)];
        [left; exact H1 | right; apply contains_occurs; exact H1].
  - split; [discriminate | reflexivity].
Qed.

(** The [where] object of [listTasks] selects the tasks the query asks
    for. *)
Lemma matches_selects (query : ListTasksQuery.t) (t : Task.t) :
  Prisma.matches (TaskService.build_where query) t = true <-> selects query t.
Proof.
  unfold Prisma.matches, selects.
  rewrite andb_true_iff, where_status_admits, where_search_admits. reflexivity.
Qed.

(** Unfolding of the computations in [M]. *)
Ltac run :=
  unfold TaskService.listTasks, TaskService.createTask, TaskService.getTaskById,
    TaskService.updateTask, TaskService.deleteTask,
    Prisma.findMany, Prisma.count, Prisma.create, Prisma.findUnique,
    Prisma.update, Prisma.delete, Prisma.unique, enter, getDB, putDB, throw, lift,
    mbind, M_bind, mret, M_ret;
  cbn [db calls fst snd].

Lemma pow2_63 : 2 ^ 63 = 9223372036854775808.
Proof. reflexivity. Qed.

Lemma int64_spec z : Prisma.int64 z = true <-> - 2 ^ 63 <= z < 2 ^ 63.
Proof. unfold Prisma.int64. rewrite andb_true_iff, Z.leb_le, Z.ltb_lt. reflexivity. Qed.

Lemma rows_stored (d : DB) (t : Task.t) :
  t ∈ Prisma.rows d <-> exists k, tasks d !! k = Some t.
Proof.
  unfold Prisma.rows. rewrite list_elem_of_fmap. split.
  - intros ([k t'] & -> & H). exists k. apply elem_of_map_to_list. exact H.
  - intros [k H]. exists (k, t). split; [reflexivity |].
    apply elem_of_map_to_list. exact H.
Qed.

(** [findMany] only reads. *)
Lemma findMany_world wh take skip w : snd (Prisma.findMany wh take skip w) = w.
Proof.
  run. destruct w as [d c], take as [| | |tk], skip as [| | |sk]; try reflexivity.
  cbn. destruct (negb _); [reflexivity |].
  destruct (sk <? 0); [reflexivity |]. destruct (0 <=? tk); reflexivity.
Qed.

(** Every task that [findMany] returns is stored and satisfies [where]. *)
Lemma findMany_sound wh take skip w found w' :
  Prisma.findMany wh take skip w = (inr found, w') ->
  forall t, t ∈ found -> t ∈ Prisma.rows (db w) /\ Prisma.matches wh t = true.
Proof.
  run. intros H t Ht.
  assert (Hsel : t ∈ Prisma.selected wh (db w)).
  { destruct take as [| | |tk], skip as [| | |sk]; try discriminate H.
    destruct (negb _); [discriminate H |].
    destruct (sk <? 0); [discriminate H |].
    destruct (0 <=? tk); injection H as <- _.
    - apply subseteq_take, subseteq_drop in Ht. exact Ht.
    - apply list_elem_of_In, in_rev, list_elem_of_In in Ht.
      apply subseteq_take, subseteq_drop in Ht.
      apply list_elem_of_In, in_rev, list_elem_of_In. exact Ht. }
  unfold Prisma.selected in Hsel.
  rewrite merge_sort_Permutation in Hsel.
  apply list_elem_of_In, filter_In in Hsel.
  rewrite <- list_elem_of_In in Hsel. exact Hsel.
Qed.

(** What [listTasks] returns: stored tasks that satisfy the filter, and the
    number of all stored tasks that do; the store is as it was. *)
Lemma listTasks_sound (query : ListTasksQuery.t) (w w' : World)
    (result : ListResult.t) :
  TaskService.listTasks query w = (inr result, w') ->
  (forall t, t ∈ ListResult.data result ->
     t ∈ Prisma.rows (db w)
     /\ Prisma.matches (TaskService.build_where query) t = true)
  /\ Pagination.total (ListResult.pagination result)
     = Z.of_nat (List.length
                   (List.filter (Prisma.matches (TaskService.build_where query))
                      (Prisma.rows (db w))))
  /\ db w' = db w.
Proof.
  unfold TaskService.listTasks.
  unfold mbind at 1, M_bind at 1. cbn [enter].
  unfold mbind at 1, M_bind at 1.
  pose proof (findMany_world (TaskService.build_where query)
                (ListTasksQuery.limit query) (ListTasksQuery.offset query)
                (mkWorld (db w) (calls w ++ [CallListTasks query]))) as Hw.
  destruct (Prisma.findMany _ _ _ _) as [[e|found] w1] eqn:Ef; [discriminate |].
  cbn [snd] in Hw. subst w1. run. intros [= <- <-]. cbn.
  split; [| split; reflexivity].
  intros t Ht. apply (findMany_sound _ _ _ _ _ _ Ef t Ht).
Qed.

(** The outcome of [listTasks] on a page whose limit and offset are 64-bit
    integers that are not negative. *)
Lemma listTasks_page (q : ListTasksQuery.t) (w : World) (l o : Z) :
  ListTasksQuery.limit q = JS.Int l -> ListTasksQuery.offset q = JS.Int o ->
  0 <= l < 2 ^ 63 -> 0 <= o < 2 ^ 63 ->
  TaskService.listTasks q w
  = (inr (ListResult.mk
            (take (Z.to_nat l)
               (drop (Z.to_nat o) (Prisma.selected (TaskService.build_where q) (db w))))
            (Pagination.mk
               (Z.of_nat (List.length
                            (List.filter (Prisma.matches (TaskService.build_where q))
                               (Prisma.rows (db w)))))
               (JS.Int l) (JS.Int o)
               (JS.lt (JS.add (JS.Int o) (JS.Int l))
                  (JS.Int (Z.of_nat (List.length
                                       (List.filter
                                          (Prisma.matches (TaskService.build_where q))
                                          (Prisma.rows (db w))))))))),
     mkWorld (db w) (calls w ++ [CallListTasks q])).
Proof.
  intros El Eo Hl Ho. run. rewrite El, Eo.
  assert (Prisma.int64 l = true) as -> by (apply int64_spec; lia).
  assert (Prisma.int64 o = true) as -> by (apply int64_spec; lia).
  cbn [andb negb].
  destruct (Z.ltb_spec o 0); [lia |]. destruct (Z.leb_spec 0 l); [| lia].
  reflexivity.
Qed.

(** [listTasks] fails in the client when the limit or the offset is not a
    64-bit integer, or the offset is negative. *)
Lemma listTasks_invalid_page (q : ListTasksQuery.t) (w : World) :
  match ListTasksQuery.limit q, ListTasksQuery.offset q with
  | JS.Int l, JS.Int o => Prisma.int64 l && Prisma.int64 o && (0 <=? o)
  | _, _ => false
  end = false ->
  TaskService.listTasks q w
  = (inl Prisma.invalid_argument, mkWorld (db w) (calls w ++ [CallListTasks q])).
Proof.
  run. destruct (ListTasksQuery.limit q) as [| | |l], (ListTasksQuery.offset q) as [| | |o];
    try reflexivity.
  destruct (Prisma.int64 l && Prisma.int64 o); cbn [andb negb]; [| reflexivity].
  intros H. destruct (Z.ltb_spec o 0), (Z.leb_spec 0 o); try lia; try discriminate H.
  reflexivity.
Qed.

(** [offset + limit < total] is the comparison of the integers as long as
    one side of it is below 2^53. *)
Lemma hasMore_exact (o l total : Z) :
  o + l < 2 ^ 53 \/ total < 2 ^ 53 -> 0 <= o + l -> 0 <= total ->
  JS.lt (JS.add (JS.Int o) (JS.Int l)) (JS.Int total) = (o + l <? total).
Proof.
  intros H Hs Ht. cbn [JS.add].
  destruct (Z_lt_le_dec total (2 ^ 53)) as [Hlt | Hge].
  - apply number_value_lt. lia.
  - rewrite number_value_exact by lia. reflexivity.
Qed.

(** C2 (amended). The filter that [listTasks] builds selects a task exactly
    when the task's status is the query's status, if the query has one,
    and the query's search term, if it has one, occurs in the task's title
    or in its description as the store's [LIKE] reads it: [%] in the term
    is any run of characters, [_] any one character, and ASCII letters
    match in either case. For a term without [%] and [_] that is: the term
    is a substring of the title or of the description once both are put in
    lower case. With neither status nor search, every task is selected.
    The tasks that [listTasks] returns are stored tasks that the filter
    selects, and [total] is the number of all stored tasks that it
    selects. *)
Theorem listTasks_filter (query : ListTasksQuery.t) :
  (forall t, Prisma.matches (TaskService.build_where query) t = true
             <-> selects query t)
  /\ (forall x, ListTasksQuery.search query = Some x -> plain x = true ->
      forall t,
        selects query t
        <-> (forall s, ListTasksQuery.status query = Some s ->
               Task.status t = status_literal s)
            /\ (substring (lower x) (lower (Task.title t))
                \/ exists d, Task.description t = Some d
                             /\ substring (lower x) (lower d)))
  /\ (ListTasksQuery.status query = None -> ListTasksQuery.search query = None ->
      forall t, selects query t)
  /\ (forall w result w',
      TaskService.listTasks query w = (inr result, w') ->
      (forall t, t ∈ ListResult.data result ->
         (exists k, tasks (db w) !! k = Some t) /\ selects query t)
      /\ Pagination.total (ListResult.pagination result)
         = Z.of_nat (List.length
                       (List.filter (Prisma.matches (TaskService.build_where query))
                          (Prisma.rows (db w))))).
Proof.
  split; [intros t; apply matches_selects |].
  split; [| split].
  - intros x Ex Hx t. unfold selects. rewrite Ex. split.
    + intros [Hs Hq]. split; [exact Hs |].
      destruct (Hq x eq_refl) as [H | (d & Ed & H)]; [left | right; exists d; split; [exact Ed |]];
        apply occurs_plain; assumption.
    + intros [Hs Hq]. split; [exact Hs |]. intros x' [= <-].
      destruct Hq as [H | (d & Ed & H)]; [left | right; exists d; split; [exact Ed |]];
        apply occurs_plain; assumption.
  - intros Es Eq t. unfold selects. rewrite Es, Eq. split; discriminate.
  - intros w result w' H. apply listTasks_sound in H as (Hin & Htotal & _).
    split; [| exact Htotal].
    intros t Ht. destruct (Hin t Ht) as [Hr Hm].
    split; [apply rows_stored, Hr | apply matches_selects, Hm].
Qed.

Lemma listTasks_filter_witness :
  (forall t,
      t ∈ [Task.mk 1 "a" None "pending" 10 10] ->
      (exists k, tasks (db three_tasks) !! k = Some t)
      /\ selects (ListTasksQuery.mk (Some pending) (Some "A") (JS.Int 10) (JS.Int 0)) t)
  /\ 1 = Z.of_nat (List.length
                     (List.filter
                        (Prisma.matches
                           (TaskService.build_where
                              (ListTasksQuery.mk (Some pending) (Some "A")
                                 (JS.Int 10) (JS.Int 0))))
                        (Prisma.rows (db three_tasks)))).
Proof.
  apply (proj2 (proj2 (proj2 (listTasks_filter
           (ListTasksQuery.mk (Some pending) (Some "A") (JS.Int 10) (JS.Int 0)))))
           three_tasks
           (ListResult.mk [Task.mk 1 "a" None "pending" 10 10]
              (Pagination.mk 1 (JS.Int 10) (JS.Int 0) false))
           (snd (TaskService.listTasks
                   (ListTasksQuery.mk (Some pending) (Some "A") (JS.Int 10) (JS.Int 0))
                   three_tasks))).
  vm_compute. reflexivity.
Defined.

(** C2 as stated fails: the search is not case-sensitive. The term "A" is
    no substring of the title "a", yet [listTasks] returns the task. *)
Lemma listTasks_filter_ignores_case :
  ~ (forall (query : ListTasksQuery.t) (w w' : World) (result : ListResult.t)
            (x : string) (t : Task.t),
        TaskService.listTasks query w = (inr result, w') ->
        ListTasksQuery.search query = Some x ->
        t ∈ ListResult.data result ->
        substring x (Task.title t)
        \/ exists d, Task.description t = Some d /\ substring x d).
Proof.
  intros H.
  destruct (H (ListTasksQuery.mk (Some pending) (Some "A") (JS.Int 10) (JS.Int 0))
              three_tasks
              (snd (TaskService.listTasks
                      (ListTasksQuery.mk (Some pending) (Some "A") (JS.Int 10) (JS.Int 0))
                      three_tasks))
              (ListResult.mk [Task.mk 1 "a" None "pending" 10 10]
                 (Pagination.mk 1 (JS.Int 10) (JS.Int 0) false))
              "A" (Task.mk 1 "a" None "pending" 10 10))
    as [Hs | (d & [=] & _)].
  - vm_compute. reflexivity.
  - reflexivity.
  - apply list_elem_of_In. left. reflexivity.
  - exact (not_substring_A_a Hs).
Qed.

Example search_ignores_case :
  Prisma.matches
    (TaskService.build_where
       (ListTasksQuery.mk None (Some "project") (JS.Int 10) (JS.Int 0)))
    (Task.mk 1 "Project Task" (Some "Description") "pending" 0 0) = true
  /\ Prisma.matches
       (TaskService.build_where
          (ListTasksQuery.mk None (Some "PROJECT") (JS.Int 10) (JS.Int 0)))
       (Task.mk 1 "Task" (Some "Project Description") "pending" 0 0) = true
  /\ Prisma.matches
       (TaskService.build_where
          (ListTasksQuery.mk None (Some "projects") (JS.Int 10) (JS.Int 0)))
       (Task.mk 1 "Project Task" (Some "Description") "pending" 0 0) = false.
Proof. repeat split; reflexivity. Qed.

(** The wildcards of [LIKE] are not escaped in a search term. *)
Example search_wildcards :
  fst (TaskService.listTasks (ListTasksQuery.mk None (Some "_") (JS.Int 10) (JS.Int 0))
         three_tasks)
  = inr (ListResult.mk
           [Task.mk 3 "c" (Some "a") "completed" 30 30;
            Task.mk 2 "b" None "pending" 20 20;
            Task.mk 1 "a" None "pending" 10 10]
           (Pagination.mk 3 (JS.Int 10) (JS.Int 0) false))
  /\ contains "100%" "100 percent" = true
  /\ contains "a_c" "xabcx" = true
  /\ contains "a_c" "xacx" = false.
Proof. repeat split; vm_compute; reflexivity. Qed.

(** C1 (amended). For a query with [limit] in 1..100 and an [offset] from 0
    to 2^63 - 1, [listTasks] returns at most [limit] tasks; [total] is the
    number of stored tasks that satisfy the filter, whatever the page;
    [hasMore] is [offset + limit < total], computed on doubles, which is
    the comparison of the integers as long as [offset + limit] or [total]
    is below 2^53. For an offset of 2^63 or more, or [Infinity], the
    persistence call is rejected and [listTasks] fails; the store is as it
    was. *)
Theorem listTasks_pagination (query : ListTasksQuery.t) (w : World) (l : Z) :
  ListTasksQuery.limit query = JS.Int l ->
  1 <= l <= 100 ->
  (forall o, ListTasksQuery.offset query = JS.Int o -> 0 <= o < 2 ^ 63 ->
     exists result w',
       TaskService.listTasks query w = (inr result, w')
       /\ Z.of_nat (List.length (ListResult.data result)) <= l
       /\ Pagination.total (ListResult.pagination result)
          = Z.of_nat (List.length
                        (List.filter (Prisma.matches (TaskService.build_where query))
                           (Prisma.rows (db w))))
       /\ (o + l < 2 ^ 53 \/ Pagination.total (ListResult.pagination result) < 2 ^ 53 ->
           Pagination.hasMore (ListResult.pagination result)
           = (o + l <? Pagination.total (ListResult.pagination result)))
       /\ db w' = db w)
  /\ (ListTasksQuery.offset query = JS.Infinity
      \/ (exists o, ListTasksQuery.offset query = JS.Int o /\ 2 ^ 63 <= o) ->
      exists msg w',
        TaskService.listTasks query w = (inl (OtherError msg), w') /\ db w' = db w).
Proof.
  intros El Hl. split.
  - intros o Eo Ho.
    assert (Hl63 : 0 <= l < 2 ^ 63) by (rewrite pow2_63; lia).
    rewrite (listTasks_page query w l o El Eo Hl63 Ho).
    eexists _, _. split; [reflexivity |]. cbn.
    split; [| split; [reflexivity | split; [| reflexivity]]].
    + pose proof (firstn_le_length (Z.to_nat l)
                    (skipn (Z.to_nat o)
                       (Prisma.selected (TaskService.build_where query) (db w)))).
      unfold take, drop in *. lia.
    + intros H. apply hasMore_exact; [exact H | lia | lia].
  - intros H. rewrite (listTasks_invalid_page query w).
    + eexists _, _. split; reflexivity.
    + rewrite El. destruct H as [-> | (o & -> & Ho)]; [reflexivity |].
      assert (Prisma.int64 o = false) as ->; [| rewrite andb_false_r; reflexivity].
      unfold Prisma.int64. rewrite pow2_63 in *.
      destruct (Z.ltb_spec o 9223372036854775808); [lia |]. apply andb_false_r.
Qed.

Lemma listTasks_pagination_witness :
  exists result w',
    TaskService.listTasks (ListTasksQuery.mk (Some pending) None (JS.Int 1) (JS.Int 0))
      three_tasks = (inr result, w')
    /\ Z.of_nat (List.length (ListResult.data result)) <= 1
    /\ Pagination.total (ListResult.pagination result)
       = Z.of_nat (List.length
                     (List.filter
                        (Prisma.matches
                           (TaskService.build_where
                              (ListTasksQuery.mk (Some pending) None (JS.Int 1) (JS.Int 0))))
                        (Prisma.rows (db three_tasks))))
    /\ (0 + 1 < 2 ^ 53 \/ Pagination.total (ListResult.pagination result) < 2 ^ 53 ->
        Pagination.hasMore (ListResult.pagination result)
        = (0 + 1 <? Pagination.total (ListResult.pagination result)))
    /\ db w' = db three_tasks.
Proof.
  apply (proj1 (listTasks_pagination
                  (ListTasksQuery.mk (Some pending) None (JS.Int 1) (JS.Int 0))
                  three_tasks 1 eq_refl ltac:(lia)) 0);
    [reflexivity | rewrite pow2_63; lia].
Defined.

(** C1 as stated fails: an offset of 2^63 is not negative, and [listTasks]
    returns nothing for it. *)
Lemma listTasks_rejects_large_offset :
  ~ (forall (query : ListTasksQuery.t) (w : World) (l o : Z),
        ListTasksQuery.limit query = JS.Int l ->
        ListTasksQuery.offset query = JS.Int o ->
        1 <= l <= 100 ->
        0 <= o ->
        exists result w',
          TaskService.listTasks query w = (inr result, w')
          /\ Z.of_nat (List.length (ListResult.data result)) <= l
          /\ Pagination.hasMore (ListResult.pagination result)
             = (o + l <? Pagination.total (ListResult.pagination result))).
Proof.
  intros H.
  destruct (H (ListTasksQuery.mk None None (JS.Int 10) (JS.Int (2 ^ 63)))
              three_tasks 10 (2 ^ 63) eq_refl eq_refl ltac:(lia) ltac:(lia))
    as (result & w' & E & _).
  vm_compute in E. discriminate E.
Qed.

Example list_pending_of_three :
  fst (TaskService.listTasks (ListTasksQuery.mk (Some pending) None (JS.Int 10) (JS.Int 0))
         three_tasks)
  = inr (ListResult.mk
           [Task.mk 2 "b" None "pending" 20 20; Task.mk 1 "a" None "pending" 10 10]
           (Pagination.mk 2 (JS.Int 10) (JS.Int 0) false)).
Proof. vm_compute. reflexivity. Qed.

Example list_first_page_of_three :
  fst (TaskService.listTasks (ListTasksQuery.mk None None (JS.Int 2) (JS.Int 0)) three_tasks)
  = inr (ListResult.mk
           [Task.mk 3 "c" (Some "a") "completed" 30 30; Task.mk 2 "b" None "pending" 20 20]
           (Pagination.mk 3 (JS.Int 2) (JS.Int 0) true)).
Proof. vm_compute. reflexivity. Qed.

(** The offset that the list schema accepts and the store rejects. *)
Example list_offset_2_63 :
  parse listTasksQuerySchema (obj [("offset", JStr "9223372036854775808")])
  = inr (ListTasksQuery.mk None None (JS.Int 10) (JS.Int (2 ^ 63)))
  /\ fst (TaskService.listTasks
            (ListTasksQuery.mk None None (JS.Int 10) (JS.Int (2 ^ 63))) three_tasks)
     = inl Prisma.invalid_argument.
Proof. split; vm_compute; reflexivity. Qed.

(** C10 (amended). With a search term in the query, a task without
    description is among the results only if the term occurs in its title,
    as [LIKE] reads the term - for a term without [%] and [_]: only if the
    term is a substring of the title once both are in lower case. The
    description operand of [OR] does not hold for such a task. *)
Theorem listTasks_null_description (query : ListTasksQuery.t) (w w' : World)
    (result : ListResult.t) (x : string) (t : Task.t) :
  TaskService.listTasks query w = (inr result, w') ->
  ListTasksQuery.search query = Some x ->
  t ∈ ListResult.data result ->
  Task.description t = None ->
  occurs x (Task.title t)
  /\ Prisma.holds (Prisma.descriptionContains x) t = false
  /\ (plain x = true -> substring (lower x) (lower (Task.title t))).
Proof.
  intros H Ex Ht Hd.
  apply listTasks_sound in H as (Hin & _).
  destruct (Hin t Ht) as [_ Hm].
  apply andb_true_iff in Hm as [_ Hm].
  assert (Ho : occurs x (Task.title t)).
  { destruct (proj1 (where_search_admits query t) Hm x Ex) as [H1 | (d & E & _)];
      [exact H1 | congruence]. }
  split; [exact Ho |]. split.
  - cbn [Prisma.holds]. rewrite Hd. reflexivity.
  - intros Hx. apply occurs_plain; assumption.
Qed.

Lemma listTasks_null_description_witness :
  occurs "A" (Task.title (Task.mk 1 "a" None "pending" 10 10))
  /\ Prisma.holds (Prisma.descriptionContains "A") (Task.mk 1 "a" None "pending" 10 10)
     = false
  /\ (plain "A" = true
      -> substring (lower "A") (lower (Task.title (Task.mk 1 "a" None "pending" 10 10)))).
Proof.
  apply (listTasks_null_description
           (ListTasksQuery.mk None (Some "A") (JS.Int 10) (JS.Int 0)) three_tasks
           (snd (TaskService.listTasks
                   (ListTasksQuery.mk None (Some "A") (JS.Int 10) (JS.Int 0)) three_tasks))
           (ListResult.mk
              [Task.mk 3 "c" (Some "a") "completed" 30 30;
               Task.mk 1 "a" None "pending" 10 10]
              (Pagination.mk 2 (JS.Int 10) (JS.Int 0) false))
           "A").
  - vm_compute. reflexivity.
  - reflexivity.
  - apply list_elem_of_In. right. left. reflexivity.
  - reflexivity.
Defined.

(** C10 as stated fails: the task "a" has no description and is returned
    for the term "A", which is no substring of its title. *)
Lemma listTasks_null_description_ignores_case :
  ~ (forall (query : ListTasksQuery.t) (w w' : World) (result : ListResult.t)
            (x : string) (t : Task.t),
        TaskService.listTasks query w = (inr result, w') ->
        ListTasksQuery.search query = Some x ->
        t ∈ ListResult.data result ->
        Task.description t = None ->
        substring x (Task.title t)).
Proof.
  intros H. apply not_substring_A_a.
  apply (H (ListTasksQuery.mk None (Some "A") (JS.Int 10) (JS.Int 0)) three_tasks
           (snd (TaskService.listTasks
                   (ListTasksQuery.mk None (Some "A") (JS.Int 10) (JS.Int 0)) three_tasks))
           (ListResult.mk
              [Task.mk 3 "c" (Some "a") "completed" 30 30;
               Task.mk 1 "a" None "pending" 10 10]
              (Pagination.mk 2 (JS.Int 10) (JS.Int 0) false))
           "A" (Task.mk 1 "a" None "pending" 10 10)).
  - vm_compute. reflexivity.
  - reflexivity.
  - apply list_elem_of_In. right. left. reflexivity.
  - reflexivity.
Qed.

(** C7 (amended). For an id under which nothing is stored and which is a
    64-bit integer, [getTaskById] returns null without failing, and
    [updateTask] and [deleteTask] fail with the known request error P2025
    (record not found) of the persistence call. For an id under which
    nothing is stored and which is not a 64-bit integer - an integer
    outside the range, or an infinity - the three of them fail alike, with
    the client's validation error. The store is as it was in every
    case. *)
Theorem missing_id (w : World) (data : UpdateTaskInput.t) :
  (forall id, tasks (db w) !! id = None -> Prisma.int64 id = true ->
     (exists w', TaskService.getTaskById (JS.Int id) w = (inr None, w') /\ db w' = db w)
     /\ (exists msg w',
           TaskService.updateTask (JS.Int id) data w
           = (inl (PrismaClientKnownRequestError "P2025" msg), w') /\ db w' = db w)
     /\ (exists msg w',
           TaskService.deleteTask (JS.Int id) w
           = (inl (PrismaClientKnownRequestError "P2025" msg), w') /\ db w' = db w))
  /\ (forall id,
        (exists z, id = JS.Int z /\ tasks (db w) !! z = None /\ Prisma.int64 z = false)
        \/ id = JS.Infinity \/ id = JS.NegInfinity ->
        (exists msg w',
            TaskService.getTaskById id w = (inl (OtherError msg), w') /\ db w' = db w)
        /\ (exists msg w',
              TaskService.updateTask id data w = (inl (OtherError msg), w')
              /\ db w' = db w)
        /\ (exists msg w',
              TaskService.deleteTask id w = (inl (OtherError msg), w') /\ db w' = db w)).
Proof.
  split.
  - intros id H Hid. run. rewrite H, Hid. cbn.
    split; [| split]; eexists; try eexists; split; reflexivity.
  - intros id [(z & -> & H & Hz) | [-> | ->]]; run; try rewrite H, Hz; cbn.
    all: split; [| split]; eexists _, _; split; reflexivity.
Qed.

Lemma missing_id_witness :
  (exists w', TaskService.getTaskById (JS.Int 999) three_tasks = (inr None, w')
              /\ db w' = db three_tasks)
  /\ (exists msg w',
        TaskService.updateTask (JS.Int 999) (UpdateTaskInput.mk (Some "x") None None)
          three_tasks
        = (inl (PrismaClientKnownRequestError "P2025" msg), w')
        /\ db w' = db three_tasks)
  /\ (exists msg w',
        TaskService.deleteTask (JS.Int 999) three_tasks
        = (inl (PrismaClientKnownRequestError "P2025" msg), w')
        /\ db w' = db three_tasks).
Proof.
  apply (proj1 (missing_id three_tasks (UpdateTaskInput.mk (Some "x") None None)) 999).
  - vm_compute. reflexivity.
  - vm_compute. reflexivity.
Defined.

(** C7 as stated fails: nothing is stored under 2^63, and [getTaskById]
    does not return null for it. *)
Lemma getTaskById_rejects_2_63 :
  ~ (forall (w : World) (id : Z),
        tasks (db w) !! id = None ->
        exists w', TaskService.getTaskById (JS.Int id) w = (inr None, w')).
Proof.
  intros H. destruct (H three_tasks (2 ^ 63)) as [w' E].
  - vm_compute. reflexivity.
  - vm_compute in E. discriminate E.
Qed.

Example getTaskById_2_63 :
  JS.parseInt10 "9223372036854775808" = JS.Int (2 ^ 63)
  /\ fst (TaskService.getTaskById (JS.Int (2 ^ 63)) three_tasks)
     = inl Prisma.invalid_argument
  /\ fst (TaskService.deleteTask (JS.Int (2 ^ 63)) three_tasks)
     = inl Prisma.invalid_argument.
Proof. repeat split; vm_compute; reflexivity. Qed.

(** C8. [createTask] succeeds on every creation input, and [getTaskById] on
    the id of the task it returns finds a task with the input's title and
    description and the input's status, "pending" when the input has
    none. *)
Theorem create_then_get (data : CreateTaskInput.t) (w : World) :
  exists created w1 found w2,
    TaskService.createTask data w = (inr created, w1)
    /\ TaskService.getTaskById (JS.Int (Task.id created)) w1 = (inr (Some found), w2)
    /\ Task.title found = CreateTaskInput.title data
    /\ Task.description found = CreateTaskInput.description data
    /\ Task.status found
       = match CreateTaskInput.status data with
         | Some s => status_literal s
         | None => "pending"
         end.
Proof.
  run. eexists _, _, _, _. split; [reflexivity |].
  cbn [Task.id db calls tasks]. rewrite lookup_insert_eq.
  split; [reflexivity |]. repeat split.
Qed.

Example create_then_get_validated :
  exists data created w1,
    parse createTaskSchema (obj [("title", JStr "Write tests")]) = inr data
    /\ TaskService.createTask data three_tasks = (inr created, w1)
    /\ fst (TaskService.getTaskById (JS.Int (Task.id created)) w1)
       = inr (Some (Task.mk 4 "Write tests" None "pending" 40 40)).
Proof.
  eexists _, _, _. split; [vm_compute; reflexivity |].
  split; [vm_compute; reflexivity |]. vm_compute. reflexivity.
Qed.

(** ** The handlers *)

Ltac handler :=
  unfold TaskController.getById, TaskController.update, TaskController.delete,
    try_next.

(** What the three handlers with an [id] parameter do once the parameter
    has parsed. *)
Lemma getById_parsed (req : Request.t) (w : World) :
  JS.parseInt10 (Request.id req) <> JS.NaN ->
  TaskController.getById req w
  = try_next (task ← TaskService.getTaskById (JS.parseInt10 (Request.id req));
              match task with
              | None => mret (mkResponse 404 (ErrorBody false "Task not found" None None))
              | Some t => mret (mkResponse 200 (TaskBody true t))
              end) w.
Proof.
  intros H. unfold TaskController.getById.
  destruct (JS.parseInt10 (Request.id req)); [contradiction | reflexivity ..].
Qed.

Lemma update_parsed (req : Request.t) (w : World) :
  JS.parseInt10 (Request.id req) <> JS.NaN ->
  TaskController.update req w
  = try_next (validatedData ← lift (parse updateTaskSchema (Request.body req));
              task ← TaskService.updateTask (JS.parseInt10 (Request.id req)) validatedData;
              mret (mkResponse 200 (TaskBody true task))) w.
Proof.
  intros H. unfold TaskController.update.
  destruct (JS.parseInt10 (Request.id req)); [contradiction | reflexivity ..].
Qed.

Lemma delete_parsed (req : Request.t) (w : World) :
  JS.parseInt10 (Request.id req) <> JS.NaN ->
  TaskController.delete req w
  = try_next (TaskService.deleteTask (JS.parseInt10 (Request.id req));;
              mret (mkResponse 200 (MessageBody true "Task deleted successfully"))) w.
Proof.
  intros H. unfold TaskController.delete.
  destruct (JS.parseInt10 (Request.id req)); [contradiction | reflexivity ..].
Qed.

(** Entering a method of the service is recorded, whatever the persistence
    call does then. *)
Lemma getTaskById_calls (id : JS.number) (w : World) :
  calls (snd (TaskService.getTaskById id w)) = calls w ++ [CallGetTaskById id].
Proof.
  run. destruct id as [| | |z]; try reflexivity.
  destruct (tasks (db w) !! z); [reflexivity |].
  destruct (Prisma.int64 z); reflexivity.
Qed.

Lemma deleteTask_calls (id : JS.number) (w : World) :
  calls (snd (TaskService.deleteTask id w)) = calls w ++ [CallDeleteTask id].
Proof.
  run. destruct id as [| | |z]; try reflexivity.
  destruct (tasks (db w) !! z); [reflexivity |].
  destruct (Prisma.int64 z); reflexivity.
Qed.

Lemma updateTask_calls (id : JS.number) (data : UpdateTaskInput.t) (w : World) :
  calls (snd (TaskService.updateTask id data w)) = calls w ++ [CallUpdateTask id data].
Proof.
  run. destruct id as [| | |z]; try reflexivity.
  destruct (tasks (db w) !! z); cbn.
  - destruct (Nat.eqb _ 0); reflexivity.
  - destruct (Prisma.int64 z); reflexivity.
Qed.

(** What a handler leaves of the world when its computation is [m]. *)
Lemma try_next_world (m : M Response) (w : World) :
  snd (try_next m w) = snd (m w).
Proof. unfold try_next. destruct (m w) as [[e | r] w']; reflexivity. Qed.

(** With a parameter that has parsed, the service is entered with the
    number read from it. *)
Lemma getById_enters (req : Request.t) (w : World) :
  JS.parseInt10 (Request.id req) <> JS.NaN ->
  calls (snd (TaskController.getById req w))
  = calls w ++ [CallGetTaskById (JS.parseInt10 (Request.id req))].
Proof.
  intros H. rewrite (getById_parsed req w H), try_next_world.
  unfold mbind at 1, M_bind at 1.
  pose proof (getTaskById_calls (JS.parseInt10 (Request.id req)) w) as Hc.
  destruct (TaskService.getTaskById _ w) as [[e | [t |]] w1]; exact Hc.
Qed.

Lemma delete_enters (req : Request.t) (w : World) :
  JS.parseInt10 (Request.id req) <> JS.NaN ->
  calls (snd (TaskController.delete req w))
  = calls w ++ [CallDeleteTask (JS.parseInt10 (Request.id req))].
Proof.
  intros H. rewrite (delete_parsed req w H), try_next_world.
  unfold mbind at 1, M_bind at 1.
  pose proof (deleteTask_calls (JS.parseInt10 (Request.id req)) w) as Hc.
  destruct (TaskService.deleteTask _ w) as [[e | t] w1]; exact Hc.
Qed.

Lemma update_enters (req : Request.t) (w : World) (data : UpdateTaskInput.t) :
  JS.parseInt10 (Request.id req) <> JS.NaN ->
  parse updateTaskSchema (Request.body req) = inr data ->
  calls (snd (TaskController.update req w))
  = calls w ++ [CallUpdateTask (JS.parseInt10 (Request.id req)) data].
Proof.
  intros H E. rewrite (update_parsed req w H), try_next_world, E.
  unfold mbind at 1, M_bind at 1. cbn [lift].
  unfold mbind at 1, M_bind at 1.
  pose proof (updateTask_calls (JS.parseInt10 (Request.id req)) data w) as Hc.
  destruct (TaskService.updateTask _ data w) as [[e | t] w1]; exact Hc.
Qed.

Lemma update_rejects (req : Request.t) (w : World) (e : Error) :
  JS.parseInt10 (Request.id req) <> JS.NaN ->
  parse updateTaskSchema (Request.body req) = inl e ->
  TaskController.update req w = (Next e, w).
Proof.
  intros H E. rewrite (update_parsed req w H). unfold try_next.
  unfold mbind at 1, M_bind at 1. cbn [lift]. rewrite E. reflexivity.
Qed.

(** C9 (amended). When [parseInt] finds no integer at the start of the [id]
    path parameter, [getById], [update] and [delete] answer 400 "Invalid
    task ID" and leave the world, the record of service calls included, as
    it was; a handler that enters the task service has parsed a number
    from the parameter, and the service is entered with that number: by
    [getById] and [delete] always, by [update] when the body validates
    (when it does not, [update] does not enter the service). The number is
    the integer that the parameter starts with, when that integer has at
    most 53 bits. *)
Theorem invalid_id_rejected (req : Request.t) (w : World) :
  (JS.parseInt10 (Request.id req) = JS.NaN ->
   TaskController.getById req w
   = (Sent (mkResponse 400 (ErrorBody false "Invalid task ID" None None)), w)
   /\ TaskController.update req w
      = (Sent (mkResponse 400 (ErrorBody false "Invalid task ID" None None)), w)
   /\ TaskController.delete req w
      = (Sent (mkResponse 400 (ErrorBody false "Invalid task ID" None None)), w))
  /\ (reaches_service TaskController.getById req w
      \/ reaches_service TaskController.update req w
      \/ reaches_service TaskController.delete req w ->
      JS.parseInt10 (Request.id req) <> JS.NaN)
  /\ (JS.parseInt10 (Request.id req) <> JS.NaN ->
      calls (snd (TaskController.getById req w))
      = calls w ++ [CallGetTaskById (JS.parseInt10 (Request.id req))]
      /\ calls (snd (TaskController.delete req w))
         = calls w ++ [CallDeleteTask (JS.parseInt10 (Request.id req))]
      /\ (forall data, parse updateTaskSchema (Request.body req) = inr data ->
          calls (snd (TaskController.update req w))
          = calls w ++ [CallUpdateTask (JS.parseInt10 (Request.id req)) data])
      /\ (forall e, parse updateTaskSchema (Request.body req) = inl e ->
          TaskController.update req w = (Next e, w)))
  /\ (forall k, Request.id req = pretty k -> Z.abs k <= 2 ^ 53 ->
      JS.parseInt10 (Request.id req) = JS.Int k).
Proof.
  assert (Hnan : JS.parseInt10 (Request.id req) = JS.NaN ->
    TaskController.getById req w
    = (Sent (mkResponse 400 (ErrorBody false "Invalid task ID" None None)), w)
    /\ TaskController.update req w
       = (Sent (mkResponse 400 (ErrorBody false "Invalid task ID" None None)), w)
    /\ TaskController.delete req w
       = (Sent (mkResponse 400 (ErrorBody false "Invalid task ID" None None)), w)).
  { intros E. handler. rewrite E. repeat split. }
  split; [exact Hnan |]. split; [| split].
  - unfold reaches_service. intros H E.
    destruct (Hnan E) as (E1 & E2 & E3). rewrite E1, E2, E3 in H. cbn in H.
    destruct H as [H | [H | H]]; contradiction.
  - intros H. split; [| split; [| split]].
    + apply getById_enters, H.
    + apply delete_enters, H.
    + intros data E. apply update_enters; assumption.
    + intros e E. apply update_rejects; assumption.
  - intros k -> Hk. apply parseInt10_pretty_exact, Hk.
Qed.

Lemma invalid_id_rejected_witness :
  TaskController.getById (Request.mk "invalid" None None) three_tasks
  = (Sent (mkResponse 400 (ErrorBody false "Invalid task ID" None None)), three_tasks)
  /\ TaskController.update (Request.mk "invalid" None None) three_tasks
     = (Sent (mkResponse 400 (ErrorBody false "Invalid task ID" None None)), three_tasks)
  /\ TaskController.delete (Request.mk "invalid" None None) three_tasks
     = (Sent (mkResponse 400 (ErrorBody false "Invalid task ID" None None)), three_tasks).
Proof.
  apply (proj1 (invalid_id_rejected (Request.mk "invalid" None None) three_tasks)).
  reflexivity.
Defined.

(** C9 as stated fails: "1.5" is not an integer, yet [getById] does not
    answer 400 and the task service is entered. *)
Lemma getById_accepts_fraction :
  ~ (forall (req : Request.t) (w : World),
        decimal_integer (Request.id req) = false ->
        exists w',
          TaskController.getById req w
          = (Sent (mkResponse 400 (ErrorBody false "Invalid task ID" None None)), w')
          /\ calls w' = calls w).
Proof.
  intros H.
  destruct (H (Request.mk "1.5" None None) three_tasks) as (w' & E & _).
  - reflexivity.
  - vm_compute in E. discriminate E.
Qed.

Example getById_fraction :
  TaskController.getById (Request.mk "1.5" None None) three_tasks
  = (Sent (mkResponse 200 (TaskBody true (Task.mk 1 "a" None "pending" 10 10))),
     mkWorld (db three_tasks) [CallGetTaskById (JS.Int 1)]).
Proof. vm_compute. reflexivity. Qed.

Example update_passes_the_id :
  calls (snd (TaskController.update
                (Request.mk "2" (obj [("status", JStr "completed")]) None) three_tasks))
  = [CallUpdateTask (JS.Int 2) (UpdateTaskInput.mk None None (Some completed))].
Proof. vm_compute. reflexivity. Qed.

Example delete_missing_is_404 :
  fst (respond None TaskController.delete (Request.mk "999999" None None) three_tasks)
  = mkResponse 404 (ErrorBody false "Resource not found" None None).
Proof. vm_compute. reflexivity. Qed.

Example update_empty_body_is_400 :
  fst (respond None TaskController.update (Request.mk "1" (obj []) None) three_tasks)
  = mkResponse 400
      (ErrorBody false "Validation error"
         (Some [Detail.mk "" "At least one field must be provided for update"]) None).
Proof. vm_compute. reflexivity. Qed.

(** * Further properties of the code *)

(** ** Decimal notation *)

(** [pretty z] is the decimal notation of the integer [z], as [String(z)]
    writes it. *)
Example decimal_notation :
  pretty 0 = "0" /\ pretty 42 = "42" /\ pretty (-5) = "-5" /\ pretty 100 = "100".
Proof. repeat split; vm_compute; reflexivity. Qed.

(** ** The validators, further *)

(** X1. Keys outside a schema's shape have no influence: adding, changing
    or removing one leaves the outcome of [createTaskSchema],
    [updateTaskSchema] and [listTasksQuerySchema] as it is, so no such key
    ever reaches the service. *)
Theorem unknown_keys_are_stripped (o : gmap string json) (k : string) (v : json) :
  (k <> "title" -> k <> "description" -> k <> "status" ->
   parse createTaskSchema (Some (JObj (<[k := v]> o)))
   = parse createTaskSchema (Some (JObj o))
   /\ parse updateTaskSchema (Some (JObj (<[k := v]> o)))
      = parse updateTaskSchema (Some (JObj o)))
  /\ (k <> "status" -> k <> "search" -> k <> "limit" -> k <> "offset" ->
      parse listTasksQuerySchema (Some (JObj (<[k := v]> o)))
      = parse listTasksQuerySchema (Some (JObj o))).
Proof.
  split.
  - intros H1 H2 H3.
    unfold parse, createTaskSchema, updateTaskSchema, Zod.refine, object3, Zod.prop.
    rewrite !lookup_insert_ne by congruence. split; reflexivity.
  - intros H1 H2 H3 H4.
    unfold parse, listTasksQuerySchema, object4, Zod.prop.
    rewrite !lookup_insert_ne by congruence. reflexivity.
Qed.

(** X2. An accepted creation payload is passed on as it is: the output's
    title and description are the payload's strings, unchanged, and its
    status is the payload's, or [pending] when the payload has none. *)
Theorem createTaskSchema_output (o : gmap string json) (d : CreateTaskInput.t) :
  parse createTaskSchema (Some (JObj o)) = inr d ->
  o !! "title" = Some (JStr (CreateTaskInput.title d))
  /\ o !! "description" = JStr <$> CreateTaskInput.description d
  /\ (o !! "status" = None /\ CreateTaskInput.status d = Some pending
      \/ exists s, CreateTaskInput.status d = Some s
                   /\ o !! "status" = Some (JStr (status_literal s))).
Proof.
  intros H. pose proof (createTaskSchema_object o) as L.
  destruct (title_ok _ && string_if_present (o !! "description") && _) eqn:E.
  - destruct L as (t & s & Et & Es & L). rewrite L in H. injection H as <-.
    apply andb_prop in E as [E _]. apply andb_prop in E as [_ E].
    cbn. repeat split.
    + exact Et.
    + destruct (o !! "description") as [[]|]; cbn in *; congruence.
    + destruct Es as [[Es ->] | Es]; [left; split; [exact Es | reflexivity] |].
      right. exists s. split; [reflexivity | exact Es].
  - destruct L as (errors & L & _). rewrite L in H. discriminate H.
Qed.

Lemma createTaskSchema_output_witness :
  obj_fields [("title", JStr " Task "); ("description", JStr "")] !! "title"
  = Some (JStr (CreateTaskInput.title
                  (CreateTaskInput.mk " Task " (Some "") (Some pending)))).
Proof.
  apply (createTaskSchema_output
           (obj_fields [("title", JStr " Task "); ("description", JStr "")])
           (CreateTaskInput.mk " Task " (Some "") (Some pending))).
  vm_compute. reflexivity.
Defined.

Lemma parse_issues {A} (s : Zod.Schema A) (v : value) (i : Zod.ZodIssue) :
  i ∈ Zod.issues (s [] v) ->
  exists errors, parse s v = inl (ZodError errors) /\ i ∈ errors.
Proof.
  intros H. unfold parse. destruct (Zod.issues (s [] v)) as [| e errs] eqn:E.
  - inversion H.
  - exists (e :: errs). split; [reflexivity | exact H].
Qed.

Lemma title_issues m1 m2 p s :
  Zod.issues (Zod.string [Zod.Min 1 m1; Zod.Max 200 m2] p (Some (JStr s)))
  = (if Nat.ltb (String.length s) 1 then [Zod.mkIssue Zod.too_small p m1] else [])
    ++ (if Nat.ltb 200 (String.length s) then [Zod.mkIssue Zod.too_big p m2] else []).
Proof. cbn. rewrite app_nil_r. reflexivity. Qed.

(** X3. A title that is the empty string is reported at [title] as "Title is
    required" by the creation schema and as "Title cannot be empty" by the
    update schema; a title of more than 200 characters is reported by both
    as "Title too long" - whatever the other properties are. *)
Theorem title_length_errors (o : gmap string json) (s : string) :
  o !! "title" = Some (JStr s) ->
  (String.length s = 0%nat ->
   (exists errors,
       parse createTaskSchema (Some (JObj o)) = inl (ZodError errors)
       /\ Zod.mkIssue Zod.too_small [Zod.PKey "title"] "Title is required" ∈ errors)
   /\ (exists errors,
         parse updateTaskSchema (Some (JObj o)) = inl (ZodError errors)
         /\ Zod.mkIssue Zod.too_small [Zod.PKey "title"] "Title cannot be empty"
            ∈ errors))
  /\ ((200 < String.length s)%nat ->
      (exists errors,
          parse createTaskSchema (Some (JObj o)) = inl (ZodError errors)
          /\ Zod.mkIssue Zod.too_big [Zod.PKey "title"] "Title too long" ∈ errors)
      /\ (exists errors,
            parse updateTaskSchema (Some (JObj o)) = inl (ZodError errors)
            /\ Zod.mkIssue Zod.too_big [Zod.PKey "title"] "Title too long" ∈ errors)).
Proof.
  intros Et.
  assert (Hc : forall i,
             i ∈ Zod.issues (Zod.string [Zod.Min 1 "Title is required";
                                          Zod.Max 200 "Title too long"]
                               [Zod.PKey "title"] (Some (JStr s))) ->
             i ∈ Zod.issues (createTaskSchema [] (Some (JObj o)))).
  { intros i Hi. unfold createTaskSchema, object3, Zod.prop, Zod.merge.
    cbn [Zod.issues app]. rewrite Et. rewrite !elem_of_app. auto. }
  assert (Hu : forall i,
             i ∈ Zod.issues (Zod.string [Zod.Min 1 "Title cannot be empty";
                                          Zod.Max 200 "Title too long"]
                               [Zod.PKey "title"] (Some (JStr s))) ->
             i ∈ Zod.issues (updateTaskSchema [] (Some (JObj o)))).
  { intros i Hi. unfold updateTaskSchema, Zod.refine.
    match goal with
    | |- context [Zod.output ?r] =>
        assert (Hin : i ∈ Zod.issues r);
        [| destruct (Zod.output r) as [a|]; [destruct (Nat.ltb _ _) |];
           cbn [Zod.issues]; rewrite ?elem_of_app; auto]
    end.
    unfold object3, Zod.prop, Zod.merge. cbn [Zod.issues app]. rewrite Et.
    unfold Zod.optional at 1. cbn [Zod.issues]. rewrite !elem_of_app. auto. }
  split; intros Hlen; split; apply parse_issues.
  - apply Hc. rewrite title_issues, elem_of_app. left.
    destruct (Nat.ltb_spec (String.length s) 1); [| lia].
    apply elem_of_cons. left. reflexivity.
  - apply Hu. rewrite title_issues, elem_of_app. left.
    destruct (Nat.ltb_spec (String.length s) 1); [| lia].
    apply elem_of_cons. left. reflexivity.
  - apply Hc. rewrite title_issues, elem_of_app. right.
    destruct (Nat.ltb_spec 200 (String.length s)); [| lia].
    apply elem_of_cons. left. reflexivity.
  - apply Hu. rewrite title_issues, elem_of_app. right.
    destruct (Nat.ltb_spec 200 (String.length s)); [| lia].
    apply elem_of_cons. left. reflexivity.
Qed.

Lemma title_length_errors_witness :
  exists errors,
    parse createTaskSchema
      (Some (JObj (obj_fields [("title", JStr ""); ("status", JStr "done")])))
    = inl (ZodError errors)
    /\ Zod.mkIssue Zod.too_small [Zod.PKey "title"] "Title is required" ∈ errors.
Proof.
  apply (title_length_errors
           (obj_fields [("title", JStr ""); ("status", JStr "done")]) "");
    reflexivity.
Defined.

Lemma status_not_literal s :
  (forall st, s <> status_literal st) -> status_ok_if_present (Some (JStr s)) = false.
Proof.
  intros H. cbn. apply bool_decide_eq_false_2. rewrite list_elem_of_In. cbn.
  intros [E | [E | [E | []]]]; symmetry in E;
    [apply (H pending) | apply (H in_progress) | apply (H completed)]; exact E.
Qed.

(** X4. The status enum is closed in all three schemas: a [status] that is a
    string other than the three literals makes the creation, the update and
    the list-query validation fail with an issue at [status], whatever the
    other properties are; each of the three literals alone is an accepted
    update and an accepted list filter. *)
Theorem status_enum_closure :
  (forall (o : gmap string json) s,
      o !! "status" = Some (JStr s) ->
      (forall st, s <> status_literal st) ->
      (exists errors, parse createTaskSchema (Some (JObj o)) = inl (ZodError errors)
                      /\ names "status" errors)
      /\ (exists errors, parse updateTaskSchema (Some (JObj o)) = inl (ZodError errors)
                         /\ names "status" errors)
      /\ (exists errors, parse listTasksQuerySchema (Some (JObj o)) = inl (ZodError errors)
                         /\ names "status" errors))
  /\ (forall st,
      parse updateTaskSchema (obj [("status", JStr (status_literal st))])
      = inr (UpdateTaskInput.mk None None (Some st))
      /\ parse listTasksQuerySchema (obj [("status", JStr (status_literal st))])
         = inr (ListTasksQuery.mk (Some st) None (JS.Int 10) (JS.Int 0))).
Proof.
  split.
  - intros o s Es Hs. apply status_not_literal in Hs.
    pose proof (createTaskSchema_object o) as Hc.
    pose proof (updateTaskSchema_object o) as Hu.
    pose proof (listTasksQuerySchema_object o) as Hl.
    rewrite Es, Hs in Hc, Hu, Hl. rewrite !andb_false_r in Hc, Hu. cbn [andb] in Hl.
    destruct Hc as (e1 & -> & _ & _ & H1).
    destruct Hu as (e2 & -> & _ & _ & _ & H2).
    destruct Hl as (e3 & -> & H3 & _).
    repeat split; eexists; split; try reflexivity; auto.
  - intros []; split; vm_compute; reflexivity.
Qed.

Lemma query_fields_limit_offset (a b : json) :
  obj_fields [("limit", a); ("offset", b)] !! "limit" = Some a
  /\ obj_fields [("limit", a); ("offset", b)] !! "offset" = Some b
  /\ obj_fields [("limit", a); ("offset", b)] !! "status" = None
  /\ obj_fields [("limit", a); ("offset", b)] !! "search" = None.
Proof.
  repeat split.
Qed.

(** X5. Integers in decimal notation: the query [limit=n&offset=m] is
    accepted if and only if 1 <= n <= 100 and 0 <= m; the accepted query
    carries [n] itself and the Number value of [m], which is [m] itself up
    to 2^53 and the nearest double beyond; otherwise the error names
    [limit] when [n] is out of range and [offset] when [m] is negative. *)
Theorem list_query_decimal_bounds (n m : Z) :
  let query := Some (JObj (obj_fields [("limit", JStr (pretty n));
                                        ("offset", JStr (pretty m))])) in
  ((1 <= n <= 100 /\ 0 <= m) ->
   parse listTasksQuerySchema query
   = inr (ListTasksQuery.mk None None (JS.Int n) (JS.number_value m))
   /\ (m <= 2 ^ 53 -> JS.number_value m = JS.Int m))
  /\ (~ (1 <= n <= 100) ->
      exists errors, parse listTasksQuerySchema query = inl (ZodError errors)
                     /\ names "limit" errors)
  /\ (m < 0 ->
      exists errors, parse listTasksQuerySchema query = inl (ZodError errors)
                     /\ names "offset" errors).
Proof.
  intros query. subst query.
  pose proof (listTasksQuerySchema_object
                (obj_fields [("limit", JStr (pretty n)); ("offset", JStr (pretty m))]))
    as H.
  destruct (query_fields_limit_offset (JStr (pretty n)) (JStr (pretty m)))
    as (El & Eo & Es & Eq).
  rewrite El, Eo, Es, Eq in H. rewrite limit_ok_pretty, offset_ok_pretty in H.
  cbn [status_ok_if_present string_if_present andb converted] in H.
  rewrite !pretty_not_empty, !parseInt10_pretty in H.
  destruct (Z.leb_spec 1 n), (Z.leb_spec n 100), (Z.leb_spec 0 m); cbn [andb] in H.
  1: { destruct H as (st & l & off & Est & El' & _ & [= <-] & _ & H).
       destruct st; [discriminate Est |]. rewrite H.
       rewrite number_value_exact in El' by (rewrite pow2_53; lia).
       injection El' as <-.
       repeat split; intros; try lia.
       apply number_value_exact. lia. }
  all: destruct H as (errors & H & _ & _ & Hl & Ho); rewrite H.
  all: repeat split; intros; try lia; exists errors; split; auto.
Qed.

Example list_query_rounds_offset :
  parse listTasksQuerySchema
    (Some (JObj (obj_fields [("limit", JStr (pretty 100));
                             ("offset", JStr (pretty (2 ^ 53 + 1)))])))
  = inr (ListTasksQuery.mk None None (JS.Int 100) (JS.Int (2 ^ 53))).
Proof. vm_compute. reflexivity. Qed.

(** ** The task service, further *)

(** X6. [updateTask] on a stored id writes only the properties that the
    input sets, and refreshes [updatedAt] when it sets one; [id],
    [createdAt] and the properties the input leaves out keep their values;
    with no property set the task and the store stay as they are. The task
    it returns is the one then stored under the id, and no other task
    changes. *)
Theorem updateTask_existing (w : World) (id : Z) (t : Task.t)
    (data : UpdateTaskInput.t) :
  tasks (db w) !! id = Some t ->
  exists t' w',
    TaskService.updateTask (JS.Int id) data w = (inr t', w')
    /\ fst (TaskService.getTaskById (JS.Int id) w') = inr (Some t')
    /\ Task.id t' = Task.id t
    /\ Task.createdAt t' = Task.createdAt t
    /\ Task.updatedAt t'
       = (if Nat.eqb (UpdateTaskInput.keys_length data) 0
          then Task.updatedAt t else now (db w))
    /\ Task.title t' = default (Task.title t) (UpdateTaskInput.title data)
    /\ Task.description t'
       = match UpdateTaskInput.description data with
         | Some x => Some x
         | None => Task.description t
         end
    /\ Task.status t'
       = default (Task.status t) (status_literal <$> UpdateTaskInput.status data)
    /\ (UpdateTaskInput.keys_length data = 0%nat -> t' = t /\ db w' = db w)
    /\ (forall k, k <> id -> tasks (db w') !! k = tasks (db w) !! k).
Proof.
  intros H. run. rewrite H. cbn [db calls tasks snd fst].
  destruct (Nat.eqb_spec (UpdateTaskInput.keys_length data) 0) as [E | N].
  - eexists _, _. split; [reflexivity |]. cbn [fst tasks db]. rewrite H.
    destruct data as [[ti|] [de|] [st|]]; try discriminate E.
    do 7 (split; [reflexivity |]).
    split; [intros _; split; reflexivity | intros k Hk; reflexivity].
  - eexists _, _. split; [reflexivity |]. cbn [fst tasks db snd].
    rewrite lookup_insert_eq.
    do 7 (split; [reflexivity |]).
    split; [intros E; contradiction |].
    intros k Hk. cbn [db tasks]. apply lookup_insert_ne. congruence.
Qed.

Lemma updateTask_existing_witness :
  exists t' w',
    TaskService.updateTask (JS.Int 2) (UpdateTaskInput.mk None (Some "") (Some completed))
      three_tasks = (inr t', w')
    /\ fst (TaskService.getTaskById (JS.Int 2) w') = inr (Some t')
    /\ Task.id t' = 2
    /\ Task.createdAt t' = 20
    /\ Task.updatedAt t' = 40
    /\ Task.title t' = "b"
    /\ Task.description t' = Some ""
    /\ Task.status t' = "completed"
    /\ (UpdateTaskInput.keys_length (UpdateTaskInput.mk None (Some "") (Some completed))
        = 0%nat -> t' = Task.mk 2 "b" None "pending" 20 20 /\ db w' = db three_tasks)
    /\ (forall k, k <> 2 -> tasks (db w') !! k = tasks (db three_tasks) !! k).
Proof.
  apply (updateTask_existing three_tasks 2 (Task.mk 2 "b" None "pending" 20 20)
           (UpdateTaskInput.mk None (Some "") (Some completed))).
  vm_compute. reflexivity.
Defined.

Example updateTask_nothing :
  TaskService.updateTask (JS.Int 1) (UpdateTaskInput.mk None None None) three_tasks
  = (inr (Task.mk 1 "a" None "pending" 10 10),
     mkWorld (db three_tasks)
       [CallUpdateTask (JS.Int 1) (UpdateTaskInput.mk None None None)]).
Proof. vm_compute. reflexivity. Qed.

(** X7. [deleteTask] on a stored id (a 64-bit integer) returns the stored
    task and removes it: [getTaskById] then finds nothing, a second
    [deleteTask] fails with P2025, and no other task changes. *)
Theorem deleteTask_existing (w : World) (id : Z) (t : Task.t) :
  tasks (db w) !! id = Some t ->
  Prisma.int64 id = true ->
  exists w',
    TaskService.deleteTask (JS.Int id) w = (inr t, w')
    /\ fst (TaskService.getTaskById (JS.Int id) w') = inr None
    /\ (exists msg, fst (TaskService.deleteTask (JS.Int id) w')
                    = inl (PrismaClientKnownRequestError "P2025" msg))
    /\ (forall k, k <> id -> tasks (db w') !! k = tasks (db w) !! k).
Proof.
  intros H Hid. run. rewrite H. cbn [db calls tasks snd fst].
  eexists. split; [reflexivity |]. cbn [fst tasks db].
  rewrite lookup_delete_eq, Hid. repeat split.
  - eexists. reflexivity.
  - intros k Hk. apply lookup_delete_ne. congruence.
Qed.

Lemma deleteTask_existing_witness :
  exists w',
    TaskService.deleteTask (JS.Int 3) three_tasks
    = (inr (Task.mk 3 "c" (Some "a") "completed" 30 30), w')
    /\ fst (TaskService.getTaskById (JS.Int 3) w') = inr None
    /\ (exists msg, fst (TaskService.deleteTask (JS.Int 3) w')
                    = inl (PrismaClientKnownRequestError "P2025" msg))
    /\ (forall k, k <> 3 -> tasks (db w') !! k = tasks (db three_tasks) !! k).
Proof.
  apply (deleteTask_existing three_tasks 3); vm_compute; reflexivity.
Defined.

Lemma listTasks_db (q : ListTasksQuery.t) (w : World) :
  db (snd (TaskService.listTasks q w)) = db w.
Proof.
  unfold TaskService.listTasks.
  unfold mbind at 1, M_bind at 1. cbn [enter].
  unfold mbind at 1, M_bind at 1.
  pose proof (findMany_world (TaskService.build_where q)
                (ListTasksQuery.limit q) (ListTasksQuery.offset q)
                (mkWorld (db w) (calls w ++ [CallListTasks q]))) as Hw.
  destruct (Prisma.findMany _ _ _ _) as [[e|found] w1]; cbn [snd] in Hw; subst w1;
    reflexivity.
Qed.

Lemma store_ok_insert (d : DB) (k : Z) (t : Task.t) (n : Z) :
  store_ok d -> Task.id t = k -> k < n -> nextId d <= n ->
  store_ok (mkDB (<[k := t]> (tasks d)) n (now d)).
Proof.
  intros Hd Ht Hk Hn k' t'. cbn [tasks nextId].
  rewrite lookup_insert. destruct (decide (k = k')) as [<- | _].
  - intros [= <-]. split; [exact Ht | exact Hk].
  - intros H. destruct (Hd _ _ H). split; [assumption | lia].
Qed.

(** What the methods with an [id] argument leave of the store. *)
Lemma getTaskById_db (id : JS.number) (w : World) :
  db (snd (TaskService.getTaskById id w)) = db w.
Proof.
  run. destruct id as [| | |z]; try reflexivity.
  destruct (tasks (db w) !! z); [reflexivity |].
  destruct (Prisma.int64 z); reflexivity.
Qed.

Lemma updateTask_db (id : JS.number) (data : UpdateTaskInput.t) (w : World) :
  db (snd (TaskService.updateTask id data w)) = db w
  \/ exists z t t',
      id = JS.Int z /\ tasks (db w) !! z = Some t /\ Task.id t' = Task.id t
      /\ db (snd (TaskService.updateTask id data w))
         = mkDB (<[z := t']> (tasks (db w))) (nextId (db w)) (now (db w)).
Proof.
  run. destruct id as [| | |z]; try (left; reflexivity).
  destruct (tasks (db w) !! z) as [t|] eqn:E; cbn.
  - destruct (Nat.eqb _ 0); [left; reflexivity |].
    right. eexists z, t, _.
    split; [reflexivity | split; [exact E | split; [| reflexivity]]].
    reflexivity.
  - destruct (Prisma.int64 z); left; reflexivity.
Qed.

Lemma deleteTask_db (id : JS.number) (w : World) :
  (exists e, TaskService.deleteTask id w
             = (inl e, mkWorld (db w) (calls w ++ [CallDeleteTask id])))
  \/ exists z t,
      id = JS.Int z /\ tasks (db w) !! z = Some t
      /\ TaskService.deleteTask id w
         = (inr t, mkWorld (mkDB (base.delete z (tasks (db w))) (nextId (db w)) (now (db w)))
                     (calls w ++ [CallDeleteTask id])).
Proof.
  run. destruct id as [| | |z]; try (left; eexists; reflexivity).
  destruct (tasks (db w) !! z) as [t|] eqn:E; cbn.
  - right. exists z, t. split; [reflexivity | split; [exact E | reflexivity]].
  - destruct (Prisma.int64 z); left; eexists; reflexivity.
Qed.

(** The id of a task that [deleteTask] has removed from a well-formed store
    is below the counter. *)
Lemma deleted_id_below_counter (id : JS.number) (w0 w : World) (t0 : Task.t) :
  TaskService.deleteTask id w0 = (inr t0, w) -> store_ok (db w0) ->
  exists z, id = JS.Int z /\ z < nextId (db w).
Proof.
  intros Hdel H0.
  destruct (deleteTask_db id w0) as [(e & Hd) | (z & t1 & -> & E & Hd)];
    rewrite Hdel in Hd; [discriminate Hd |].
  injection Hd as _ ->. exists z. split; [reflexivity |].
  cbn [db nextId]. destruct (H0 _ _ E). lia.
Qed.

(** X9. Every method of the service keeps the store well formed (each task
    filed under its own id, below the counter) and never lowers the
    counter. *)
Theorem service_keeps_store_ok (w : World) :
  store_ok (db w) ->
  (forall data,
      store_ok (db (snd (TaskService.createTask data w)))
      /\ nextId (db w) <= nextId (db (snd (TaskService.createTask data w))))
  /\ (forall q, store_ok (db (snd (TaskService.listTasks q w))))
  /\ (forall id, store_ok (db (snd (TaskService.getTaskById id w))))
  /\ (forall id data,
      store_ok (db (snd (TaskService.updateTask id data w)))
      /\ nextId (db w) <= nextId (db (snd (TaskService.updateTask id data w))))
  /\ (forall id,
      store_ok (db (snd (TaskService.deleteTask id w)))
      /\ nextId (db w) <= nextId (db (snd (TaskService.deleteTask id w)))).
Proof.
  intros Hw.
  split; [intros data; split
         | split; [intros q
                  | split; [intros id
                           | split; [intros id data | intros id]]]].
  - run. cbn [tasks nextId now]. apply store_ok_insert; [exact Hw | reflexivity | lia..].
  - run. cbn [nextId]. lia.
  - rewrite listTasks_db. exact Hw.
  - rewrite getTaskById_db. exact Hw.
  - destruct (updateTask_db id data w) as [-> | (z & t & t' & _ & E & Hid & ->)];
      [split; [exact Hw | lia] |].
    destruct (Hw _ _ E) as [Ht Hlt]. cbn [nextId].
    split; [| lia]. apply store_ok_insert; [exact Hw | congruence | exact Hlt | lia].
  - destruct (deleteTask_db id w) as [(e & ->) | (z & t & _ & E & ->)];
      [split; [exact Hw | cbn [snd db]; lia] |].
    cbn [snd db nextId]. split; [| lia].
    intros k t'. cbn [tasks nextId]. rewrite lookup_delete.
    destruct (decide (z = k)); [discriminate | apply Hw].
Qed.

Lemma three_tasks_ok : store_ok (db three_tasks).
Proof.
  intros k t H. cbn in H.
  destruct (decide (k = 1)) as [-> | N1]; [injection H as <-; split; reflexivity |].
  destruct (decide (k = 2)) as [-> | N2]; [injection H as <-; split; reflexivity |].
  destruct (decide (k = 3)) as [-> | N3]; [injection H as <-; split; reflexivity |].
  unfold three_tasks in H. cbn [db tasks list_to_map foldr uncurry fst snd] in H.
  rewrite !lookup_insert_ne, lookup_empty in H by congruence. discriminate H.
Qed.

Lemma service_keeps_store_ok_witness :
  store_ok (db (snd (TaskService.deleteTask (JS.Int 3) three_tasks)))
  /\ nextId (db three_tasks)
     <= nextId (db (snd (TaskService.deleteTask (JS.Int 3) three_tasks))).
Proof.
  apply (proj2 (proj2 (proj2 (proj2 (service_keeps_store_ok three_tasks three_tasks_ok))))).
Defined.

(** X10. In a well-formed store [createTask] files the new task under an id
    that was free and is above every stored id, and it leaves every stored
    task in place; in particular the id of a deleted task is not given
    again. *)
Theorem createTask_fresh_id (w : World) (data : CreateTaskInput.t) :
  store_ok (db w) ->
  exists t w',
    TaskService.createTask data w = (inr t, w')
    /\ tasks (db w) !! Task.id t = None
    /\ (forall k t0, tasks (db w) !! k = Some t0 ->
        k < Task.id t /\ tasks (db w') !! k = Some t0)
    /\ (forall id w0 t0,
        TaskService.deleteTask id w0 = (inr t0, w) -> store_ok (db w0) ->
        JS.Int (Task.id t) <> id).
Proof.
  intros Hw.
  assert (Hdel : forall id w0 t0,
             TaskService.deleteTask id w0 = (inr t0, w) -> store_ok (db w0) ->
             JS.Int (nextId (db w)) <> id).
  { intros id w0 t0 Hd H0 E.
    destruct (deleted_id_below_counter id w0 w t0 Hd H0) as (z & -> & Hz).
    injection E as E. lia. }
  run. eexists _, _. split; [reflexivity |]. cbn [Task.id db tasks].
  assert (Hfree : tasks (db w) !! nextId (db w) = None).
  { destruct (tasks (db w) !! nextId (db w)) as [t|] eqn:E; [| reflexivity].
    destruct (Hw _ _ E). lia. }
  split; [exact Hfree |]. split; [| exact Hdel].
  intros k t0 H. split.
  - destruct (Hw _ _ H). lia.
  - rewrite lookup_insert_ne; [exact H |]. destruct (Hw _ _ H). lia.
Qed.

Lemma createTask_fresh_id_witness :
  exists t w',
    TaskService.createTask (CreateTaskInput.mk "d" None None) three_tasks = (inr t, w')
    /\ tasks (db three_tasks) !! Task.id t = None
    /\ (forall k t0, tasks (db three_tasks) !! k = Some t0 ->
        k < Task.id t /\ tasks (db w') !! k = Some t0)
    /\ (forall id w0 t0,
        TaskService.deleteTask id w0 = (inr t0, three_tasks) -> store_ok (db w0) ->
        JS.Int (Task.id t) <> id).
Proof.
  apply (createTask_fresh_id three_tasks (CreateTaskInput.mk "d" None None)
           three_tasks_ok).
Defined.

#[local] Instance newer_first_transitive : Transitive Prisma.newer_first.
Proof. intros a b c. unfold Prisma.newer_first. lia. Qed.

#[local] Instance newer_first_total : Total Prisma.newer_first.
Proof. intros a b. unfold Prisma.newer_first. lia. Qed.

Lemma StronglySorted_lookup {A} (R : relation A) (l : list A) :
  StronglySorted R l ->
  forall i j a b, (i < j)%nat -> l !! i = Some a -> l !! j = Some b -> R a b.
Proof.
  induction 1 as [| x l Hl IH Hx]; intros i j a b Hij Hi Hj; [discriminate Hi |].
  destruct j as [| j]; [lia |]. cbn in Hj.
  destruct i as [| i].
  - injection Hi as <-. rewrite Forall_forall in Hx. apply Hx.
    eapply list_elem_of_lookup_2. exact Hj.
  - cbn in Hi. apply (IH i j); [lia | assumption..].
Qed.

Lemma selected_length (wh : Prisma.TaskWhereInput) (d : DB) :
  List.length (Prisma.selected wh d)
  = List.length (List.filter (Prisma.matches wh) (Prisma.rows d)).
Proof. unfold Prisma.selected. apply Permutation_length, merge_sort_Permutation. Qed.

Lemma int64_beyond (z : Z) : 2 ^ 63 <= z -> Prisma.int64 z = false.
Proof.
  intros H. unfold Prisma.int64.
  destruct (Z.ltb_spec z (2 ^ 63)); [lia |]. apply andb_false_r.
Qed.

(** X11. The page of a query with a non-negative limit and offset is ordered
    newest first: a task never comes before one created later. *)
Theorem listTasks_newest_first (q : ListTasksQuery.t) (w : World) (l o : Z) :
  ListTasksQuery.limit q = JS.Int l -> ListTasksQuery.offset q = JS.Int o ->
  0 <= l -> 0 <= o ->
  forall i j a b,
    (i < j)%nat -> page q w !! i = Some a -> page q w !! j = Some b ->
    Task.createdAt b <= Task.createdAt a.
Proof.
  intros El Eo Hl Ho. unfold page.
  destruct (Z_lt_le_dec l (2 ^ 63)) as [Hl' | Hl'];
    [destruct (Z_lt_le_dec o (2 ^ 63)) as [Ho' | Ho'] |].
  - rewrite (listTasks_page q w l o) by (assumption || lia).
    cbn [fst ListResult.data].
    apply (StronglySorted_lookup Prisma.newer_first).
    apply (StronglySorted_app_1_l _ _ (drop (Z.to_nat l)
             (drop (Z.to_nat o) (Prisma.selected (TaskService.build_where q) (db w))))).
    rewrite take_drop.
    apply (StronglySorted_app_1_r _ (take (Z.to_nat o)
             (Prisma.selected (TaskService.build_where q) (db w)))).
    rewrite take_drop. unfold Prisma.selected.
    apply StronglySorted_merge_sort; apply _.
  - rewrite listTasks_invalid_page
      by (rewrite El, Eo, (int64_beyond o Ho'), andb_false_r; reflexivity).
    intros i j a b _ Hi. discriminate Hi.
  - rewrite listTasks_invalid_page
      by (rewrite El, Eo, (int64_beyond l Hl'); reflexivity).
    intros i j a b _ Hi. discriminate Hi.
Qed.

Lemma listTasks_newest_first_witness :
  Task.createdAt (Task.mk 2 "b" None "pending" 20 20)
  <= Task.createdAt (Task.mk 3 "c" (Some "a") "completed" 30 30).
Proof.
  apply (listTasks_newest_first (ListTasksQuery.mk None None (JS.Int 2) (JS.Int 0))
           three_tasks 2 0 eq_refl eq_refl ltac:(lia) ltac:(lia) 0%nat 1%nat);
    [lia | vm_compute; reflexivity | vm_compute; reflexivity].
Defined.

(** X12. For a limit and an offset from 0 to 2^63 - 1, the page has exactly
    min(limit, total - offset) tasks (none when the offset is past the
    total); and as long as [offset + limit] or [total] is below 2^53,
    [hasMore] tells whether matching tasks are left after the page: it is
    true exactly when offset + page length < total. *)
Theorem listTasks_page_size (q : ListTasksQuery.t) (w : World) (l o : Z) :
  ListTasksQuery.limit q = JS.Int l -> ListTasksQuery.offset q = JS.Int o ->
  0 <= l < 2 ^ 63 -> 0 <= o < 2 ^ 63 ->
  exists r w',
    TaskService.listTasks q w = (inr r, w')
    /\ Z.of_nat (List.length (ListResult.data r))
       = Z.min l (Z.max 0 (Pagination.total (ListResult.pagination r) - o))
    /\ (o + l < 2 ^ 53 \/ Pagination.total (ListResult.pagination r) < 2 ^ 53 ->
        (Pagination.hasMore (ListResult.pagination r) = true
         <-> o + Z.of_nat (List.length (ListResult.data r))
             < Pagination.total (ListResult.pagination r))).
Proof.
  intros El Eo Hl Ho. rewrite (listTasks_page q w l o) by assumption.
  eexists _, _. split; [reflexivity |].
  cbn [ListResult.data ListResult.pagination Pagination.total Pagination.hasMore].
  rewrite length_take, length_drop, selected_length.
  split; [lia |]. intros H.
  rewrite hasMore_exact by (exact H || lia).
  rewrite Z.ltb_lt. lia.
Qed.

Lemma listTasks_page_size_witness :
  exists r w',
    TaskService.listTasks (ListTasksQuery.mk None None (JS.Int 2) (JS.Int 2)) three_tasks
    = (inr r, w')
    /\ Z.of_nat (List.length (ListResult.data r))
       = Z.min 2 (Z.max 0 (Pagination.total (ListResult.pagination r) - 2))
    /\ (2 + 2 < 2 ^ 53 \/ Pagination.total (ListResult.pagination r) < 2 ^ 53 ->
        (Pagination.hasMore (ListResult.pagination r) = true
         <-> 2 + Z.of_nat (List.length (ListResult.data r))
             < Pagination.total (ListResult.pagination r))).
Proof.
  apply (listTasks_page_size (ListTasksQuery.mk None None (JS.Int 2) (JS.Int 2))
           three_tasks 2 2); [reflexivity | reflexivity | rewrite pow2_63; lia ..].
Defined.

(** When no two stored tasks were created at the same time, no task is
    stored twice. *)
Lemma distinct_times_NoDup (d : DB) : distinct_times d -> NoDup (Prisma.rows d).
Proof.
  intros Hd. unfold Prisma.rows.
  apply NoDup_fmap_2_strong; [| apply NoDup_map_to_list].
  intros [k1 t1] [k2 t2] H1 H2 E. cbn in E. subst t2.
  apply elem_of_map_to_list in H1, H2.
  rewrite (Hd k1 k2 t1 t1 H1 H2 eq_refl). reflexivity.
Qed.

(** X13. In a store where no two tasks were created at the same time (so
    that the order of the result is determined), consecutive pages tile
    the result: the page at [offset] of [l1] tasks followed by the page at
    [offset + l1] of [l2] tasks is the page at [offset] of [l1 + l2] tasks,
    and no task occurs twice in it - nothing is skipped or repeated between
    the pages. *)
Theorem listTasks_pages_tile (q : ListTasksQuery.t) (w : World) (l1 l2 o : Z) :
  distinct_times (db w) ->
  0 <= l1 -> 0 <= l2 -> 0 <= o -> l1 + l2 < 2 ^ 63 -> o + l1 < 2 ^ 63 ->
  page (with_page q l1 o) w ++ page (with_page q l2 (o + l1)) w
  = page (with_page q (l1 + l2) o) w
  /\ NoDup (page (with_page q (l1 + l2) o) w).
Proof.
  intros Hd H1 H2 Ho Hl Hol. unfold page.
  rewrite (listTasks_page (with_page q l1 o) w l1 o) by (reflexivity || lia).
  rewrite (listTasks_page (with_page q l2 (o + l1)) w l2 (o + l1))
    by (reflexivity || lia).
  rewrite (listTasks_page (with_page q (l1 + l2) o) w (l1 + l2) o)
    by (reflexivity || lia).
  cbn [fst ListResult.data].
  change (TaskService.build_where (with_page q l1 o))
    with (TaskService.build_where q).
  change (TaskService.build_where (with_page q l2 (o + l1)))
    with (TaskService.build_where q).
  change (TaskService.build_where (with_page q (l1 + l2) o))
    with (TaskService.build_where q).
  split.
  - rewrite !Z2Nat.inj_add by lia. rewrite <- drop_drop.
    apply take_take_drop.
  - apply (sublist_NoDup _ (Prisma.selected (TaskService.build_where q) (db w))).
    + unfold Prisma.selected.
      apply NoDup_ListNoDup.
      eapply Permutation_NoDup; [symmetry; apply merge_sort_Permutation |].
      apply List.NoDup_filter, NoDup_ListNoDup, distinct_times_NoDup, Hd.
    + transitivity (drop (Z.to_nat o)
                      (Prisma.selected (TaskService.build_where q) (db w)));
        [apply sublist_take | apply sublist_drop].
Qed.

Lemma three_tasks_distinct : distinct_times (db three_tasks).
Proof.
  assert (H : forall k t, tasks (db three_tasks) !! k = Some t ->
                          Task.createdAt t = 10 * k /\ 1 <= k <= 3).
  { intros k t H.
    destruct (decide (k = 1)) as [-> | N1]; [injection H as <-; split; [reflexivity | lia] |].
    destruct (decide (k = 2)) as [-> | N2]; [injection H as <-; split; [reflexivity | lia] |].
    destruct (decide (k = 3)) as [-> | N3]; [injection H as <-; split; [reflexivity | lia] |].
    unfold three_tasks in H. cbn [db tasks list_to_map foldr uncurry fst snd] in H.
    rewrite !lookup_insert_ne, lookup_empty in H by congruence. discriminate H. }
  intros k1 k2 t1 t2 H1 H2 E. apply H in H1, H2. lia.
Qed.

Lemma listTasks_pages_tile_witness :
  page (with_page (ListTasksQuery.mk None None JS.NaN JS.NaN) 1 0) three_tasks
  ++ page (with_page (ListTasksQuery.mk None None JS.NaN JS.NaN) 2 (0 + 1)) three_tasks
  = page (with_page (ListTasksQuery.mk None None JS.NaN JS.NaN) (1 + 2) 0) three_tasks
  /\ NoDup (page (with_page (ListTasksQuery.mk None None JS.NaN JS.NaN) (1 + 2) 0)
              three_tasks).
Proof.
  apply (listTasks_pages_tile (ListTasksQuery.mk None None JS.NaN JS.NaN) three_tasks
           1 2 0 three_tasks_distinct); rewrite ?pow2_63; lia.
Defined.

(** X14. A first page whose limit (below 2^63) is at least the total holds
    exactly the stored tasks that the query asks for. *)
Theorem listTasks_first_page_complete (q : ListTasksQuery.t) (w : World) (l : Z) :
  ListTasksQuery.limit q = JS.Int l -> ListTasksQuery.offset q = JS.Int 0 ->
  l < 2 ^ 63 ->
  Z.of_nat (List.length
              (List.filter (Prisma.matches (TaskService.build_where q))
                 (Prisma.rows (db w)))) <= l ->
  forall t,
    t ∈ page q w
    <-> (exists k, tasks (db w) !! k = Some t) /\ selects q t.
Proof.
  intros El Eo Hl63 Hl t. unfold page.
  rewrite (listTasks_page q w l 0) by (assumption || rewrite ?pow2_63; lia).
  cbn [fst ListResult.data]. change (Z.to_nat 0) with 0%nat. rewrite drop_0.
  rewrite take_ge by (rewrite selected_length; lia).
  unfold Prisma.selected. rewrite merge_sort_Permutation.
  rewrite list_elem_of_In, filter_In, <- list_elem_of_In, rows_stored, matches_selects.
  reflexivity.
Qed.

Lemma listTasks_first_page_complete_witness :
  Task.mk 3 "c" (Some "a") "completed" 30 30
  ∈ page (ListTasksQuery.mk (Some completed) (Some "A") (JS.Int 10) (JS.Int 0))
      three_tasks.
Proof.
  apply (listTasks_first_page_complete
           (ListTasksQuery.mk (Some completed) (Some "A") (JS.Int 10) (JS.Int 0))
           three_tasks 10 eq_refl eq_refl).
  - rewrite pow2_63. lia.
  - vm_compute. discriminate.
  - split; [exists 3; vm_compute; reflexivity |].
    apply matches_selects. reflexivity.
Defined.

(** ** The handlers, further *)

Ltac handlers :=
  unfold respond, TaskController.create, TaskController.list,
    TaskController.getById, TaskController.update, TaskController.delete,
    try_next.

Lemma create_rejects (req : Request.t) (w : World) (e : Error) :
  parse createTaskSchema (Request.body req) = inl e ->
  TaskController.create req w = (Next e, w).
Proof. intros H. handlers. run. rewrite H. reflexivity. Qed.

Lemma list_rejects (req : Request.t) (w : World) (e : Error) :
  parse listTasksQuerySchema (Request.query req) = inl e ->
  TaskController.list req w = (Next e, w).
Proof. intros H. handlers. run. rewrite H. reflexivity. Qed.

(** X15. A request that fails validation has no effect: [create], [list]
    and [update] hand the validation error to [next] without entering the
    service, and the world is as it was. *)
Theorem rejected_request_has_no_effect (req : Request.t) (w : World) :
  (forall e, parse createTaskSchema (Request.body req) = inl e ->
     TaskController.create req w = (Next e, w))
  /\ (forall e, parse listTasksQuerySchema (Request.query req) = inl e ->
        TaskController.list req w = (Next e, w))
  /\ (forall e, JS.parseInt10 (Request.id req) <> JS.NaN ->
        parse updateTaskSchema (Request.body req) = inl e ->
        TaskController.update req w = (Next e, w)).
Proof.
  split; [| split].
  - intros e H. apply create_rejects, H.
  - intros e H. apply list_rejects, H.
  - intros e Hid H. apply update_rejects; assumption.
Qed.

(** X16. A creation request whose body validates is answered 201 with the
    created task; the service is entered once, with the validated input,
    and the task is then stored under its id with the input's values. *)
Theorem create_valid_body (req : Request.t) (w : World) (data : CreateTaskInput.t) :
  parse createTaskSchema (Request.body req) = inr data ->
  exists task w',
    TaskController.create req w = (Sent (mkResponse 201 (TaskBody true task)), w')
    /\ calls w' = calls w ++ [CallCreateTask data]
    /\ tasks (db w') !! Task.id task = Some task
    /\ Task.title task = CreateTaskInput.title data
    /\ Task.description task = CreateTaskInput.description data
    /\ Task.status task
       = match CreateTaskInput.status data with
         | Some s => status_literal s
         | None => "pending"
         end.
Proof.
  intros H. handlers. run. rewrite H.
  eexists _, _. split; [reflexivity |]. cbn [calls db tasks Task.id].
  rewrite lookup_insert_eq. repeat split.
Qed.

Lemma create_valid_body_witness :
  exists task w',
    TaskController.create (Request.mk "" (obj [("title", JStr "Write tests")]) None)
      three_tasks
    = (Sent (mkResponse 201 (TaskBody true task)), w')
    /\ calls w' = calls three_tasks
                  ++ [CallCreateTask (CreateTaskInput.mk "Write tests" None (Some pending))]
    /\ tasks (db w') !! Task.id task = Some task
    /\ Task.title task = "Write tests"
    /\ Task.description task = None
    /\ Task.status task = "pending".
Proof.
  apply (create_valid_body
           (Request.mk "" (obj [("title", JStr "Write tests")]) None) three_tasks
           (CreateTaskInput.mk "Write tests" None (Some pending))).
  vm_compute. reflexivity.
Defined.

(** The 500 response of the error translator. *)
Lemma errorHandler_other (NODE_ENV : option string) (msg : string) :
  exists m,
    errorHandler NODE_ENV (OtherError msg)
    = mkResponse 500 (ErrorBody false "Internal server error" None m).
Proof. eexists. reflexivity. Qed.

(** X17. With an id that parses to the integer [id], [getById] asks the
    service for exactly that id and answers 200 with the stored task, or
    404 "Task not found" - sent by the handler itself, not through [next]
    - when there is none and [id] is a 64-bit integer; when there is none
    and [id] is beyond 64 bits, the persistence call is rejected and the
    answer is the error translator's 500. The store is not changed. *)
Theorem getById_outcomes (NODE_ENV : option string) (req : Request.t) (w : World)
    (id : Z) :
  JS.parseInt10 (Request.id req) = JS.Int id ->
  (forall t, tasks (db w) !! id = Some t ->
     TaskController.getById req w
     = (Sent (mkResponse 200 (TaskBody true t)),
        mkWorld (db w) (calls w ++ [CallGetTaskById (JS.Int id)])))
  /\ (tasks (db w) !! id = None -> Prisma.int64 id = true ->
      TaskController.getById req w
      = (Sent (mkResponse 404 (ErrorBody false "Task not found" None None)),
         mkWorld (db w) (calls w ++ [CallGetTaskById (JS.Int id)])))
  /\ (tasks (db w) !! id = None -> Prisma.int64 id = false ->
      exists m,
        respond NODE_ENV TaskController.getById req w
        = (mkResponse 500 (ErrorBody false "Internal server error" None m),
           mkWorld (db w) (calls w ++ [CallGetTaskById (JS.Int id)]))).
Proof.
  intros Hid.
  assert (Hn : JS.parseInt10 (Request.id req) <> JS.NaN) by (rewrite Hid; discriminate).
  unfold respond. rewrite (getById_parsed req w Hn), Hid. unfold try_next. run.
  split; [intros t H | split; intros H Hz]; rewrite H; try rewrite Hz; cbn.
  - reflexivity.
  - reflexivity.
  - eexists. reflexivity.
Qed.

Lemma getById_outcomes_witness :
  TaskController.getById (Request.mk "7" None None) three_tasks
  = (Sent (mkResponse 404 (ErrorBody false "Task not found" None None)),
     mkWorld (db three_tasks) (calls three_tasks ++ [CallGetTaskById (JS.Int 7)])).
Proof.
  apply (proj1 (proj2 (getById_outcomes None (Request.mk "7" None None) three_tasks 7
                         eq_refl))); vm_compute; reflexivity.
Defined.

Example getById_2_63 :
  fst (respond (Some "production") TaskController.getById
         (Request.mk "9223372036854775808" None None) three_tasks)
  = mkResponse 500 (ErrorBody false "Internal server error" None None).
Proof. vm_compute. reflexivity. Qed.

(** X18. [update] (with a body that validates) and [delete] on an id under
    which nothing is stored end in the error translator's 404 "Resource not
    found" when the id is a 64-bit integer, and in its 500 when the id is
    beyond 64 bits; the store is not changed. *)
Theorem mutation_of_missing_id (NODE_ENV : option string) (req : Request.t)
    (w : World) (id : Z) :
  JS.parseInt10 (Request.id req) = JS.Int id ->
  tasks (db w) !! id = None ->
  (Prisma.int64 id = true ->
   (fst (respond NODE_ENV TaskController.delete req w)
    = mkResponse 404 (ErrorBody false "Resource not found" None None)
    /\ db (snd (respond NODE_ENV TaskController.delete req w)) = db w)
   /\ (forall data, parse updateTaskSchema (Request.body req) = inr data ->
       fst (respond NODE_ENV TaskController.update req w)
       = mkResponse 404 (ErrorBody false "Resource not found" None None)
       /\ db (snd (respond NODE_ENV TaskController.update req w)) = db w))
  /\ (Prisma.int64 id = false ->
      (exists m,
          fst (respond NODE_ENV TaskController.delete req w)
          = mkResponse 500 (ErrorBody false "Internal server error" None m)
          /\ db (snd (respond NODE_ENV TaskController.delete req w)) = db w)
      /\ (forall data, parse updateTaskSchema (Request.body req) = inr data ->
          exists m,
            fst (respond NODE_ENV TaskController.update req w)
            = mkResponse 500 (ErrorBody false "Internal server error" None m)
            /\ db (snd (respond NODE_ENV TaskController.update req w)) = db w)).
Proof.
  intros Hid H.
  assert (Hn : JS.parseInt10 (Request.id req) <> JS.NaN) by (rewrite Hid; discriminate).
  unfold respond.
  rewrite (delete_parsed req w Hn), (update_parsed req w Hn), Hid. unfold try_next.
  run. rewrite H.
  split; intros Hz; rewrite Hz; cbn.
  - split; [split; reflexivity |].
    intros data Hd. rewrite Hd. cbn. split; reflexivity.
  - split; [eexists; split; reflexivity |].
    intros data Hd. rewrite Hd. cbn. eexists. split; reflexivity.
Qed.

Lemma mutation_of_missing_id_witness :
  fst (respond None TaskController.delete (Request.mk "999999" None None) three_tasks)
  = mkResponse 404 (ErrorBody false "Resource not found" None None)
  /\ db (snd (respond None TaskController.delete (Request.mk "999999" None None)
                three_tasks)) = db three_tasks.
Proof.
  apply (proj1 (proj1 (mutation_of_missing_id None (Request.mk "999999" None None)
                         three_tasks 999999 eq_refl eq_refl) eq_refl)).
Defined.

(** What [list] does with a query that validates. *)
Lemma list_outcome (req : Request.t) (w : World) (q : ListTasksQuery.t) :
  parse listTasksQuerySchema (Request.query req) = inr q ->
  TaskController.list req w
  = match TaskService.listTasks q w with
    | (inr result, w') =>
        (Sent (mkResponse 200
                 (ListBody true (ListResult.data result) (ListResult.pagination result))),
         w')
    | (inl e, w') => (Next e, w')
    end.
Proof.
  intros H. unfold TaskController.list, try_next.
  unfold mbind at 1, M_bind at 1, lift. rewrite H.
  unfold mbind at 1, M_bind at 1.
  destruct (TaskService.listTasks q w) as [[e | r] w1]; reflexivity.
Qed.

Ltac in_list := repeat constructor.

Lemma errorHandler_coherent (NODE_ENV : option string) (e : Error) :
  coherent (errorHandler NODE_ENV e).
Proof.
  unfold coherent.
  destruct e as [errors | code msg | msg]; cbn [errorHandler].
  - split; [in_list | reflexivity].
  - destruct (String.eqb code "P2025"); [split; [in_list | reflexivity] |].
    destruct (String.eqb code "P2002"); split; solve [in_list | reflexivity].
  - split; [in_list | reflexivity].
Qed.

Lemma sent_coherent (st : Z) (b : Body) :
  st ∈ [200; 201; 400; 404] -> success b = (st <? 400) ->
  coherent (mkResponse st b).
Proof.
  intros H1 H2. split; [| exact H2]. cbn [status].
  repeat (apply elem_of_cons in H1 as [-> | H1]; [in_list |]). inversion H1.
Qed.

Ltac sent := apply sent_coherent; [in_list | reflexivity].

(** X19. Whatever the request and the store, the response of each of the
    five routes has a status among 200, 201, 400, 404, 409, 500, and its
    [success] flag is true exactly when the status is below 400. *)
Theorem responses_are_coherent (NODE_ENV : option string) (req : Request.t)
    (w : World) :
  coherent (fst (respond NODE_ENV TaskController.create req w))
  /\ coherent (fst (respond NODE_ENV TaskController.list req w))
  /\ coherent (fst (respond NODE_ENV TaskController.getById req w))
  /\ coherent (fst (respond NODE_ENV TaskController.update req w))
  /\ coherent (fst (respond NODE_ENV TaskController.delete req w)).
Proof.
  split; [| split; [| split; [| split]]].
  - handlers. run. destruct (parse createTaskSchema _) as [e | d]; cbn [fst].
    + apply errorHandler_coherent.
    + sent.
  - unfold respond.
    destruct (parse listTasksQuerySchema (Request.query req)) as [e | q] eqn:E.
    + rewrite (list_rejects req w e E).
      apply errorHandler_coherent.
    + rewrite (list_outcome req w q E).
      destruct (TaskService.listTasks q w) as [[e | r] w1]; cbn [fst].
      * apply errorHandler_coherent.
      * sent.
  - unfold respond.
    destruct (JS.parseInt10 (Request.id req)) eqn:E;
      [handlers; rewrite E; cbn; sent | ..].
    all: rewrite getById_parsed by (rewrite E; discriminate).
    all: unfold try_next; unfold mbind at 1, M_bind at 1.
    all: destruct (TaskService.getTaskById _ w) as [[e | [t |]] w1]; cbn [fst];
      first [apply errorHandler_coherent | cbn; sent].
  - unfold respond.
    destruct (JS.parseInt10 (Request.id req)) eqn:E;
      [handlers; rewrite E; cbn; sent | ..].
    all: rewrite update_parsed by (rewrite E; discriminate).
    all: unfold try_next; unfold mbind at 1, M_bind at 1, lift.
    all: destruct (parse updateTaskSchema _) as [e | d]; cbn [fst];
      [apply errorHandler_coherent |].
    all: unfold mbind at 1, M_bind at 1.
    all: destruct (TaskService.updateTask _ d w) as [[e | t] w1]; cbn [fst];
      first [apply errorHandler_coherent | cbn; sent].
  - unfold respond.
    destruct (JS.parseInt10 (Request.id req)) eqn:E;
      [handlers; rewrite E; cbn; sent | ..].
    all: rewrite delete_parsed by (rewrite E; discriminate).
    all: unfold try_next; unfold mbind at 1, M_bind at 1.
    all: destruct (TaskService.deleteTask _ w) as [[e | t] w1]; cbn [fst];
      first [apply errorHandler_coherent | cbn; sent].
Qed.

(** A query that the list schema accepts has an integer limit in 1..100 and
    an offset that is an integer, not negative, or [Infinity]. *)
Lemma validated_query (v : value) (q : ListTasksQuery.t) :
  parse listTasksQuerySchema v = inr q ->
  (exists l, ListTasksQuery.limit q = JS.Int l /\ 1 <= l <= 100)
  /\ (ListTasksQuery.offset q = JS.Infinity
      \/ exists o, ListTasksQuery.offset q = JS.Int o /\ 0 <= o).
Proof.
  destruct v as [[| | | | | fields]|]; try discriminate.
  intros H. pose proof (listTasksQuerySchema_object fields) as L.
  destruct (_ && _ && _ && _).
  - destruct L as (st & l & o & _ & _ & Hl & _ & Ho & L).
    rewrite L in H. injection H as <-. cbn. split; [eauto | exact Ho].
  - destruct L as (errors & L & _). rewrite L in H. discriminate H.
Qed.

(** X20. For a query that [listTasksQuerySchema] accepts, the [list]
    handler answers 200 with at most [limit] tasks and the pagination of
    the service as long as the offset is below 2^63; the schema also
    accepts the offsets from 2^63 on and [Infinity], and for them the
    persistence call is rejected and the answer is the error translator's
    500. The store is not changed. *)
Theorem list_valid_query (NODE_ENV : option string) (req : Request.t) (w : World)
    (q : ListTasksQuery.t) :
  parse listTasksQuerySchema (Request.query req) = inr q ->
  (forall o, ListTasksQuery.offset q = JS.Int o -> o < 2 ^ 63 ->
     exists data pagination w',
       TaskController.list req w
       = (Sent (mkResponse 200 (ListBody true data pagination)), w')
       /\ fst (TaskService.listTasks q w) = inr (ListResult.mk data pagination)
       /\ (exists l, Pagination.limit pagination = JS.Int l
                      /\ Z.of_nat (List.length data) <= l <= 100)
       /\ Pagination.limit pagination = ListTasksQuery.limit q
       /\ Pagination.offset pagination = ListTasksQuery.offset q
       /\ db w' = db w)
  /\ (ListTasksQuery.offset q = JS.Infinity
      \/ (exists o, ListTasksQuery.offset q = JS.Int o /\ 2 ^ 63 <= o) ->
      exists m,
        fst (respond NODE_ENV TaskController.list req w)
        = mkResponse 500 (ErrorBody false "Internal server error" None m)
        /\ db (snd (respond NODE_ENV TaskController.list req w)) = db w).
Proof.
  intros H. destruct (validated_query _ _ H) as ((l & El & Hl) & Ho).
  unfold respond. rewrite (list_outcome req w q H).
  split.
  - intros o Eo Ho63.
    assert (0 <= o) by (destruct Ho as [Ho | (o' & Ho & ?)]; congruence).
    rewrite (listTasks_page q w l o) by (assumption || rewrite ?pow2_63; lia).
    eexists _, _, _. split; [reflexivity |].
    cbn [fst ListResult.data ListResult.pagination Pagination.limit Pagination.offset
           db snd].
    split; [reflexivity |]. split; [| split; [| split]]; try (symmetry; assumption).
    + exists l. split; [reflexivity |]. rewrite length_take. lia.
    + reflexivity.
  - intros Hbig. rewrite (listTasks_invalid_page q w).
    + eexists. split; reflexivity.
    + rewrite El. destruct Hbig as [-> | (o & -> & Ho63)]; [reflexivity |].
      rewrite (int64_beyond o Ho63), andb_false_r. reflexivity.
Qed.

Lemma list_valid_query_witness :
  exists data pagination w',
    TaskController.list (Request.mk "" None (obj [("limit", JStr "2")])) three_tasks
    = (Sent (mkResponse 200 (ListBody true data pagination)), w')
    /\ fst (TaskService.listTasks (ListTasksQuery.mk None None (JS.Int 2) (JS.Int 0))
              three_tasks)
       = inr (ListResult.mk data pagination)
    /\ (exists l, Pagination.limit pagination = JS.Int l
                   /\ Z.of_nat (List.length data) <= l <= 100)
    /\ Pagination.limit pagination = JS.Int 2
    /\ Pagination.offset pagination = JS.Int 0
    /\ db w' = db three_tasks.
Proof.
  apply (proj1 (list_valid_query None
                  (Request.mk "" None (obj [("limit", JStr "2")])) three_tasks
                  (ListTasksQuery.mk None None (JS.Int 2) (JS.Int 0))
                  ltac:(vm_compute; reflexivity)) 0 eq_refl).
  rewrite pow2_63. lia.
Defined.

Example list_offset_2_63_is_500 :
  fst (respond None TaskController.list
         (Request.mk "" None (obj [("offset", JStr "9223372036854775808")])) three_tasks)
  = mkResponse 500 (ErrorBody false "Internal server error" None None).
Proof. vm_compute. reflexivity. Qed.

(** X21. Deleting a stored task through the [delete] route answers 200
    "Task deleted successfully", and [getById] on the same id (a 64-bit
    integer) then answers 404 "Task not found". *)
Theorem delete_then_getById (NODE_ENV : option string) (req : Request.t)
    (w : World) (id : Z) (t : Task.t) :
  JS.parseInt10 (Request.id req) = JS.Int id ->
  tasks (db w) !! id = Some t ->
  Prisma.int64 id = true ->
  fst (respond NODE_ENV TaskController.delete req w)
  = mkResponse 200 (MessageBody true "Task deleted successfully")
  /\ fst (respond NODE_ENV TaskController.getById req
            (snd (respond NODE_ENV TaskController.delete req w)))
     = mkResponse 404 (ErrorBody false "Task not found" None None).
Proof.
  intros Hid H Hz.
  assert (Hn : JS.parseInt10 (Request.id req) <> JS.NaN) by (rewrite Hid; discriminate).
  assert (Ed : TaskController.delete req w
               = (Sent (mkResponse 200 (MessageBody true "Task deleted successfully")),
                  mkWorld (mkDB (base.delete id (tasks (db w))) (nextId (db w))
                             (now (db w)))
                    (calls w ++ [CallDeleteTask (JS.Int id)]))).
  { rewrite (delete_parsed req w Hn), Hid. unfold try_next. run. rewrite H.
    reflexivity. }
  unfold respond. rewrite Ed. cbn [fst snd]. split; [reflexivity |].
  rewrite (getById_parsed req _ Hn), Hid. unfold try_next. run.
  cbn [db tasks]. rewrite lookup_delete_eq, Hz. reflexivity.
Qed.

Lemma delete_then_getById_witness :
  fst (respond None TaskController.delete (Request.mk "3" None None) three_tasks)
  = mkResponse 200 (MessageBody true "Task deleted successfully")
  /\ fst (respond None TaskController.getById (Request.mk "3" None None)
            (snd (respond None TaskController.delete (Request.mk "3" None None)
                    three_tasks)))
     = mkResponse 404 (ErrorBody false "Task not found" None None).
Proof.
  apply (delete_then_getById None (Request.mk "3" None None) three_tasks 3
           (Task.mk 3 "c" (Some "a") "completed" 30 30) eq_refl);
    vm_compute; reflexivity.
Defined.

(** ** The id middleware *)

(** X22. On the decimal notation of an integer [k], [validateTaskId]
    answers 400 "Invalid task ID" with the message "Task ID must be a
    positive integer" when [k] is zero or negative, and passes on the
    Number value of [k] as [parsedId] when [k] is positive: [k] itself up
    to 2^53, the nearest double beyond. *)
Theorem validateTaskId_decimal (req : Request.t) (k : Z) :
  Request.id req = pretty k ->
  validateTaskId req
  = (if 0 <? k then Passed (JS.number_value k)
     else Rejected (mkResponse 400
                      (ErrorBody false "Invalid task ID" None
                         (Some "Task ID must be a positive integer"))))
  /\ (Z.abs k <= 2 ^ 53 -> JS.number_value k = JS.Int k).
Proof.
  intros H. split; [| apply number_value_exact].
  unfold validateTaskId. rewrite H, parseInt10_pretty.
  rewrite number_value_le by (rewrite pow2_53; lia).
  destruct (JS.isNaN (JS.number_value k)) eqn:E.
  { destruct (JS.number_value k) eqn:Ek; try discriminate E.
    destruct (number_value_not_NaN _ Ek). }
  cbn [orb]. destruct (Z.leb_spec k 0), (Z.ltb_spec 0 k); try lia; reflexivity.
Qed.

Lemma validateTaskId_decimal_witness :
  validateTaskId (Request.mk "42" None None)
  = (if 0 <? 42 then Passed (JS.number_value 42)
     else Rejected (mkResponse 400
                      (ErrorBody false "Invalid task ID" None
                         (Some "Task ID must be a positive integer"))))
  /\ (Z.abs 42 <= 2 ^ 53 -> JS.number_value 42 = JS.Int 42).
Proof.
  apply (validateTaskId_decimal (Request.mk "42" None None) 42).
  vm_compute. reflexivity.
Defined.

Example validateTaskId_rounds :
  validateTaskId (Request.mk "9007199254740993" None None)
  = Passed (JS.Int 9007199254740992).
Proof. vm_compute. reflexivity. Qed.

(** X23. An id that [validateTaskId] lets through is positive (an integer
    above 0, or [Infinity]), and it is the id that the handlers read from
    the same request: [getById] and [delete] enter the service with it,
    and so does [update] when the body validates. *)
Theorem validateTaskId_agrees_with_handlers (req : Request.t) (k : JS.number) :
  validateTaskId req = Passed k ->
  (k = JS.Infinity \/ exists z, k = JS.Int z /\ 0 < z)
  /\ forall w,
      calls (snd (TaskController.getById req w)) = calls w ++ [CallGetTaskById k]
      /\ calls (snd (TaskController.delete req w)) = calls w ++ [CallDeleteTask k]
      /\ (forall data, parse updateTaskSchema (Request.body req) = inr data ->
          calls (snd (TaskController.update req w))
          = calls w ++ [CallUpdateTask k data]).
Proof.
  unfold validateTaskId.
  destruct (JS.isNaN _ || JS.le _ _) eqn:E; [discriminate |]. intros [= <-].
  apply orb_false_iff in E as [E1 E2].
  assert (Hn : JS.parseInt10 (Request.id req) <> JS.NaN).
  { intros Hn. rewrite Hn in E1. discriminate E1. }
  split.
  - destruct (JS.parseInt10 (Request.id req)) as [| | |z];
      try discriminate; [left; reflexivity |].
    right. exists z. split; [reflexivity |]. cbn in E2. lia.
  - intros w. split; [apply getById_enters, Hn |].
    split; [apply delete_enters, Hn |].
    intros data Hd. apply update_enters; assumption.
Qed.

Lemma validateTaskId_agrees_with_handlers_witness :
  (JS.Int 1 = JS.Infinity \/ exists z, JS.Int 1 = JS.Int z /\ 0 < z)
  /\ forall w,
      calls (snd (TaskController.getById (Request.mk "1.5" None None) w))
      = calls w ++ [CallGetTaskById (JS.Int 1)]
      /\ calls (snd (TaskController.delete (Request.mk "1.5" None None) w))
         = calls w ++ [CallDeleteTask (JS.Int 1)]
      /\ (forall data,
          parse updateTaskSchema (Request.body (Request.mk "1.5" None None)) = inr data ->
          calls (snd (TaskController.update (Request.mk "1.5" None None) w))
          = calls w ++ [CallUpdateTask (JS.Int 1) data]).
Proof.
  apply (validateTaskId_agrees_with_handlers (Request.mk "1.5" None None) (JS.Int 1)).
  vm_compute. reflexivity.
Defined.

(** X24. The handlers themselves do not ask for a positive id: on the
    decimal notation of any integer [k], zero and negative ones included,
    [getById] and [delete] enter the service with the Number value of [k],
    which is [k] itself when [k] has at most 53 bits. *)
Theorem handlers_accept_any_integer (req : Request.t) (w : World) (k : Z) :
  Request.id req = pretty k ->
  calls (snd (TaskController.getById req w))
  = calls w ++ [CallGetTaskById (JS.number_value k)]
  /\ calls (snd (TaskController.delete req w))
     = calls w ++ [CallDeleteTask (JS.number_value k)]
  /\ (Z.abs k <= 2 ^ 53 -> JS.number_value k = JS.Int k).
Proof.
  intros H.
  assert (Hn : JS.parseInt10 (Request.id req) <> JS.NaN)
    by (rewrite H, parseInt10_pretty; apply number_value_not_NaN).
  rewrite (getById_enters req w Hn), (delete_enters req w Hn), H, parseInt10_pretty.
  split; [reflexivity | split; [reflexivity | apply number_value_exact]].
Qed.

Lemma handlers_accept_any_integer_witness :
  calls (snd (TaskController.getById (Request.mk "-5" None None) three_tasks))
  = calls three_tasks ++ [CallGetTaskById (JS.number_value (-5))]
  /\ calls (snd (TaskController.delete (Request.mk "-5" None None) three_tasks))
     = calls three_tasks ++ [CallDeleteTask (JS.number_value (-5))]
  /\ (Z.abs (-5) <= 2 ^ 53 -> JS.number_value (-5) = JS.Int (-5)).
Proof.
  apply (handlers_accept_any_integer (Request.mk "-5" None None) three_tasks (-5)).
  vm_compute. reflexivity.
Defined.

(** ** The error translator, further *)

(** X25. Outside development mode the error translator discloses no error
    message, whatever the error; and field details appear only for a
    validation error, one per issue. *)
Theorem errorHandler_discloses_nothing (NODE_ENV : option string) (e : Error) :
  NODE_ENV <> Some "development" ->
  body_message (body (errorHandler NODE_ENV e)) = None
  /\ (forall ds, body_details (body (errorHandler NODE_ENV e)) = Some ds ->
      exists errors, e = ZodError errors /\ List.length ds = List.length errors).
Proof.
  intros H.
  assert (Hi : forall msg,
             internal_server_error NODE_ENV msg
             = mkResponse 500 (ErrorBody false "Internal server error" None None)).
  { intros msg. unfold internal_server_error.
    rewrite bool_decide_eq_false_2 by exact H. reflexivity. }
  destruct e as [errors | code msg | msg]; cbn [errorHandler].
  - split; [reflexivity |]. intros ds [= <-]. exists errors.
    split; [reflexivity | apply length_map].
  - destruct (String.eqb code "P2025"); [split; [reflexivity | discriminate] |].
    destruct (String.eqb code "P2002"); [split; [reflexivity | discriminate] |].
    rewrite Hi. split; [reflexivity | discriminate].
  - rewrite Hi. split; [reflexivity | discriminate].
Qed.

Lemma errorHandler_discloses_nothing_witness :
  body_message (body (errorHandler (Some "production") (OtherError "db password")))
  = None
  /\ (forall ds,
      body_details (body (errorHandler (Some "production") (OtherError "db password")))
      = Some ds ->
      exists errors, OtherError "db password" = ZodError errors
                     /\ List.length ds = List.length errors).
Proof.
  apply (errorHandler_discloses_nothing (Some "production") (OtherError "db password")).
  discriminate.
Defined.

Ltac issue_paths :=
  let i := fresh "i" in let Hi := fresh "Hi" in
  intros i Hi;
  repeat (apply elem_of_cons in Hi as [-> | Hi]);
  [.. | inversion Hi];
  cbn [Zod.path Zod.invalid_type_issue nothing_to_update];
  repeat match goal with Hp : Zod.path _ = _ |- _ => rewrite Hp; clear Hp end;
  unfold flat_paths; cbn [map]; in_list.

Lemma createTaskSchema_paths (v : value) (errors : list Zod.ZodIssue) :
  parse createTaskSchema v = inl (ZodError errors) ->
  paths_in (flat_paths ["title"; "description"; "status"]) errors.
Proof.
  destruct v as [[| | | | | o]|]; try (intros [= <-]; issue_paths).
  pose proof (string_bounded [Zod.PKey "title"] "Title is required" "Title too long"
                (o !! "title")) as Ht.
  pose proof (string_optional [Zod.PKey "description"] (o !! "description")) as Hd.
  pose proof (status_default [Zod.PKey "status"] (o !! "status")) as Hs.
  unfold parse, createTaskSchema, object3, Zod.prop, Zod.merge.
  cbn [app].
  destruct (title_ok (o !! "title")), (string_if_present (o !! "description")),
    (status_ok_if_present (o !! "status"));
    use_field Ht; use_field Hd; use_field Hs; cbn.
  all: try discriminate.
  all: intros [= <-]; issue_paths.
Qed.

Lemma updateTaskSchema_paths (v : value) (errors : list Zod.ZodIssue) :
  parse updateTaskSchema v = inl (ZodError errors) ->
  paths_in (flat_paths ["title"; "description"; "status"]) errors.
Proof.
  destruct v as [[| | | | | o]|]; try (intros [= <-]; issue_paths).
  pose proof (title_optional [Zod.PKey "title"] "Title cannot be empty" "Title too long"
                (o !! "title")) as Ht.
  pose proof (string_optional [Zod.PKey "description"] (o !! "description")) as Hd.
  pose proof (status_optional [Zod.PKey "status"] (o !! "status")) as Hs.
  unfold parse, updateTaskSchema, Zod.refine, object3, Zod.prop, Zod.merge.
  cbn [app].
  destruct (title_ok_if_present (o !! "title")),
    (string_if_present (o !! "description")),
    (status_ok_if_present (o !! "status"));
    use_field Ht; use_field Hd; use_field Hs; cbn.
  1: destruct (UpdateTaskInput.keys_length _); cbn.
  all: try discriminate.
  all: intros [= <-]; issue_paths.
Qed.

Lemma listTasksQuerySchema_paths (v : value) (errors : list Zod.ZodIssue) :
  parse listTasksQuerySchema v = inl (ZodError errors) ->
  paths_in (flat_paths ["status"; "search"; "limit"; "offset"]) errors.
Proof.
  destruct v as [[| | | | | o]|]; try (intros [= <-]; issue_paths).
  pose proof (status_optional [Zod.PKey "status"] (o !! "status")) as Hs.
  pose proof (string_optional [Zod.PKey "search"] (o !! "search")) as Hq.
  pose proof (limit_field [Zod.PKey "limit"] (o !! "limit")) as Hl.
  pose proof (offset_field [Zod.PKey "offset"] (o !! "offset")) as Ho.
  unfold parse, listTasksQuerySchema, object4, Zod.prop, Zod.merge.
  cbn [app].
  destruct (status_ok_if_present (o !! "status")),
    (string_if_present (o !! "search")),
    (limit_ok (o !! "limit")), (offset_ok (o !! "offset"));
    use_field Hs; use_field Hq; use_field Hl; use_field Ho; cbn.
  all: try discriminate.
  all: intros [= <-]; issue_paths.
Qed.

Lemma detail_field_of_path (keys : list string) (i : Zod.ZodIssue) :
  Zod.path i ∈ flat_paths keys -> Detail.field (detail_of i) ∈ "" :: keys.
Proof.
  unfold detail_of, flat_paths. cbn [Detail.field].
  intros H. apply elem_of_cons in H as [-> | H]; [left |].
  apply list_elem_of_fmap in H as (k & -> & Hk). right. exact Hk.
Qed.

Lemma details_within (keys : list string) (NODE_ENV : option string) (e : Error) :
  (forall errors, e = ZodError errors -> paths_in (flat_paths keys) errors) ->
  forall ds d, body_details (body (errorHandler NODE_ENV e)) = Some ds -> d ∈ ds ->
               Detail.field d ∈ "" :: keys.
Proof.
  intros H ds d. destruct e as [errors | code msg | msg]; cbn [errorHandler].
  - intros [= <-] Hd. apply list_elem_of_fmap in Hd as (i & -> & Hi).
    apply detail_field_of_path, (H errors eq_refl), Hi.
  - destruct (String.eqb code "P2025"); [discriminate |].
    destruct (String.eqb code "P2002"); discriminate.
  - discriminate.
Qed.

(** X26. The details of a validation error name only what the schema knows:
    when a creation or update payload is rejected, every [field] in the 400
    response is "title", "description", "status" or the empty string (an
    error on the payload as a whole); for a rejected list query it is
    "status", "search", "limit", "offset" or the empty string. *)
Theorem validation_details_name_schema_fields (NODE_ENV : option string)
    (v : value) (e : Error) :
  (parse createTaskSchema v = inl e \/ parse updateTaskSchema v = inl e ->
   forall ds d, body_details (body (errorHandler NODE_ENV e)) = Some ds -> d ∈ ds ->
                Detail.field d ∈ [""; "title"; "description"; "status"])
  /\ (parse listTasksQuerySchema v = inl e ->
      forall ds d, body_details (body (errorHandler NODE_ENV e)) = Some ds -> d ∈ ds ->
                   Detail.field d ∈ [""; "status"; "search"; "limit"; "offset"]).
Proof.
  split.
  - intros [H | H]; apply details_within; intros errors ->.
    + apply (createTaskSchema_paths v), H.
    + apply (updateTaskSchema_paths v), H.
  - intros H. apply details_within. intros errors ->.
    apply (listTasksQuerySchema_paths v), H.
Qed.

(** ** problem4: the three sums *)

Lemma sum_loop_step to i sum :
  sum_loop to i sum = if decide (i <= to) then sum_loop to (i + 1) (sum + i) else sum.
Proof.
  rewrite sum_loop_equation.
  destruct (Z_le_dec i to), (decide (i <= to)); try lia; reflexivity.
Qed.

Lemma sum_to_n_c_step n :
  sum_to_n_c n
  = if decide (n = 0) then 0
    else if decide (n > 0) then n + sum_to_n_c (n - 1) else n + sum_to_n_c (n + 1).
Proof.
  rewrite sum_to_n_c_equation.
  destruct (Z.eq_dec n 0), (decide (n = 0)); try lia; try reflexivity.
  all: destruct (Z_gt_dec n 0), (decide (n > 0)); try lia; reflexivity.
Qed.

Lemma sum_to_n_a_step n :
  sum_to_n_a n = if decide (n < 0) then - sum_to_n_a (- n) else n * (n + 1) / 2.
Proof.
  rewrite sum_to_n_a_equation.
  destruct (Z_lt_dec n 0), (decide (n < 0)); try lia; reflexivity.
Qed.

Lemma sum_between_step lo hi : lo <= hi -> sum_between lo hi = lo + sum_between (lo + 1) hi.
Proof.
  intros H. unfold sum_between. rewrite seqZ_cons by lia. cbn [foldr].
  do 3 f_equal; lia.
Qed.

Lemma sum_between_empty lo hi : hi < lo -> sum_between lo hi = 0.
Proof. intros H. unfold sum_between. rewrite seqZ_nil by lia. reflexivity. Qed.

Lemma sum_between_last lo hi : lo <= hi -> sum_between lo hi = sum_between lo (hi - 1) + hi.
Proof.
  intros H. unfold sum_between.
  replace (hi - lo + 1) with ((hi - 1 - lo + 1) + 1) by lia.
  rewrite seqZ_app by lia. rewrite foldr_app.
  rewrite seqZ_cons, seqZ_nil by lia. cbn [foldr].
  replace (lo + (hi - 1 - lo + 1) + 0) with hi by lia.
  generalize (seqZ lo (hi - 1 - lo + 1)). intros l. revert hi H.
  induction l as [| x l IH]; intros; cbn; [lia |].
  rewrite IH by assumption. lia.
Qed.

Lemma sum_between_closed lo hi :
  lo <= hi + 1 -> 2 * sum_between lo hi = (hi - lo + 1) * (lo + hi).
Proof.
  intros H. remember (Z.to_nat (hi - lo + 1)) as k eqn:Ek.
  revert lo H Ek. induction k as [| k IH]; intros lo H Ek.
  - rewrite sum_between_empty by lia. nia.
  - rewrite sum_between_step by lia.
    specialize (IH (lo + 1) ltac:(lia) ltac:(lia)). nia.
Qed.

Lemma sum_loop_spec to i sum : sum_loop to i sum = sum + sum_between i to.
Proof.
  remember (Z.to_nat (to - i + 1)) as k eqn:Ek.
  revert i sum Ek. induction k as [| k IH]; intros i sum Ek;
    rewrite sum_loop_step; destruct (decide (i <= to)); try lia.
  - rewrite sum_between_empty by lia. lia.
  - rewrite IH by lia. rewrite (sum_between_step i to) by lia. lia.
Qed.

Lemma sum_to_n_c_spec n :
  sum_to_n_c n = sum_to n.
Proof.
  unfold sum_to. remember (Z.abs_nat n) as k eqn:Ek.
  revert n Ek. induction k as [| k IH]; intros n Ek; rewrite sum_to_n_c_step.
  - destruct (decide (n = 0)); [| lia]. subst. reflexivity.
  - destruct (decide (n = 0)); [lia |].
    destruct (decide (n > 0)).
    + rewrite IH by lia. destruct (decide (0 <= n - 1)), (decide (0 <= n)); try lia.
      rewrite (sum_between_last 1 n) by lia. lia.
    + rewrite IH by lia. destruct (decide (0 <= n + 1)), (decide (0 <= n)); try lia.
      * assert (n = -1) by lia. subst. reflexivity.
      * rewrite (sum_between_step n (-1)) by lia. reflexivity.
Qed.

Lemma sum_to_n_a_spec n :
  sum_to_n_a n = sum_to n.
Proof.
  assert (Hpos : forall m, 0 <= m -> sum_to_n_a m = sum_between 1 m).
  { intros m Hm. rewrite sum_to_n_a_step. destruct (decide (m < 0)); [lia |].
    pose proof (sum_between_closed 1 m ltac:(lia)) as H.
    replace (m * (m + 1)) with (sum_between 1 m * 2) by lia.
    apply Z.div_mul. lia. }
  unfold sum_to. destruct (decide (0 <= n)); [apply Hpos; assumption |].
  rewrite sum_to_n_a_step. destruct (decide (n < 0)); [| lia].
  rewrite Hpos by lia.
  pose proof (sum_between_closed 1 (- n) ltac:(lia)).
  pose proof (sum_between_closed n (-1) ltac:(lia)). lia.
Qed.

Lemma sum_to_n_b_spec n : sum_to_n_b n = sum_to n.
Proof.
  unfold sum_to_n_b, sum_to. rewrite !sum_loop_spec.
  destruct (Z.leb_spec 0 n), (decide (0 <= n)); try lia; reflexivity.
Qed.

Lemma sum_to_closed n : sum_to n = Z.sgn n * (Z.abs n * (Z.abs n + 1) / 2).
Proof.
  unfold sum_to. destruct (decide (0 <= n)).
  - pose proof (sum_between_closed 1 n ltac:(lia)) as H.
    replace (Z.abs n * (Z.abs n + 1)) with (sum_between 1 n * 2) by lia.
    rewrite Z.div_mul by lia.
    destruct (Z.eq_dec n 0) as [-> | N]; [reflexivity |].
    rewrite Z.sgn_pos by lia. lia.
  - pose proof (sum_between_closed n (-1) ltac:(lia)) as H.
    replace (Z.abs n * (Z.abs n + 1)) with (- sum_between n (-1) * 2) by lia.
    rewrite Z.div_mul by lia. rewrite Z.sgn_neg by lia. lia.
Qed.

(** X27. For every integer in the safe range the three implementations
    return the sum of the integers from 1 to n, and for a negative n the sum
    of the integers from n to -1; in particular they agree. *)
Theorem sum_to_n_meaning (n : Z) :
  safe_argument n ->
  sum_to_n_a n = sum_to n /\ sum_to_n_b n = sum_to n /\ sum_to_n_c n = sum_to n.
Proof.
  intros _. split; [apply sum_to_n_a_spec | split];
    [apply sum_to_n_b_spec | apply sum_to_n_c_spec].
Qed.

Lemma sum_to_n_meaning_witness :
  sum_to_n_a 100 = sum_to 100 /\ sum_to_n_b 100 = sum_to 100
  /\ sum_to_n_c 100 = sum_to 100.
Proof.
  apply (sum_to_n_meaning 100). unfold safe_argument. vm_compute. discriminate.
Defined.

(** X28. The loop and the recursion compute the closed form of the formula,
    sgn(n) * |n| * (|n| + 1) / 2, and each of the three is odd: the result
    for -n is the negated result for n. *)
Theorem sum_to_n_closed_form (n : Z) :
  safe_argument n ->
  (sum_to_n_b n = Z.sgn n * (Z.abs n * (Z.abs n + 1) / 2)
   /\ sum_to_n_c n = Z.sgn n * (Z.abs n * (Z.abs n + 1) / 2))
  /\ sum_to_n_a (- n) = - sum_to_n_a n
  /\ sum_to_n_b (- n) = - sum_to_n_b n
  /\ sum_to_n_c (- n) = - sum_to_n_c n.
Proof.
  intros _.
  rewrite !sum_to_n_a_spec, !sum_to_n_b_spec, !sum_to_n_c_spec, !sum_to_closed.
  rewrite Z.sgn_opp, Z.abs_opp. repeat split; lia.
Qed.

Lemma sum_to_n_closed_form_witness :
  (sum_to_n_b (-5) = Z.sgn (-5) * (Z.abs (-5) * (Z.abs (-5) + 1) / 2)
   /\ sum_to_n_c (-5) = Z.sgn (-5) * (Z.abs (-5) * (Z.abs (-5) + 1) / 2))
  /\ sum_to_n_a (- -5) = - sum_to_n_a (-5)
  /\ sum_to_n_b (- -5) = - sum_to_n_b (-5)
  /\ sum_to_n_c (- -5) = - sum_to_n_c (-5).
Proof.
  apply (sum_to_n_closed_form (-5)). unfold safe_argument. vm_compute. discriminate.
Defined.

(** ** problem3: the balances of the wallet page *)

Lemma getPriority_agree (c : string) :
  Optimized.getPriority c = Refactored.getPriority c.
Proof.
  unfold Refactored.getPriority, Optimized.getPriority, Optimized.BLOCKCHAIN_PRIORITIES,
    Optimized.DEFAULT_PRIORITY.
  cbn [fold_left fst snd].
  destruct (String.eqb_spec c "Osmosis") as [-> | ?]; [reflexivity |].
  destruct (String.eqb_spec c "Ethereum") as [-> | ?]; [reflexivity |].
  destruct (String.eqb_spec c "Arbitrum") as [-> | ?]; [reflexivity |].
  destruct (String.eqb_spec c "Zilliqa") as [-> | ?]; [reflexivity |].
  destruct (String.eqb_spec c "Neo") as [-> | ?]; [reflexivity |].
  rewrite !lookup_insert_ne by congruence. reflexivity.
Qed.

Lemma getPriority_known (c : string) :
  -99 < Refactored.getPriority c <-> c ∈ known_chains.
Proof.
  unfold Refactored.getPriority, known_chains. rewrite list_elem_of_In. cbn [In].
  destruct (String.eqb_spec c "Osmosis") as [-> | ?]; [split; [tauto | lia] |].
  destruct (String.eqb_spec c "Ethereum") as [-> | ?]; [split; [tauto | lia] |].
  destruct (String.eqb_spec c "Arbitrum") as [-> | ?]; [split; [tauto | lia] |].
  destruct (String.eqb_spec c "Zilliqa") as [-> | ?]; [split; [tauto | lia] |].
  destruct (String.eqb_spec c "Neo") as [-> | ?]; [split; [tauto | lia] |].
  split; [lia | intuition congruence].
Qed.

Lemma compare_le (a b : WalletBalance.t) :
  Refactored.compare a b <= 0
  <-> Refactored.getPriority (WalletBalance.blockchain b)
      <= Refactored.getPriority (WalletBalance.blockchain a).
Proof.
  unfold Refactored.compare. cbn zeta.
  destruct (Z.ltb_spec (Refactored.getPriority (WalletBalance.blockchain b))
              (Refactored.getPriority (WalletBalance.blockchain a)));
    [lia |].
  destruct (Z.ltb_spec (Refactored.getPriority (WalletBalance.blockchain a))
              (Refactored.getPriority (WalletBalance.blockchain b))); lia.
Qed.

(** [js_sort] rearranges its list, puts it in the comparator's order and
    keeps the order of the elements that the comparator does not tell
    apart. *)
Section StableSort.

Context {A : Type} (compare : A -> A -> Z).

Lemma sort_insert_Permutation (x : A) (l : list A) :
  sort_insert compare x l ≡ₚ x :: l.
Proof.
  induction l as [| y l IH]; cbn [sort_insert]; [reflexivity |].
  destruct (compare x y <=? 0); [reflexivity |].
  rewrite IH. apply Permutation_swap.
Qed.

Lemma js_sort_Permutation (l : list A) : js_sort compare l ≡ₚ l.
Proof.
  induction l as [| x l IH]; [reflexivity |].
  unfold js_sort in *. cbn [foldr]. rewrite sort_insert_Permutation, IH. reflexivity.
Qed.

Lemma sort_insert_filter (P : A -> bool) (x : A) (l : list A) :
  (forall y, P x = true -> P y = true -> compare x y <= 0) ->
  List.filter P (sort_insert compare x l) = List.filter P (x :: l).
Proof.
  intros HP. induction l as [| y l IH]; cbn [sort_insert]; [reflexivity |].
  destruct (Z.leb_spec (compare x y) 0) as [Hle | Hgt]; [reflexivity |].
  cbn [List.filter] in *. rewrite IH.
  destruct (P x) eqn:Ex, (P y) eqn:Ey; try reflexivity.
  specialize (HP y eq_refl Ey). lia.
Qed.

Lemma js_sort_stable (P : A -> bool) (l : list A) :
  (forall x y, P x = true -> P y = true -> compare x y <= 0) ->
  List.filter P (js_sort compare l) = List.filter P l.
Proof.
  intros HP. induction l as [| x l IH]; [reflexivity |].
  unfold js_sort in *. cbn [foldr].
  rewrite sort_insert_filter by (intros y; apply HP).
  cbn [List.filter]. rewrite IH. reflexivity.
Qed.

Hypothesis compare_transitive :
  forall a b c, compare a b <= 0 -> compare b c <= 0 -> compare a c <= 0.
Hypothesis compare_total : forall a b, compare a b <= 0 \/ compare b a <= 0.

Lemma sort_insert_sorted (x : A) (l : list A) :
  StronglySorted (fun a b => compare a b <= 0) l ->
  StronglySorted (fun a b => compare a b <= 0) (sort_insert compare x l).
Proof.
  induction 1 as [| y l Hl IH Hy]; cbn [sort_insert].
  - constructor; constructor.
  - destruct (Z.leb_spec (compare x y) 0) as [Hle | Hgt].
    + constructor; [constructor; assumption |].
      constructor; [exact Hle |].
      eapply Forall_impl; [exact Hy |]. intros z Hz.
      exact (compare_transitive _ _ _ Hle Hz).
    + constructor; [exact IH |].
      rewrite sort_insert_Permutation. constructor; [| exact Hy].
      destruct (compare_total y x); [assumption | lia].
Qed.

Lemma js_sort_sorted (l : list A) :
  StronglySorted (fun a b => compare a b <= 0) (js_sort compare l).
Proof.
  induction l as [| x l IH]; [constructor |].
  unfold js_sort in *. cbn [foldr]. apply sort_insert_sorted, IH.
Qed.

End StableSort.

Example js_sort_keeps_ties :
  js_sort (fun a b : Z * string => b.1 - a.1)
    [(1, "A"); (1, "B"); (2, "C"); (1, "D"); (2, "E")]
  = [(2, "C"); (2, "E"); (1, "A"); (1, "B"); (1, "D")].
Proof. reflexivity. Qed.

(** X29. [sortedBalances] keeps exactly the balances of a known chain with a
    positive amount - each as often as it occurs - and lists them by priority,
    highest first; balances of one priority stay in the order in which the
    input has them. *)
Theorem sortedBalances_spec (balances : list WalletBalance.t) :
  (forall b, b ∈ Refactored.sortedBalances balances
             <-> b ∈ balances
                 /\ WalletBalance.blockchain b ∈ known_chains
                 /\ QArith_base.Qlt (QArith_base.Qmake 0 1) (WalletBalance.amount b))
  /\ Refactored.sortedBalances balances ≡ₚ List.filter Refactored.keep balances
  /\ (forall i j a b,
        (i < j)%nat ->
        Refactored.sortedBalances balances !! i = Some a ->
        Refactored.sortedBalances balances !! j = Some b ->
        Refactored.getPriority (WalletBalance.blockchain b)
        <= Refactored.getPriority (WalletBalance.blockchain a))
  /\ (forall p,
        List.filter (fun b => Refactored.getPriority (WalletBalance.blockchain b) =? p)
          (Refactored.sortedBalances balances)
        = List.filter (fun b => Refactored.getPriority (WalletBalance.blockchain b) =? p)
            (List.filter Refactored.keep balances)).
Proof.
  unfold Refactored.sortedBalances. split; [| split; [| split]].
  - intros b. rewrite js_sort_Permutation.
    rewrite list_elem_of_In, filter_In, <- list_elem_of_In.
    unfold Refactored.keep, positive. cbn zeta.
    rewrite andb_true_iff, Z.ltb_lt, getPriority_known.
    destruct (QArith_base.Qlt_le_dec _ _) as [H | H].
    + tauto.
    + split; [intros (_ & _ & [=]) |].
      intros (_ & _ & H'). exfalso. exact (QArith_base.Qlt_not_le _ _ H' H).
  - apply js_sort_Permutation.
  - intros i j a b Hij Ha Hb. apply compare_le.
    eapply (StronglySorted_lookup (fun a b => Refactored.compare a b <= 0));
      [| exact Hij | exact Ha | exact Hb].
    apply js_sort_sorted.
    + intros x y z. rewrite !compare_le. lia.
    + intros x y. rewrite !compare_le. lia.
  - intros p. apply js_sort_stable.
    intros x y Hx Hy. apply Z.eqb_eq in Hx, Hy. apply compare_le. lia.
Qed.

Example sortedBalances_of_five :
  map WalletBalance.currency
    (Refactored.sortedBalances
       [WalletBalance.mk "ZIL" (QArith_base.Qmake 1 1) "Zilliqa";
        WalletBalance.mk "ETH" (QArith_base.Qmake 2 1) "Ethereum";
        WalletBalance.mk "NEO" (QArith_base.Qmake 3 1) "Neo";
        WalletBalance.mk "BTC" (QArith_base.Qmake 4 1) "Bitcoin";
        WalletBalance.mk "ETH2" (QArith_base.Qmake 5 1) "Ethereum";
        WalletBalance.mk "OSMO" (QArith_base.Qmake 0 1) "Osmosis"])
  = ["ETH"; "ETH2"; "ZIL"; "NEO"].
Proof. vm_compute. reflexivity. Qed.

(** X30. The two versions of the component rank alike: the switch and the
    map give every chain the same priority, -99 exactly for a chain that is
    not known; they keep the same balances; and their comparators put two
    balances in the same order. *)
Theorem wallet_versions_agree :
  (forall c, Optimized.getPriority c = Refactored.getPriority c)
  /\ (forall c, Refactored.getPriority c = -99 <-> c ∉ known_chains)
  /\ (forall b, Optimized.keep b = Refactored.keep b)
  /\ (forall a b,
        (Optimized.compare a b < 0 <-> Refactored.compare a b < 0)
        /\ (Optimized.compare a b = 0 <-> Refactored.compare a b = 0)
        /\ (Optimized.compare a b > 0 <-> Refactored.compare a b > 0)).
Proof.
  split; [exact getPriority_agree | split; [| split]].
  - intros c. rewrite <- getPriority_known.
    assert (-99 <= Refactored.getPriority c); [| lia].
    unfold Refactored.getPriority. repeat destruct (String.eqb _ _); lia.
  - intros b. unfold Optimized.keep, Refactored.keep, Optimized.MIN_VALID_PRIORITY.
    cbn zeta. rewrite getPriority_agree. reflexivity.
  - intros a b. unfold Optimized.compare, Refactored.compare. cbn zeta.
    rewrite !getPriority_agree.
    destruct (Z.ltb_spec (Refactored.getPriority (WalletBalance.blockchain b))
                (Refactored.getPriority (WalletBalance.blockchain a)));
      [lia |].
    destruct (Z.ltb_spec (Refactored.getPriority (WalletBalance.blockchain a))
                (Refactored.getPriority (WalletBalance.blockchain b))); lia.
Qed.

